(** * anything-rag: document state reconciliation and caption normalisation

    A shallow embedding of the parts of [rag_manager.py], [query_interface.py]
    and [config.py] that track which documents were ingested (the processed
    files cache, the pending and processed directories, the knowledge-base
    document table) and of the caption normaliser [robust_llm_func].

    Python objects are modelled as follows.
    - [str] is [string]; one [ascii] stands for one character, by its code
      point. The model covers the texts whose code points are below 256.
    - A [pathlib.Path] is a pair (parent directory, final component); [path_str]
      is [str(path)].
    - [set] is [gset], [dict] is [gmap].
    - Code that touches the filesystem, prints or raises runs in the monad [M]:
      a state monad over [World] whose results are [Ok] or [Raised].
    - What the code cannot decide by itself is in [Env]: the configured
      documents directory, the platform of [os.path], the extraction
      pipeline, and the filesystem operations that the system refuses.
    - Printed and logged lines are kept in [out], without their pictographs
      and without the logger's time stamp. *)

From Stdlib Require Import Ascii String.
From stdpp Require Import gmap strings list fin_maps sorting pretty.

Local Open Scope string_scope.

(** ** Python string operations *)

Module Py.

(** [s.endswith(suffix)] *)
Fixpoint endswith (s suffix : string) : bool :=
  String.eqb s suffix ||
  match s with
  | EmptyString => false
  | String _ s' => endswith s' suffix
  end.

(** [s.startswith(prefix)] *)
Definition startswith (s pre : string) : bool := String.prefix pre s.

(** [needle in s] *)
Fixpoint contains (needle s : string) : bool :=
  String.prefix needle s ||
  match s with
  | EmptyString => false
  | String _ s' => contains needle s'
  end.

(** truth value of a string: [if s:] *)
Definition truthy (s : string) : bool := negb (String.eqb s "").

(** The capitals below code point 256 are [A] to [Z] and 192 to 222 without
    the multiplication sign 215; each has its small letter 32 places on. *)
Definition lower_char (c : ascii) : ascii :=
  let n := nat_of_ascii c in
  if ((65 <=? n)%nat && (n <=? 90)%nat)
     || ((192 <=? n)%nat && (n <=? 222)%nat && negb (n =? 215)%nat)
  then ascii_of_nat (n + 32) else c.

(** [s.lower()] *)
Fixpoint lower (s : string) : string :=
  match s with
  | EmptyString => EmptyString
  | String c s' => String (lower_char c) (lower s')
  end.

(** [s[:n]] *)
Definition take (n : nat) (s : string) : string := String.substring 0 n s.

(** [s[n:]] *)
Fixpoint drop (n : nat) (s : string) : string :=
  match n, s with
  | O, _ => s
  | S n', String _ s' => drop n' s'
  | S _, EmptyString => EmptyString
  end.

(** the text after the last occurrence of a character satisfying [sep]
    (the whole string when there is none): [s.split(c)[-1]]. [acc] is the
    text read since the last separator, reversed. *)
Fixpoint after_last_go (sep : ascii -> bool) (s : string) (acc : string) : string :=
  match s with
  | EmptyString => String.rev acc
  | String c s' =>
      if sep c then after_last_go sep s' EmptyString
      else after_last_go sep s' (String c acc)
  end.

Definition after_last (sep : ascii -> bool) (s : string) : string :=
  after_last_go sep s EmptyString.

(** [s.replace(a, b)] for single characters *)
Fixpoint replace_char (a b : ascii) (s : string) : string :=
  match s with
  | EmptyString => EmptyString
  | String c s' => String (if Ascii.eqb c a then b else c) (replace_char a b s')
  end.

(** [c.isspace()], which is also what [strip()] removes and what [\s]
    matches: tab to carriage return, the four separators 28 to 31, the
    space, the next-line character 133 and the no-break space 160. *)
Definition isspace (c : ascii) : bool :=
  let n := nat_of_ascii c in
  ((9 <=? n)%nat && (n <=? 13)%nat) || ((28 <=? n)%nat && (n <=? 32)%nat)
  || (n =? 133)%nat || (n =? 160)%nat.

(** [s.lstrip()] *)
Fixpoint lstrip (s : string) : string :=
  match s with
  | String c s' => if isspace c then lstrip s' else s
  | EmptyString => EmptyString
  end.

(** [s.strip()] *)
Definition strip (s : string) : string :=
  String.rev (lstrip (String.rev (lstrip s))).

Definition digit (c : ascii) : option Z :=
  let n := nat_of_ascii c in
  if (48 <=? n)%nat && (n <=? 57)%nat then Some (Z.of_nat (n - 48)) else None.

(** Decimal digits, with single underscores between digits. *)
Fixpoint digits (s : string) (acc : Z) (after_digit : bool) : option Z :=
  match s with
  | EmptyString => if after_digit then Some acc else None
  | String c s' =>
      match digit c with
      | Some d => digits s' (10 * acc + d) true
      | None =>
          if Ascii.eqb c "_" && after_digit
             && match s' with
                | String c' _ => bool_decide (is_Some (digit c'))
                | EmptyString => false
                end
          then digits s' acc false
          else None
      end
  end.

(** The blanks that [int] accepts around a number: those of [isspace]
    without the separators 28 to 31. *)
Definition int_blank (c : ascii) : bool :=
  let n := nat_of_ascii c in
  isspace c && negb ((28 <=? n)%nat && (n <=? 31)%nat).

Fixpoint int_lstrip (s : string) : string :=
  match s with
  | String c s' => if int_blank c then int_lstrip s' else s
  | EmptyString => EmptyString
  end.

(** [int(s)]: blanks around an optional sign and decimal digits; [None]
    is [ValueError]. *)
Definition int (s : string) : option Z :=
  match String.rev (int_lstrip (String.rev (int_lstrip s))) with
  | String "-" r => Z.opp <$> digits r 0 false
  | String "+" r => digits r 0 false
  | r => digits r 0 false
  end.

(** [l[i]] with Python's negative indices; [None] is [IndexError]. *)
Definition index {A} (l : list A) (i : Z) : option A :=
  if (0 <=? i)%Z then l !! Z.to_nat i
  else if (- Z.of_nat (length l) <=? i)%Z then l !! Z.to_nat (Z.of_nat (length l) + i)
  else None.

Definition slash : ascii := "/"%char.
Definition backslash : ascii := "\"%char.

End Py.

(** ** [os.path.basename] *)

Inductive os_flavour := Posix | Windows.

(** [posixpath.basename]: the text after the last [/]. [ntpath.basename]:
    a drive letter prefix ([C:]) is split off, then the text after the last
    [/] or [\] is returned (the root of a UNC share, which has no final
    component, is not modelled). *)
Definition basename (os : os_flavour) (p : string) : string :=
  match os with
  | Posix => Py.after_last (Ascii.eqb Py.slash) p
  | Windows =>
      let rest :=
        match p with
        | String _ (String ":" r) => r
        | _ => p
        end in
      Py.after_last (fun c => Ascii.eqb c Py.slash || Ascii.eqb c Py.backslash) rest
  end.

(** ** Paths *)

(** A [pathlib.Path] with at least one component: the string of its parent
    and its final component ([Path.name]). *)
Abbreviation path := (string * string)%type.

(** [str(path)]: pathlib writes no [./] for a parent [.] and no second
    separator after a parent that ends in one (the root). *)
Definition path_str (p : path) : string :=
  if String.eqb p.1 "." then p.2
  else if Py.endswith p.1 "/" then p.1 +:+ p.2
  else p.1 +:+ "/" +:+ p.2.

(** ** The world the manager runs in *)

(** An entry of the document tree: one that [stat()] examines.
    [is_file()] holds of [RegularFile] only. *)
Inductive node :=
  | RegularFile (data : string)
  | Directory.

(** [processed_files.json]: a JSON array of identifiers, or text that
    [json.load] rejects. *)
Inductive cache_blob :=
  | JsonIds (ids : list string)
  | Corrupt.

(** A value of the knowledge base's [kv_store_full_docs.json]. *)
Inductive doc_info :=
  | InfoPath (file_path : string)  (* a dict whose 'file_path' is a string *)
  | InfoBadPath                    (* a dict whose 'file_path' is no string *)
  | InfoOther.                     (* no dict, or a dict without 'file_path' *)

Inductive full_docs :=
  | DocsTable (rows : list (string * doc_info))  (* a JSON object, in file order *)
  | DocsMalformed.                               (* unreadable, or no JSON object *)

(** [LIGHTRAG_STORAGE_DIR], as far as this code reads it. *)
Record storage := mkStorage { full_docs_file : option full_docs }.

(** Filesystem operations, as the code issues them. *)
Inductive fs_op :=
  | OpRename (src dst : path)
  | OpReadBytes (p : path)
  | OpWriteBytes (p : path)
  | OpUnlink (p : path)
  | OpRmtreeStorage
  | OpMkdirStorage
  | OpReadCacheFile
  | OpWriteCacheFile
  | OpUnlinkCacheFile
  | OpStat (p : path).  (* stat() of a path that is no entry of the tree *)

Record World := mkWorld {
  fs : gmap (string * string) node;  (* the document tree, by (directory, name) *)
  cache_file : option cache_blob;    (* CACHE_DIR / "processed_files.json" *)
  kb_storage : option storage;       (* LIGHTRAG_STORAGE_DIR, None when absent *)
  cache : gset string;               (* RAGManager._processed_files_cache *)
  calls : list string;               (* file_path of each process_document_complete call *)
  ops : list fs_op;                  (* filesystem operations performed, oldest first *)
  stdin : list string;               (* lines that input() will read *)
  out : list string                  (* lines printed or logged, oldest first *)
}.

Definition with_fs (f : gmap (string * string) node) (w : World) : World :=
  mkWorld f (cache_file w) (kb_storage w) (cache w) (calls w) (ops w) (stdin w) (out w).
Definition with_cache_file (c : option cache_blob) (w : World) : World :=
  mkWorld (fs w) c (kb_storage w) (cache w) (calls w) (ops w) (stdin w) (out w).
Definition with_kb_storage (k : option storage) (w : World) : World :=
  mkWorld (fs w) (cache_file w) k (cache w) (calls w) (ops w) (stdin w) (out w).
Definition with_cache (c : gset string) (w : World) : World :=
  mkWorld (fs w) (cache_file w) (kb_storage w) c (calls w) (ops w) (stdin w) (out w).
Definition with_calls (c : list string) (w : World) : World :=
  mkWorld (fs w) (cache_file w) (kb_storage w) (cache w) c (ops w) (stdin w) (out w).
Definition with_ops (o : list fs_op) (w : World) : World :=
  mkWorld (fs w) (cache_file w) (kb_storage w) (cache w) (calls w) o (stdin w) (out w).
Definition with_stdin (i : list string) (w : World) : World :=
  mkWorld (fs w) (cache_file w) (kb_storage w) (cache w) (calls w) (ops w) i (out w).
Definition with_out (o : list string) (w : World) : World :=
  mkWorld (fs w) (cache_file w) (kb_storage w) (cache w) (calls w) (ops w) (stdin w) o.

(** The result of a call: a value, or an exception with its message. *)
Inductive outcome (A : Type) :=
  | Ok (a : A)
  | Raised (e : string).
Arguments Ok {A} a.
Arguments Raised {A} e.

(** What the code is run against: the configuration, the platform, the
    external pipeline, and which filesystem operations the system refuses. *)
Record Env := mkEnv {
  DOCUMENTS_DIR : string;
  os : os_flavour;
  (** [RAGAnything.process_document_complete(file_path, ...)]: whether it
      returns or raises, and the knowledge-base storage it leaves behind *)
  pipeline : string -> option storage -> outcome unit * option storage;
  (** the operations that raise [OSError] *)
  refused : fs_op -> bool;
  (** [file_path.stat()] of a file of the processed directory, formatted as
      the listing shows it (size, modification time); [None] when it raises *)
  stat_info : string -> option (string * string)
}.

(** ** The monad: state and exceptions *)

Definition M (A : Type) : Type := World -> outcome A * World.

Definition ret {A} (a : A) : M A := fun w => (Ok a, w).

Definition bind {A B} (m : M A) (k : A -> M B) : M B := fun w =>
  match m w with
  | (Ok a, w') => k a w'
  | (Raised e, w') => (Raised e, w')
  end.

Definition raise {A} (e : string) : M A := fun w => (Raised e, w).

(** [try: body  except Exception as e: handler(e)]. The handler runs in the
    state the body had reached. *)
Definition try_except {A} (body : M A) (handler : string -> M A) : M A := fun w =>
  match body w with
  | (Ok a, w') => (Ok a, w')
  | (Raised e, w') => handler e w'
  end.

Definition get : M World := fun w => (Ok w, w).
Definition modify (f : World -> World) : M unit := fun w => (Ok tt, f w).

Declare Scope py_scope.
Delimit Scope py_scope with py.
Notation "x <- c1 ;; c2" := (bind c1 (fun x => c2))
  (at level 100, c1 at next level, right associativity) : py_scope.
Notation "c1 ;; c2" := (bind c1 (fun _ => c2))
  (at level 100, right associativity) : py_scope.
Local Open Scope py_scope.

Definition print (line : string) : M unit := modify (fun w => with_out (out w ++ [line]) w).

(** [for x in xs: body x] *)
Fixpoint for_each {A} (xs : list A) (body : A -> M unit) : M unit :=
  match xs with
  | [] => ret tt
  | x :: rest => body x ;; for_each rest body
  end.

(** ** Filesystem primitives *)

Section Primitives.
Variable E : Env.

(** [Config.PENDING_DIR], [Config.PROCESSED_DIR] (as [str]). The
    directories themselves exist: [Config.validate_config()] creates them
    when the manager is constructed. *)
Definition PENDING_DIR : string := path_str (DOCUMENTS_DIR E, "pending").
Definition PROCESSED_DIR : string := path_str (DOCUMENTS_DIR E, "processed").

(** [p.exists()] of a path that has an entry, or of one for which [stat()]
    reports that there is none. On any other path [stat()] raises an
    [OSError] that [exists()] lets through (see [OpStat]). *)
Definition path_exists (p : path) : M bool := fun w =>
  (Ok (bool_decide (is_Some (fs w !! p))), w).

(** [p.is_file()]. For a path that is no entry of the tree, [stat()]
    reports that there is none, or it raises an [OSError] that [is_file]
    lets through (the name is too long, or a directory on the way may not
    be searched). *)
Definition is_file (p : path) : M bool := fun w =>
  match fs w !! p with
  | Some (RegularFile _) => (Ok true, w)
  | Some Directory => (Ok false, w)
  | None => if refused E (OpStat p) then (Raised "OSError", w) else (Ok false, w)
  end.

(** [list(d.glob("*"))], [d.iterdir()]: the entries of directory [d].
    The tree holds the entries that [stat()] examines; a snapshot with an
    entry that [stat()] does not reach is in the scope of [process_files],
    which takes any list of paths. *)
Definition iterdir (d : string) : M (list path) := fun w =>
  (Ok (filter (fun p : path => p.1 = d) (map_to_list (fs w)).*1), w).

(** [src.rename(dst)]: an existing destination file is replaced. *)
Definition path_rename (src dst : path) : M unit := fun w =>
  match fs w !! src with
  | None => (Raised "FileNotFoundError", w)
  | Some n =>
      if refused E (OpRename src dst) then (Raised "OSError", w)
      else (Ok tt, with_ops (ops w ++ [OpRename src dst])
                     (with_fs (<[dst := n]> (delete src (fs w))) w))
  end.

(** [p.read_bytes()] *)
Definition read_bytes (p : path) : M string := fun w =>
  match fs w !! p with
  | Some (RegularFile data) =>
      if refused E (OpReadBytes p) then (Raised "OSError", w)
      else (Ok data, with_ops (ops w ++ [OpReadBytes p]) w)
  | Some Directory => (Raised "IsADirectoryError", w)
  | None => (Raised "FileNotFoundError", w)
  end.

(** [p.write_bytes(data)] *)
Definition write_bytes (p : path) (data : string) : M unit := fun w =>
  match fs w !! p with
  | Some Directory => (Raised "IsADirectoryError", w)
  | _ =>
      if refused E (OpWriteBytes p) then (Raised "OSError", w)
      else (Ok tt, with_ops (ops w ++ [OpWriteBytes p])
                     (with_fs (<[p := RegularFile data]> (fs w)) w))
  end.

(** [p.unlink()] *)
Definition unlink (p : path) : M unit := fun w =>
  match fs w !! p with
  | Some (RegularFile _) =>
      if refused E (OpUnlink p) then (Raised "OSError", w)
      else (Ok tt, with_ops (ops w ++ [OpUnlink p]) (with_fs (delete p (fs w)) w))
  | Some Directory => (Raised "IsADirectoryError", w)
  | None => (Raised "FileNotFoundError", w)
  end.

End Primitives.

(** ** [config.py] and [rag_manager.py] *)

(** The counters that [process_pending_documents] returns. *)
Record results := mkResults { processed : nat; skipped : nat; failed : nat }.

Section Manager.
Variable E : Env.

Definition logger_info (msg : string) : M unit := print ("INFO - " +:+ msg).
Definition logger_warning (msg : string) : M unit := print ("WARNING - " +:+ msg).
Definition logger_error (msg : string) : M unit := print ("ERROR - " +:+ msg).

(** [Config.mark_file_as_processed] *)
Definition mark_file_as_processed (file_path : path) : M path :=
  present <- path_exists file_path ;;
  if present && bool_decide (file_path.1 = PENDING_DIR E) then
    let destination := (PROCESSED_DIR E, file_path.2) in
    path_rename E file_path destination ;;
    ret destination
  else ret file_path.

(** [json.load(open(cache_file, 'r'))] *)
Definition read_cache_file : M (list string) := fun w =>
  match cache_file w with
  | None => (Raised "FileNotFoundError", w)
  | Some blob =>
      if refused E OpReadCacheFile then (Raised "OSError", w)
      else match blob with
           | JsonIds ids => (Ok ids, with_ops (ops w ++ [OpReadCacheFile]) w)
           | Corrupt => (Raised "JSONDecodeError", with_ops (ops w ++ [OpReadCacheFile]) w)
           end
  end.

(** [json.dump(ids, open(cache_file, 'w'))] *)
Definition write_cache_file (ids : list string) : M unit := fun w =>
  if refused E OpWriteCacheFile then (Raised "OSError", w)
  else (Ok tt, with_ops (ops w ++ [OpWriteCacheFile]) (with_cache_file (Some (JsonIds ids)) w)).

(** [RAGManager._load_processed_files_cache] *)
Definition _load_processed_files_cache : M unit :=
  w <- get ;;
  if bool_decide (is_Some (cache_file w)) then
    try_except
      (ids <- read_cache_file ;;
       modify (with_cache (list_to_set ids)))
      (fun e =>
         logger_warning ("Could not load processed files cache: " +:+ e) ;;
         modify (with_cache ∅))
  else modify (with_cache ∅).

(** [RAGManager._save_processed_files_cache] *)
Definition _save_processed_files_cache : M unit :=
  try_except
    (w <- get ;;
     write_cache_file (elements (cache w)))
    (fun e => logger_warning ("Could not save processed files cache: " +:+ e)).

(** [await self.rag_anything.process_document_complete(file_path=..., ...)] *)
Definition process_document_complete (file_path : string) : M unit := fun w =>
  let (r, k) := pipeline E file_path (kb_storage w) in
  (r, with_kb_storage k (with_calls (calls w ++ [file_path]) w)).

(** [RAGManager.process_document]. The check [file_path.exists()] comes
    before the [try]. *)
Definition process_document (file_path : path) (force_reprocess : bool) : M bool :=
  present <- path_exists file_path ;;
  if negb present then
    logger_error ("File not found: " +:+ path_str file_path) ;;
    ret false
  else
    w <- get ;;
    if negb force_reprocess && bool_decide (path_str file_path ∈ cache w) then
      logger_info ("File already processed, skipping: " +:+ path_str file_path) ;;
      ret false
    else
      try_except
        (logger_info ("Processing document: " +:+ path_str file_path) ;;
         process_document_complete (path_str file_path) ;;
         modify (fun w => with_cache ({[path_str file_path]} ∪ cache w) w) ;;
         _save_processed_files_cache ;;
         (if bool_decide (file_path.1 = PENDING_DIR E)
          then mark_file_as_processed file_path ;; ret tt
          else ret tt) ;;
         logger_info ("Successfully processed: " +:+ path_str file_path) ;;
         ret true)
        (fun e =>
           logger_error ("Failed to process " +:+ path_str file_path +:+ ": " +:+ e) ;;
           ret false).

(** The loop of [process_pending_documents] over the snapshot of the
    pending directory. *)
Fixpoint process_files (pending_files : list path) (force_reprocess : bool)
    (res : results) : M results :=
  match pending_files with
  | [] => ret res
  | file_path :: rest =>
      regular <- is_file E file_path ;;
      if regular then
        success <- process_document file_path force_reprocess ;;
        w <- get ;;
        process_files rest force_reprocess
          (if success then
             mkResults (S (processed res)) (skipped res) (failed res)
           else if bool_decide (path_str file_path ∈ cache w) then
             mkResults (processed res) (S (skipped res)) (failed res)
           else
             mkResults (processed res) (skipped res) (S (failed res)))
      else process_files rest force_reprocess res
  end.

(** [RAGManager.process_pending_documents] *)
Definition process_pending_documents (force_reprocess : bool) : M results :=
  pending_files <- iterdir (PENDING_DIR E) ;;
  match pending_files with
  | [] =>
      logger_info "No pending documents found" ;;
      ret (mkResults 0 0 0)
  | _ =>
      res <- process_files pending_files force_reprocess (mkResults 0 0 0) ;;
      logger_info "Processing complete" ;;
      ret res
  end.

End Manager.

(** ** [query_interface.py] *)

(** One value of the dict that [_get_detailed_documents_info] returns. *)
Record doc_details := mkDetails {
  in_cache : bool;
  in_processed_dir : bool;
  in_knowledge_base : bool;
  file_size : option string;
  process_date : option string
}.

Section QueryInterface.
Variable E : Env.

(** The names the knowledge-base table yields, row by row. A row whose
    [file_path] is no string makes [os.path.basename] raise; the
    surrounding [except] ends the loop and keeps the names found so far. *)
Fixpoint kb_names (rows : list (string * doc_info)) (acc : gset string) : gset string :=
  match rows with
  | [] => acc
  | (_, InfoPath fp) :: rest => kb_names rest ({[basename (os E) fp]} ∪ acc)
  | (_, InfoBadPath) :: _ => acc
  | (_, InfoOther) :: rest => kb_names rest acc
  end.

(** The [kb_docs] of [_get_detailed_documents_info]: read from
    [kv_store_full_docs.json] when that file exists. *)
Definition kb_docs (w : World) : gset string :=
  match kb_storage w with
  | Some st =>
      match full_docs_file st with
      | Some (DocsTable rows) => kb_names rows ∅
      | Some DocsMalformed => ∅
      | None => ∅
      end
  | None => ∅
  end.

(** The regular, non-hidden files of the processed directory. *)
Definition processed_entries (w : World) : list string :=
  (filter (fun p : path =>
             match fs w !! p with Some (RegularFile _) => true | _ => false end
             && negb (Py.startswith p.2 "."))
          (filter (fun p : path => p.1 = PROCESSED_DIR E) (map_to_list (fs w)).*1)).*2.

(** The [cache_docs] of [_get_detailed_documents_info]. *)
Definition cache_docs (w : World) : gset string :=
  list_to_set (basename (os E) <$> filter (fun c => Py.truthy c) (elements (cache w))).

(** The [processed_docs] of [_get_detailed_documents_info]: name to
    (size, modified), both ["Unknown"] when [stat()] raises. *)
Definition processed_docs (w : World) : gmap string (string * string) :=
  foldl (fun acc name =>
           <[name := match stat_info E name with
                     | Some meta => meta
                     | None => ("Unknown", "Unknown")
                     end]> acc)
        ∅ (processed_entries w).

Definition listable (doc_name : string) : bool :=
  Py.truthy doc_name && (1 <? String.length doc_name)%nat && negb (Py.startswith doc_name ".").

(** [QueryInterface._get_detailed_documents_info] *)
Definition _get_detailed_documents_info (w : World) : gmap string doc_details :=
  let cache_docs := cache_docs w in
  let processed_docs := processed_docs w in
  let kb_docs := kb_docs w in
  let all_doc_names := cache_docs ∪ dom processed_docs ∪ kb_docs in
  foldl (fun docs_info doc_name =>
           if listable doc_name then
             <[doc_name := mkDetails
                 (bool_decide (doc_name ∈ cache_docs))
                 (bool_decide (doc_name ∈ dom processed_docs))
                 (bool_decide (doc_name ∈ kb_docs))
                 (fst <$> processed_docs !! doc_name)
                 (snd <$> processed_docs !! doc_name)]> docs_info
           else docs_info)
        ∅ (elements all_doc_names).

(** [doc.replace('\\', '/').split('/')[-1]] *)
Definition clean_name (doc : string) : string :=
  Py.after_last (Ascii.eqb Py.slash) (Py.replace_char Py.backslash Py.slash doc).

(** The names [_get_processed_documents_list] collects from the cache. *)
Definition cache_names (w : World) : gset string :=
  list_to_set
    ((fun cached_file =>
        let filename := basename (os E) cached_file in
        if Py.truthy filename && negb (String.eqb filename cached_file)
        then filename else cached_file)
     <$> filter (fun c => Py.truthy c) (elements (cache w))).

(** [QueryInterface._get_processed_documents_list] *)
Definition _get_processed_documents_list (w : World) : list string :=
  let all_docs : gset string :=
    cache_names w ∪ list_to_set (processed_entries w) ∪ kb_docs w in
  let clean_docs :=
    omap (fun doc =>
            if Py.truthy doc then
              let clean_name := clean_name doc in
              if Py.truthy clean_name && negb (Py.startswith clean_name ".")
                 && (1 <? String.length clean_name)%nat
              then Some clean_name else None
            else None)
         (elements all_docs) in
  let unique_docs := elements (list_to_set clean_docs : gset string) in
  merge_sort String.le unique_docs.

(** [QueryInterface._remove_document_from_storage]. [doc_name] is a name
    as [_get_processed_documents_list] yields it: one component of a path,
    so that [PROCESSED_DIR / doc_name] is the entry of that name in the
    processed directory. *)
Definition _remove_document_from_storage (doc_name : string) : M bool :=
  try_except
    (modify (fun w =>
       with_cache (filter (fun cached_file =>
                             ¬ (Py.contains doc_name cached_file
                                || Py.endswith cached_file doc_name))
                          (cache w)) w) ;;
     _save_processed_files_cache E ;;
     let processed_file := (PROCESSED_DIR E, doc_name) in
     present <- path_exists processed_file ;;
     (if present then
        let pending_file := (PENDING_DIR E, doc_name) in
        path_rename E processed_file pending_file ;;
        print ("Moved " +:+ doc_name +:+ " back to pending directory")
      else ret tt) ;;
     ret true)
    (fun e =>
       print ("Error removing document from storage: " +:+ e) ;;
       ret false).

(** [shutil.rmtree(config.LIGHTRAG_STORAGE_DIR)] *)
Definition rmtree_storage : M unit := fun w =>
  if refused E OpRmtreeStorage then (Raised "OSError", w)
  else (Ok tt, with_ops (ops w ++ [OpRmtreeStorage]) (with_kb_storage None w)).

(** [config.LIGHTRAG_STORAGE_DIR.mkdir(parents=True, exist_ok=True)] *)
Definition mkdir_storage : M unit := fun w =>
  if refused E OpMkdirStorage then (Raised "OSError", w)
  else (Ok tt, with_ops (ops w ++ [OpMkdirStorage])
                 (with_kb_storage (Some (default (mkStorage None) (kb_storage w))) w)).

(** [cache_file.unlink()] *)
Definition unlink_cache_file : M unit := fun w =>
  match cache_file w with
  | None => (Raised "FileNotFoundError", w)
  | Some _ =>
      if refused E OpUnlinkCacheFile then (Raised "OSError", w)
      else (Ok tt, with_ops (ops w ++ [OpUnlinkCacheFile]) (with_cache_file None w))
  end.

(** The body of the last loop of [_clear_storage_directories]:
    [(config.PENDING_DIR / file.name).write_bytes(file.read_bytes())], then
    [file.unlink()], for a regular file. *)
Definition restore_file (file : path) : M unit :=
  regular <- is_file E file ;;
  if regular then
    data <- read_bytes E file ;;
    write_bytes E (PENDING_DIR E, file.2) data ;;
    unlink E file
  else ret tt.

(** [QueryInterface._clear_storage_directories]. The cache directory and
    the processed directory exist, as [Config.validate_config()] left them. *)
Definition _clear_storage_directories : M unit :=
  try_except
    (w <- get ;;
     (if bool_decide (is_Some (kb_storage w)) then
        rmtree_storage ;;
        mkdir_storage ;;
        print "Cleared knowledge graph storage"
      else ret tt) ;;
     w <- get ;;
     (if bool_decide (is_Some (cache_file w)) then unlink_cache_file else ret tt) ;;
     print "Cleared document cache" ;;
     files <- iterdir (PROCESSED_DIR E) ;;
     for_each files restore_file ;;
     print "Moved processed files back to pending")
    (fun e => print ("Warning: Could not fully clear storage: " +:+ e)).

(** [input(prompt)] *)
Definition input (prompt : string) : M string := fun w =>
  match stdin w with
  | [] => (Raised "EOFError", with_out (out w ++ [prompt]) w)
  | line :: rest => (Ok line, with_stdin rest (with_out (out w ++ [prompt]) w))
  end.

(** The part of [remove_document] that picks the documents to remove:
    [None] is its early [return False]. *)
Definition select_docs (doc_identifier : string) (available_docs matches : list string)
    : M (option (list string)) :=
  match matches with
  | [] =>
      print ("Document '" +:+ doc_identifier +:+ "' not found") ;;
      print "Available documents:" ;;
      for_each available_docs (fun doc => print ("  - " +:+ doc)) ;;
      ret None
  | [_] => ret (Some matches)
  | _ =>
      print ("Multiple matches found for '" +:+ doc_identifier +:+ "':") ;;
      for_each (imap (fun i m => "  " +:+ pretty (S i) +:+ ". " +:+ m) matches) print ;;
      line <- input "Enter number to select (or 'all' for all matches): " ;;
      let choice := Py.strip line in
      if String.eqb (Py.lower choice) "all" then ret (Some matches)
      else
        match Py.int choice with
        | None => print "Invalid selection" ;; ret None
        | Some n =>
            match Py.index matches (n - 1) with
            | None => print "Invalid selection" ;; ret None
            | Some m => ret (Some [m])
            end
        end
  end.

(** The body of the removal loop of [remove_document]. *)
Definition remove_and_report (doc_name : string) : M unit :=
  success <- _remove_document_from_storage doc_name ;;
  if success then print ("Removed: " +:+ doc_name)
  else print ("Failed to remove: " +:+ doc_name).

(** The documents of the registry that match an identifier:
    [[doc for doc in available_docs if doc_identifier.lower() in doc.lower()]] *)
Definition matching_docs (doc_identifier : string) (available_docs : list string)
    : list string :=
  filter (fun doc => Py.contains (Py.lower doc_identifier) (Py.lower doc)) available_docs.

(** [QueryInterface.remove_document] *)
Definition remove_document (doc_identifier : string) : M bool :=
  try_except
    (print ("Removing document: " +:+ doc_identifier) ;;
     w <- get ;;
     let available_docs := _get_processed_documents_list w in
     let matches := matching_docs doc_identifier available_docs in
     selected <- select_docs doc_identifier available_docs matches ;;
     match selected with
     | None => ret false
     | Some selected_docs =>
         for_each selected_docs remove_and_report ;;
         ret true
     end)
    (fun e =>
       print ("Error removing document: " +:+ e) ;;
       ret false).

(** The removal loop of [remove_all_documents], with its counter. *)
Fixpoint remove_counting (docs : list string) (success_count : nat) : M nat :=
  match docs with
  | [] => ret success_count
  | doc_name :: rest =>
      success <- _remove_document_from_storage doc_name ;;
      remove_counting rest (if success then S success_count else success_count)
  end.

(** [QueryInterface.remove_all_documents] *)
Definition remove_all_documents : M bool :=
  try_except
    (w <- get ;;
     let docs := _get_processed_documents_list w in
     match docs with
     | [] =>
         print "No documents to remove" ;;
         ret true
     | _ =>
         print ("This will remove " +:+ pretty (length docs) +:+ " processed documents:") ;;
         for_each (take 5 docs) (fun doc => print ("  - " +:+ doc)) ;;
         (if (5 <? length docs)%nat
          then print ("  ... and " +:+ pretty (length docs - 5) +:+ " more")
          else ret tt) ;;
         line <- input "Are you sure? Type 'yes' to confirm: " ;;
         let confirm := Py.lower (Py.strip line) in
         if negb (String.eqb confirm "yes") then
           print "Operation cancelled" ;;
           ret false
         else
           success_count <- remove_counting docs 0 ;;
           _clear_storage_directories ;;
           print ("Removed " +:+ pretty success_count +:+ "/" +:+ pretty (length docs)
                  +:+ " documents") ;;
           print "Knowledge base reset" ;;
           ret true
     end)
    (fun e =>
       print ("Error removing all documents: " +:+ e) ;;
       ret false).

End QueryInterface.

(** ** The caption normaliser: [robust_llm_func] of [_fix_modal_processors] *)

(** JSON values as Python's [json] module represents them. A dict keeps
    its keys in insertion order and holds each key once. *)
#[local] Unset Elimination Schemes.
Inductive json :=
  | JNull
  | JBool (b : bool)
  | JInt (n : Z)
  | JFloat (literal : string)
  | JString (s : string)
  | JArray (items : list json)
  | JObject (fields : list (string * json)).
#[local] Set Elimination Schemes.

(** What [json.loads] does with a candidate text. *)
Inductive load_result :=
  | Loaded (v : json)
  | DecodeError              (* json.JSONDecodeError *)
  | OtherError (e : string). (* any other exception, e.g. RecursionError *)

(** The four entity patterns of step 3. *)
Inductive entity_pattern := ProperNouns | MoneyAmounts | Dates | Acronyms.

(** The library calls the normaliser makes and does not define. *)
Record Lib := mkLib {
  json_loads : string -> load_result;
  (** [json.dumps(value, ensure_ascii=...)] *)
  json_dumps : bool -> json -> string;
  (** [re.findall(pattern, text)] for the entity patterns *)
  re_findall : entity_pattern -> string -> list string;
  (** [list(set(items))]: the items without repeats, in the set's order *)
  list_of_set : list string -> list string
}.

Module Dict.

(** [key in d] *)
Fixpoint has (key : string) (d : list (string * json)) : bool :=
  match d with
  | [] => false
  | (k, _) :: rest => String.eqb k key || has key rest
  end.

(** [d.get(key)] *)
Fixpoint get (key : string) (d : list (string * json)) : option json :=
  match d with
  | [] => None
  | (k, v) :: rest => if String.eqb k key then Some v else get key rest
  end.

(** [d[key] = value] *)
Fixpoint set (key : string) (value : json) (d : list (string * json))
    : list (string * json) :=
  match d with
  | [] => [(key, value)]
  | (k, v) :: rest =>
      if String.eqb k key then (k, value) :: rest else (k, v) :: set key value rest
  end.

End Dict.

Module Regex.

Definition backtick : ascii := "`"%char.
Definition lbrace : ascii := "{"%char.
Definition rbrace : ascii := "}"%char.
Definition fence : string := String backtick (String backtick (String backtick EmptyString)).

(** The tail [.*?\}\s*```] of the fenced-block pattern, read after the
    opening brace: the shortest text that ends in a closing brace followed
    by blanks and a fence. [acc] is the group read so far, reversed. *)
Fixpoint lazy_close (s : string) (acc : string) : option string :=
  match s with
  | EmptyString => None
  | String c s' =>
      if Ascii.eqb c rbrace && Py.startswith (Py.lstrip s') fence
      then Some (String.rev (String c acc))
      else lazy_close s' (String c acc)
  end.

(** [```(?:json)?\s*(\{.*?\})\s*```] matched at the start of [s]: its
    group. *)
Definition fence_at (s : string) : option string :=
  if Py.startswith s fence then
    let r := Py.drop 3 s in
    let r := if Py.startswith r "json" then Py.drop 4 r else r in
    match Py.lstrip r with
    | String c body =>
        if Ascii.eqb c lbrace then lazy_close body (String c EmptyString) else None
    | EmptyString => None
    end
  else None.

(** [re.findall(r'```(?:json)?\s*(\{.*?\})\s*```', s, re.DOTALL)[0]],
    when there is a match. *)
Fixpoint first_fenced_block (s : string) : option string :=
  match fence_at s with
  | Some g => Some g
  | None =>
      match s with
      | String _ s' => first_fenced_block s'
      | EmptyString => None
      end
  end.

(** [\{(?:[^{}]|{[^{}]*})*\}] read after its opening brace. [inner] says
    that an inner brace is open; [acc] is the match so far, reversed. *)
Fixpoint brace_scan (inner : bool) (s : string) (acc : string) : option string :=
  match s with
  | EmptyString => None
  | String c s' =>
      if Ascii.eqb c lbrace then
        if inner then None else brace_scan true s' (String c acc)
      else if Ascii.eqb c rbrace then
        if inner then brace_scan false s' (String c acc)
        else Some (String.rev (String c acc))
      else brace_scan inner s' (String c acc)
  end.

(** The matches from left to right; [skip] characters belong to the match
    just found. *)
Fixpoint findall_json_go (s : string) (skip : nat) : list string :=
  match s with
  | EmptyString => []
  | String c s' =>
      match skip with
      | S k => findall_json_go s' k
      | O =>
          if Ascii.eqb c lbrace then
            match brace_scan false s' (String c EmptyString) with
            | Some m => m :: findall_json_go s' (String.length m - 1)
            | None => findall_json_go s' 0
            end
          else findall_json_go s' 0
      end
  end.

(** [re.findall(r'\{(?:[^{}]|{[^{}]*})*\}', s, re.DOTALL)] *)
Definition findall_json (s : string) : list string := findall_json_go s 0.

End Regex.

(** Step 1: the contents of the first fenced block, when the text has a
    fence and a block is found; otherwise the text itself. *)
Definition fenced_or_whole (response : string) : string :=
  if Py.contains Regex.fence response then
    match Regex.first_fenced_block response with
    | Some block => Py.strip block
    | None => response
    end
  else response.

(** A text between double quotes. *)
Definition quoted (s : string) : string :=
  String (ascii_of_nat 34) s +:+ String (ascii_of_nat 34) EmptyString.

Section Normalizer.
Variable L : Lib.

(** [response.find(json_candidate) + len(json_candidate)] *)
Definition json_end (response json_candidate : string) : Z :=
  match String.index 0 json_candidate response with
  | Some i => Z.of_nat (i + String.length json_candidate)
  | None => -1 + Z.of_nat (String.length json_candidate)
  end.

(** Step 2: the first candidate that parses, with the text after it.
    [Ok None] when none parses. *)
Fixpoint first_valid (response : string) (json_matches : list string)
    : outcome (option (json * string)) :=
  match json_matches with
  | [] => Ok None
  | json_candidate :: rest =>
      match json_loads L json_candidate with
      | Loaded parsed =>
          let e := json_end response json_candidate in
          Ok (Some (parsed,
                    if (e <? Z.of_nat (String.length response))%Z
                    then Py.strip (Py.drop (Z.to_nat e) response)
                    else ""))
      | DecodeError => first_valid response rest
      | OtherError e => Raised e
      end
  end.

(** Step 3: the record built from the text when no candidate parses. *)
Definition constructed (original_response : string) : json :=
  let content_summary := Py.take 500 original_response in
  let entities :=
    flat_map (fun pattern => take 5 (re_findall L pattern original_response))
             [ProperNouns; MoneyAmounts; Dates; Acronyms] in
  JObject [("description", JString content_summary);
           ("entities", JArray (JString <$> take 10 (list_of_set L entities)));
           ("analysis", JString "Content processed with partial extraction");
           ("original_length", JInt (Z.of_nat (String.length original_response)))].

(** [type(value).__name__] *)
Definition type_name (value : json) : string :=
  match value with
  | JNull => "NoneType"
  | JBool _ => "bool"
  | JInt _ => "int"
  | JFloat _ => "float"
  | JString _ => "str"
  | JArray _ => "list"
  | JObject _ => "dict"
  end.

(** [len(valid_json.get('entities', []))] of the closing log line: whether
    it can be evaluated. *)
Definition entities_len (valid_json : json) : outcome unit :=
  match valid_json with
  | JObject d =>
      match Dict.get "entities" d with
      | None | Some (JString _) | Some (JArray _) | Some (JObject _) => Ok tt
      | Some value => Raised ("object of type '" +:+ type_name value +:+ "' has no len()")
      end
  | _ => Raised ("'" +:+ type_name valid_json +:+ "' object has no attribute 'get'")
  end.

(** Steps 2 to 5 and the serialisation, inside the [try]. *)
Definition normalise_body (original_response response : string) : outcome string :=
  match first_valid response (Regex.findall_json response) with
  | Raised e => Raised e
  | Ok found =>
      let valid_json := match found with
                        | Some (parsed, _) => parsed
                        | None => constructed original_response
                        end in
      let extra_content := match found with
                           | Some (_, extra) => extra
                           | None => ""
                           end in
      (* Step 4 *)
      let valid_json :=
        match valid_json with
        | JObject d =>
            if Py.truthy extra_content && negb (Dict.has "additional_notes" d)
            then JObject (Dict.set "additional_notes" (JString (Py.take 200 extra_content)) d)
            else valid_json
        | _ => valid_json
        end in
      (* Step 5 *)
      let valid_json :=
        match valid_json with
        | JObject d =>
            let d := if Dict.has "description" d then d
                     else Dict.set "description" (JString (Py.take 200 original_response)) d in
            let d := if Dict.has "entities" d then d
                     else Dict.set "entities" (JArray []) d in
            JObject d
        | _ => valid_json
        end in
      let final_response := json_dumps L false valid_json in
      match entities_len valid_json with
      | Ok _ => Ok final_response
      | Raised e => Raised e
      end
  end.

(** The record of the [except] branch. *)
Definition error_record (e : string) (response : option string) : json :=
  JObject [("description", JString ("Processing error occurred: " +:+ Py.take 100 e));
           ("entities", JArray []);
           ("error", JBool true);
           ("original_content",
            JString (match response with
                     | Some r => Py.take 300 r
                     | None => "No content available"
                     end))].

(** [robust_llm_func], as a function of what the language model call
    gives: an exception, [None], or a text. The result is the text that is
    returned, or the exception that leaves the function. The statement
    [import json] stands in the function body after the call, so [json] is
    a local name of the whole function: when the call raises, the name is
    not yet bound in the handler, and the handler's [json.dumps] raises
    [UnboundLocalError]. An exception of the later steps finds the name
    bound, and the handler returns the error record. *)
Definition robust_llm_func (llm : outcome (option string)) : outcome string :=
  match llm with
  | Raised e => Raised "UnboundLocalError"
  | Ok None =>
      Ok ("{" +:+ quoted "description" +:+ ": "
          +:+ quoted "Content processed but no analysis available" +:+ ", "
          +:+ quoted "entities" +:+ ": [], "
          +:+ quoted "content" +:+ ": " +:+ quoted "Unable to process content" +:+ "}")
  | Ok (Some response) =>
      let response := Py.strip response in
      let original_response := response in
      let response := fenced_or_whole response in
      match normalise_body original_response response with
      | Ok final_response => Ok final_response
      | Raised e => Ok (json_dumps L true (error_record e (Some response)))
      end
  end.

(** The normaliser run on a text. *)
Definition normalize (input : string) : outcome string :=
  robust_llm_func (Ok (Some input)).

End Normalizer.

(** ** A reference library

    The library calls of the normaliser, for running it on examples:
    [json.dumps] and [json.loads] on texts of characters below 256, without
    [\u] escapes and without [NaN] and [Infinity]; the four entity patterns
    on ASCII texts; and [list(set(...))] in the order of first occurrence,
    one of the orders Python may give. The theorems about the normaliser
    hold for every library; this one closes the examples. *)

Module RefLib.

Definition dquote : ascii := ascii_of_nat 34.
Definition bslash : ascii := ascii_of_nat 92.

Definition hex_digit (n : nat) : ascii :=
  if (n <? 10)%nat then ascii_of_nat (48 + n) else ascii_of_nat (87 + n).

(** [\u00XX] *)
Definition u_escape (c : ascii) : string :=
  let n := nat_of_ascii c in
  String bslash (String "u" (String "0" (String "0"
    (String (hex_digit (n / 16)) (String (hex_digit (n mod 16)) EmptyString))))).

Definition escape_char (ensure_ascii : bool) (c : ascii) : string :=
  let n := nat_of_ascii c in
  if Ascii.eqb c dquote then String bslash (String dquote EmptyString)
  else if Ascii.eqb c bslash then String bslash (String bslash EmptyString)
  else if (n =? 10)%nat then String bslash "n"
  else if (n =? 13)%nat then String bslash "r"
  else if (n =? 9)%nat then String bslash "t"
  else if (n =? 8)%nat then String bslash "b"
  else if (n =? 12)%nat then String bslash "f"
  else if (n <? 32)%nat then u_escape c
  else if ensure_ascii && (126 <? n)%nat then u_escape c
  else String c EmptyString.

Fixpoint escape (ensure_ascii : bool) (s : string) : string :=
  match s with
  | EmptyString => EmptyString
  | String c s' => escape_char ensure_ascii c +:+ escape ensure_ascii s'
  end.

Definition dumps_string (ensure_ascii : bool) (s : string) : string :=
  String dquote (escape ensure_ascii s) +:+ String dquote EmptyString.

(** [json.dumps(value, ensure_ascii=...)] *)
Fixpoint dumps (ensure_ascii : bool) (v : json) : string :=
  match v with
  | JNull => "null"
  | JBool true => "true"
  | JBool false => "false"
  | JInt n => pretty n
  | JFloat literal => literal
  | JString s => dumps_string ensure_ascii s
  | JArray items => "[" +:+ String.concat ", " (map (dumps ensure_ascii) items) +:+ "]"
  | JObject fields =>
      "{" +:+ String.concat ", "
                (map (fun kv => dumps_string ensure_ascii (fst kv) +:+ ": "
                                +:+ dumps ensure_ascii (snd kv)) fields)
      +:+ "}"
  end.

Inductive token :=
  | TLBrace | TRBrace | TLBracket | TRBracket | TColon | TComma
  | TString (s : string)
  | TNumber (v : json)
  | TTrue | TFalse | TNull.

Definition unescape (e : ascii) : option ascii :=
  if Ascii.eqb e dquote then Some dquote
  else if Ascii.eqb e bslash then Some bslash
  else if Ascii.eqb e "/" then Some "/"%char
  else if Ascii.eqb e "b" then Some (ascii_of_nat 8)
  else if Ascii.eqb e "f" then Some (ascii_of_nat 12)
  else if Ascii.eqb e "n" then Some (ascii_of_nat 10)
  else if Ascii.eqb e "r" then Some (ascii_of_nat 13)
  else if Ascii.eqb e "t" then Some (ascii_of_nat 9)
  else None.

(** A string literal read after its opening quote: its value and the text
    after the closing quote. Control characters are rejected. *)
Fixpoint lex_string (s acc : string) : option (string * string) :=
  match s with
  | EmptyString => None
  | String c r =>
      if Ascii.eqb c dquote then Some (String.rev acc, r)
      else if Ascii.eqb c bslash then
        match r with
        | String e r' =>
            match unescape e with
            | Some ch => lex_string r' (String ch acc)
            | None => None
            end
        | EmptyString => None
        end
      else if (nat_of_ascii c <? 32)%nat then None
      else lex_string r (String c acc)
  end.

Definition is_digit (c : ascii) : bool :=
  let n := nat_of_ascii c in (48 <=? n)%nat && (n <=? 57)%nat.

(** The length of the longest prefix whose characters pass a test. *)
Fixpoint run (test : ascii -> bool) (s : string) : nat :=
  match s with
  | String c s' => if test c then S (run test s') else 0
  | EmptyString => 0
  end.

Definition head_is (test : ascii -> bool) (s : string) : bool :=
  match s with
  | String c _ => test c
  | EmptyString => false
  end.

(** The length of the number literal at the start of [s] (an optional
    minus sign, [0] or a digit run without leading zero, an optional
    fraction, an optional exponent), and whether it is an integer. *)
Definition lex_number (s : string) : option (nat * bool) :=
  let sign := if head_is (Ascii.eqb "-") s then 1 else 0 in
  let s1 := Py.drop sign s in
  let int_len := if head_is (Ascii.eqb "0") s1 then 1 else run is_digit s1 in
  if (int_len =? 0)%nat then None
  else
    let s2 := Py.drop int_len s1 in
    let frac_len :=
      if head_is (Ascii.eqb ".") s2 && head_is is_digit (Py.drop 1 s2)
      then 1 + run is_digit (Py.drop 1 s2) else 0 in
    let s3 := Py.drop frac_len s2 in
    let exp_sign :=
      if head_is (fun c => Ascii.eqb c "+" || Ascii.eqb c "-") (Py.drop 1 s3) then 1 else 0 in
    let exp_len :=
      if head_is (fun c => Ascii.eqb c "e" || Ascii.eqb c "E") s3
         && head_is is_digit (Py.drop (1 + exp_sign) s3)
      then 1 + exp_sign + run is_digit (Py.drop (1 + exp_sign) s3) else 0 in
    Some (sign + int_len + frac_len + exp_len, (frac_len + exp_len =? 0)%nat).

Definition is_json_space (c : ascii) : bool :=
  let n := nat_of_ascii c in
  (n =? 32)%nat || (n =? 9)%nat || (n =? 10)%nat || (n =? 13)%nat.

Fixpoint lex (fuel : nat) (s : string) : option (list token) :=
  match fuel with
  | O => None
  | S fuel' =>
      match s with
      | EmptyString => Some []
      | String c r =>
          if is_json_space c then lex fuel' r
          else if Ascii.eqb c "{" then cons TLBrace <$> lex fuel' r
          else if Ascii.eqb c "}" then cons TRBrace <$> lex fuel' r
          else if Ascii.eqb c "[" then cons TLBracket <$> lex fuel' r
          else if Ascii.eqb c "]" then cons TRBracket <$> lex fuel' r
          else if Ascii.eqb c ":" then cons TColon <$> lex fuel' r
          else if Ascii.eqb c "," then cons TComma <$> lex fuel' r
          else if Ascii.eqb c dquote then
            match lex_string r EmptyString with
            | Some (v, rest) => cons (TString v) <$> lex fuel' rest
            | None => None
            end
          else if Py.startswith s "true" then cons TTrue <$> lex fuel' (Py.drop 4 s)
          else if Py.startswith s "false" then cons TFalse <$> lex fuel' (Py.drop 5 s)
          else if Py.startswith s "null" then cons TNull <$> lex fuel' (Py.drop 4 s)
          else
            match lex_number s with
            | Some (len, integer) =>
                let literal := Py.take len s in
                let v := if integer
                         then match Py.int literal with
                              | Some n => JInt n
                              | None => JFloat literal
                              end
                         else JFloat literal in
                cons (TNumber v) <$> lex fuel' (Py.drop len s)
            | None => None
            end
      end
  end.

(** A value, the members of an object after its opening brace, and the
    elements of an array after its opening bracket. *)
Fixpoint parse_value (fuel : nat) (toks : list token) : option (json * list token) :=
  match fuel with
  | O => None
  | S fuel' =>
      match toks with
      | TLBrace :: TRBrace :: rest => Some (JObject [], rest)
      | TLBrace :: rest => parse_members fuel' rest []
      | TLBracket :: TRBracket :: rest => Some (JArray [], rest)
      | TLBracket :: rest => parse_elements fuel' rest []
      | TString s :: rest => Some (JString s, rest)
      | TNumber v :: rest => Some (v, rest)
      | TTrue :: rest => Some (JBool true, rest)
      | TFalse :: rest => Some (JBool false, rest)
      | TNull :: rest => Some (JNull, rest)
      | _ => None
      end
  end
with parse_members (fuel : nat) (toks : list token) (acc : list (string * json))
    : option (json * list token) :=
  match fuel with
  | O => None
  | S fuel' =>
      match toks with
      | TString key :: TColon :: rest =>
          match parse_value fuel' rest with
          | Some (v, TComma :: rest') => parse_members fuel' rest' (Dict.set key v acc)
          | Some (v, TRBrace :: rest') => Some (JObject (Dict.set key v acc), rest')
          | _ => None
          end
      | _ => None
      end
  end
with parse_elements (fuel : nat) (toks : list token) (acc : list json)
    : option (json * list token) :=
  match fuel with
  | O => None
  | S fuel' =>
      match parse_value fuel' toks with
      | Some (v, TComma :: rest') => parse_elements fuel' rest' (acc ++ [v])
      | Some (v, TRBracket :: rest') => Some (JArray (acc ++ [v]), rest')
      | _ => None
      end
  end.

(** [json.loads(text)] *)
Definition loads (text : string) : load_result :=
  match lex (S (String.length text)) text with
  | Some toks =>
      match parse_value (S (length toks)) toks with
      | Some (v, []) => Loaded v
      | _ => DecodeError
      end
  | None => DecodeError
  end.

Definition is_upper (c : ascii) : bool :=
  let n := nat_of_ascii c in (65 <=? n)%nat && (n <=? 90)%nat.
Definition is_lower (c : ascii) : bool :=
  let n := nat_of_ascii c in (97 <=? n)%nat && (n <=? 122)%nat.
(** [\w] on ASCII *)
Definition is_word (c : ascii) : bool :=
  is_upper c || is_lower c || is_digit c || Ascii.eqb c "_".

(** [re.findall] for a pattern without groups that matches no empty text.
    [match_at before_is_word s] is the length of the match at the start of
    [s]; [skip] characters belong to the match just found. *)
Fixpoint findall_go (match_at : bool -> string -> option nat) (before_is_word : bool)
    (s : string) (skip : nat) : list string :=
  match s with
  | EmptyString => []
  | String c s' =>
      match skip with
      | S k => findall_go match_at (is_word c) s' k
      | O =>
          match match_at before_is_word s with
          | Some (S n) => Py.take (S n) s :: findall_go match_at (is_word c) s' n
          | _ => findall_go match_at (is_word c) s' 0
          end
      end
  end.

(** [[A-Z][a-z]+] at the start of [s] *)
Definition capitalised (s : string) : option nat :=
  match s with
  | String c r =>
      if is_upper c && (1 <=? run is_lower r)%nat then Some (1 + run is_lower r) else None
  | EmptyString => None
  end.

(** [[A-Z][a-z]+(?:\s+[A-Z][a-z]+)*\b] at the start of [s]: the longest
    chain of capitalised words that ends at a word boundary. *)
Fixpoint proper_nouns_at (fuel : nat) (s : string) : option nat :=
  match fuel with
  | O => None
  | S fuel' =>
      match capitalised s with
      | None => None
      | Some n =>
          let rest := Py.drop n s in
          let blanks := run Py.isspace rest in
          match (if (1 <=? blanks)%nat
                 then proper_nouns_at fuel' (Py.drop blanks rest) else None) with
          | Some m => Some (n + blanks + m)
          | None => if head_is is_word rest then None else Some n
          end
      end
  end.

(** [\$[\d,]+\.?\d*] at the start of [s] *)
Definition money_at (s : string) : option nat :=
  match s with
  | String c r =>
      let n1 := run (fun c => is_digit c || Ascii.eqb c ",") r in
      if Ascii.eqb c "$" && (1 <=? n1)%nat then
        let r1 := Py.drop n1 r in
        let dot := if head_is (Ascii.eqb ".") r1 then 1 else 0 in
        Some (1 + n1 + dot + run is_digit (Py.drop dot r1))
      else None
  | EmptyString => None
  end.

Definition is_date_separator (c : ascii) : bool := Ascii.eqb c "/" || Ascii.eqb c "-".

(** [\d{1,2}[/-]\d{1,2}[/-]\d{2,4}\b] at the start of [s] *)
Definition date_at (s : string) : option nat :=
  let n1 := run is_digit s in
  let s1 := Py.drop n1 s in
  let n2 := run is_digit (Py.drop 1 s1) in
  let s2 := Py.drop n2 (Py.drop 1 s1) in
  let n3 := run is_digit (Py.drop 1 s2) in
  let s3 := Py.drop n3 (Py.drop 1 s2) in
  if (1 <=? n1)%nat && (n1 <=? 2)%nat && head_is is_date_separator s1
     && (1 <=? n2)%nat && (n2 <=? 2)%nat && head_is is_date_separator s2
     && (2 <=? n3)%nat && (n3 <=? 4)%nat && negb (head_is is_word s3)
  then Some (n1 + 1 + n2 + 1 + n3) else None.

(** [[A-Z]{2,}\b] at the start of [s] *)
Definition acronym_at (s : string) : option nat :=
  let n := run is_upper s in
  if (2 <=? n)%nat && negb (head_is is_word (Py.drop n s)) then Some n else None.

(** [re.findall(pattern, text)] for the four entity patterns; the leading
    [\b] of three of them asks for no word character before the match. *)
Definition findall (pattern : entity_pattern) (text : string) : list string :=
  match pattern with
  | ProperNouns =>
      findall_go (fun before s =>
                    if before then None else proper_nouns_at (String.length s) s)
                 false text 0
  | MoneyAmounts => findall_go (fun _ s => money_at s) false text 0
  | Dates => findall_go (fun before s => if before then None else date_at s) false text 0
  | Acronyms => findall_go (fun before s => if before then None else acronym_at s) false text 0
  end.

Definition lib : Lib := mkLib loads dumps findall remove_dups.

End RefLib.

(** ** Vocabulary of the statements *)

(** Whether a call returned rather than raised. *)
Definition is_ok {A} (r : outcome A) : bool :=
  match r with Ok _ => true | Raised _ => false end.

(** The number of elements of a list that pass a test. *)
Fixpoint count_if {A} (test : A -> bool) (l : list A) : nat :=
  match l with
  | [] => 0
  | x :: rest => (if test x then 1 else 0) + count_if test rest
  end.

(** Whether the string of a path is in the in-memory cache. *)
Definition cached (w : World) (f : path) : bool :=
  bool_decide (path_str f ∈ cache w).

(** How the batch counts a regular file [f], read off the call
    [process_document f] made in the world [w]: processed when the call
    returns [True]; when it returns [False], skipped if the path's string
    is in the cache after the call, and failed if it is not. *)
Definition counted_processed (E : Env) (force : bool) (w : World) (f : path) : bool :=
  match fs w !! f, process_document E f force w with
  | Some (RegularFile _), (Ok true, _) => true
  | _, _ => false
  end.

Definition counted_skipped (E : Env) (force : bool) (w : World) (f : path) : bool :=
  match fs w !! f, process_document E f force w with
  | Some (RegularFile _), (Ok false, w1) => bool_decide (path_str f ∈ cache w1)
  | _, _ => false
  end.

Definition counted_failed (E : Env) (force : bool) (w : World) (f : path) : bool :=
  match fs w !! f, process_document E f force w with
  | Some (RegularFile _), (Ok false, w1) => negb (bool_decide (path_str f ∈ cache w1))
  | _, _ => false
  end.

(** Whether a path lies in the pending or in the processed directory. *)
Definition in_document_dirs (E : Env) (p : path) : bool :=
  bool_decide (p.1 = PENDING_DIR E) || bool_decide (p.1 = PROCESSED_DIR E).

(** An operation that adds a file to, or deletes a file from, the pending
    or the processed directory without being a rename. *)
Definition moves_without_rename (E : Env) (op : fs_op) : bool :=
  match op with
  | OpWriteBytes p | OpUnlink p => in_document_dirs E p
  | _ => false
  end.

Definition is_rename (op : fs_op) : bool :=
  match op with
  | OpRename _ _ => true
  | _ => false
  end.

(** Every filesystem operation that [m] performs, from any world,
    satisfies [P]. *)
Definition issues {A} (P : fs_op -> Prop) (m : M A) : Prop :=
  ∀ w, ∃ new, ops (m w).2 = (ops w ++ new)%list ∧ Forall P new.

(** Whether a string has a character that passes a test. *)
Fixpoint has_char (test : ascii -> bool) (s : string) : bool :=
  match s with
  | EmptyString => false
  | String c s' => test c || has_char test s'
  end.

(** A forward or backward slash. *)
Definition is_separator (c : ascii) : bool :=
  Ascii.eqb c Py.slash || Ascii.eqb c Py.backslash.

(** ** Example environments and worlds *)

(** Nothing is refused by the system. *)
Definition permissive (_ : fs_op) : bool := false.

(** A pipeline that raises on [documents/pending/c.pdf] only. *)
Definition batch_env : Env :=
  mkEnv "documents" Posix
        (fun file_path k =>
           if String.eqb file_path "documents/pending/c.pdf"
           then (Raised "cannot parse", k) else (Ok tt, k))
        permissive
        (fun _ => Some ("1.0 KB", "2024-01-01 10:00")).

(** Three pending files; [a.pdf] is in the cache already. *)
Definition batch_world : World :=
  mkWorld (list_to_map [(("documents/pending", "a.pdf"), RegularFile "A");
                        (("documents/pending", "b.pdf"), RegularFile "B");
                        (("documents/pending", "c.pdf"), RegularFile "C")])
          None (Some (mkStorage None)) {["documents/pending/a.pdf"]} [] [] [] [].

(** A processed document: [b.pdf] sits in the processed directory and its
    former pending path is in the cache and in the cache file. *)
Definition processed_world : World :=
  mkWorld (list_to_map [(("documents/processed", "b.pdf"), RegularFile "B")])
          (Some (JsonIds ["documents/pending/b.pdf"]))
          (Some (mkStorage None)) {["documents/pending/b.pdf"]} [] [] [] [].


(** The system refuses every rename. *)
Definition no_rename_env : Env :=
  mkEnv "documents" Posix (fun _ k => (Ok tt, k))
        (fun op => match op with OpRename _ _ => true | _ => false end)
        (fun _ => None).

(** One document per source: [a.pdf] only in the cache, [b.pdf] only in
    the processed directory, [c.pdf] only in the knowledge-base table. *)
Definition three_sources_world : World :=
  mkWorld (list_to_map [(("documents/processed", "b.pdf"), RegularFile "B")])
          (Some (JsonIds ["/data/in/a.pdf"]))
          (Some (mkStorage (Some (DocsTable [("doc-1", InfoPath "/data/kb/c.pdf")]))))
          {["/data/in/a.pdf"]} [] [] [] [].

(** A cache identifier whose final component is a single character. *)
Definition short_name_world : World :=
  mkWorld ∅ None None {["/x/a"]} [] [] [] [].

(** A knowledge-base table that stores a Windows-style path. *)
Definition windows_path_world : World :=
  mkWorld ∅ None
          (Some (mkStorage (Some (DocsTable [("doc-1", InfoPath "C:\x\y\report.pdf")]))))
          ∅ [] [] [] [].

(** A knowledge-base table that stores a POSIX path. *)
Definition posix_path_world : World :=
  mkWorld ∅ None
          (Some (mkStorage (Some (DocsTable [("doc-1", InfoPath "/x/y/report.PDF")]))))
          ∅ [] [] [] [].

(** [batch_env] on a Windows host. *)
Definition windows_env : Env :=
  mkEnv "documents" Windows (fun _ k => (Ok tt, k)) permissive (fun _ => None).


(** A fenced block around a JSON object, and a JSON object followed by
    prose. *)
Definition fenced_text : string :=
  "```json" +:+ String (ascii_of_nat 10) EmptyString
  +:+ "{" +:+ quoted "description" +:+ ":" +:+ quoted "x" +:+ ","
  +:+ quoted "entities" +:+ ":[]}" +:+ String (ascii_of_nat 10) EmptyString +:+ "```".

Definition object_then_prose : string :=
  "{" +:+ quoted "description" +:+ ": " +:+ quoted "a chart" +:+ "} Hope this helps!".

(** Before a full reset: [b.pdf] is processed and cached, the processed
    directory also holds the hidden file [.keep], which no listing shows,
    and the user will answer [yes]. *)
Definition reset_world : World :=
  mkWorld (list_to_map [(("documents/processed", "b.pdf"), RegularFile "B");
                        (("documents/processed", ".keep"), RegularFile "K")])
          (Some (JsonIds ["documents/pending/b.pdf"]))
          (Some (mkStorage None)) {["documents/pending/b.pdf"]} [] [] ["yes"] [].

(** ** [RAGManager.get_status], [QueryInterface.add_document] and the removal
    endpoint of [api_server.py] *)

(** The dict that [get_status] returns. *)
Record status := mkStatus {
  lightrag_storage_exists : bool;
  processed_files_count : nat;
  pending_files_count : nat;
  storage_directories : list (string * string)
}.

(** [RAGManager.get_status]; [STORAGE_DIR] is [Config.STORAGE_DIR]. *)
Definition get_status (E : Env) (STORAGE_DIR : string) : M status :=
  w <- get ;;
  pending_files <- iterdir (PENDING_DIR E) ;;
  ret (mkStatus (bool_decide (is_Some (kb_storage w)))
                (size (cache w))
                (length pending_files)
                [("lightrag", path_str (STORAGE_DIR, "lightrag_storage"));
                 ("processed_docs", path_str (STORAGE_DIR, "processed_docs"));
                 ("cache", path_str (STORAGE_DIR, "cache"))]).

(** What an endpoint answers: the JSON body of a 200, or an
    [HTTPException]. *)
Inductive http_response :=
  | Http200 (message : string) (removed_documents : list string)
  | HttpError (status_code : nat) (detail : string).

(** [DELETE /documents/{document_name}] of [api_server.py];
    [initialised] says that the global [query_interface] is set. *)
Definition api_remove_document (E : Env) (initialised : bool) (document_name : string)
    : M http_response :=
  if negb initialised then ret (HttpError 503 "Service not initialized")
  else
    try_except
      (success <- remove_document E document_name ;;
       if success then
         ret (Http200 ("Document '" +:+ document_name +:+ "' removed successfully")
                      [document_name])
       else ret (HttpError 404 ("Document '" +:+ document_name +:+ "' not found")))
      (fun e =>
         print ("ERROR - Remove document failed: " +:+ e) ;;
         ret (HttpError 500 ("Failed to remove document: " +:+ e))).

(** [QueryInterface.add_document] of an initialised interface. [shown] is
    the text that was passed; [file_path] is the [Path] that
    [process_document] makes of it. *)
Definition add_document (E : Env) (shown : string) (file_path : path)
    (force_reprocess : bool) : M bool :=
  success <- process_document E file_path force_reprocess ;;
  (if success then print ("Document processed successfully: " +:+ shown)
   else print ("Failed to process document: " +:+ shown)) ;;
  ret success.

(** [m] leaves the observation [f] of the world as it was. *)
Definition keeps {A X} (f : World -> X) (m : M A) : Prop :=
  ∀ w, f (m w).2 = f w.

(** Two documents whose names share the letters [report], and no console
    input. *)
Definition two_reports_world : World :=
  mkWorld (list_to_map [(("documents/processed", "report-a.pdf"), RegularFile "A");
                        (("documents/processed", "report-b.pdf"), RegularFile "B")])
          None None ∅ [] [] [] [].


(** A pending file that is in the cache already, and a pipeline that
    raises on everything. *)
Definition failing_env : Env :=
  mkEnv "documents" Posix (fun _ k => (Raised "cannot parse", k)) permissive (fun _ => None).

Definition cached_pending_world : World :=
  mkWorld (list_to_map [(("documents/pending", "a.pdf"), RegularFile "A")])
          None None {["documents/pending/a.pdf"]} [] [] [] [].

(** A cache file that [json.load] rejects. *)
Definition corrupt_cache_world : World :=
  mkWorld ∅ (Some Corrupt) None {["stale"]} [] [] [] [].


(** The status icons that [list_processed_documents] shows for a
    document; the line shows a question mark when there is none. *)
Inductive status_icon := IconCache | IconProcessedDir | IconKnowledgeBase.

Definition status_icons (info : doc_details) : list status_icon :=
  (if in_cache info then [IconCache] else [])
  ++ (if in_processed_dir info then [IconProcessedDir] else [])
  ++ (if in_knowledge_base info then [IconKnowledgeBase] else []).

(** A knowledge-base table with a row whose [file_path] is no string
    between two good rows. *)
Definition bad_row_world : World :=
  mkWorld ∅ None
          (Some (mkStorage (Some (DocsTable [("doc-1", InfoPath "/kb/a.pdf");
                                             ("doc-2", InfoBadPath);
                                             ("doc-3", InfoPath "/kb/c.pdf")]))))
          ∅ [] [] [] [].

(** * Proofs *)

(** ** Strings and paths *)

Lemma endswith_refl s : Py.endswith s s = true.
Proof. destruct s; simpl; rewrite ?Ascii.eqb_refl, ?String.eqb_refl; done. Qed.

Lemma endswith_app (pre s : string) : Py.endswith (pre +:+ s) s = true.
Proof.
  induction pre as [|c pre IH]; simpl.
  - apply endswith_refl.
  - rewrite IH. apply orb_true_r.
Qed.

Lemma string_app_assoc (a b c : string) : (a +:+ b) +:+ c = a +:+ b +:+ c.
Proof.
  induction a as [|x a IH]; [done|].
  change ((String x a +:+ b) +:+ c) with (String x ((a +:+ b) +:+ c)).
  by rewrite IH.
Qed.

(** [str(directory / name)] ends with [name]. *)
Lemma path_str_endswith (d n : string) : Py.endswith (path_str (d, n)) n = true.
Proof.
  unfold path_str; simpl.
  destruct (String.eqb d "."); [apply endswith_refl|].
  destruct (Py.endswith d "/"); [apply endswith_app|].
  rewrite <- string_app_assoc. apply endswith_app.
Qed.

(** Two entries of one directory with the same [str] have the same name. *)
Lemma path_str_inj (d n1 n2 : string) : path_str (d, n1) = path_str (d, n2) → n1 = n2.
Proof.
  unfold path_str; simpl.
  destruct (String.eqb d "."); [done|].
  destruct (Py.endswith d "/"); intros H.
  - by apply (inj (String.app d)) in H.
  - apply (inj (String.app d)) in H. by apply (inj (String.app "/")) in H.
Qed.

Lemma pending_ne_processed (E : Env) : PENDING_DIR E ≠ PROCESSED_DIR E.
Proof.
  unfold PENDING_DIR, PROCESSED_DIR. intros H. by apply path_str_inj in H.
Qed.

(** ** Running monadic code *)

Ltac unfold_monad :=
  unfold logger_info, logger_warning, logger_error, print,
    bind, ret, raise, try_except, get, modify in *.

(** ** The idempotency cache *)

Lemma save_cache_written (E : Env) (w : World) :
  refused E OpWriteCacheFile = false →
  _save_processed_files_cache E w =
    (Ok tt, with_ops (ops w ++ [OpWriteCacheFile])
              (with_cache_file (Some (JsonIds (elements (cache w)))) w)).
Proof.
  intros Hw. unfold _save_processed_files_cache, write_cache_file. unfold_monad.
  by rewrite Hw.
Qed.

(** The save never raises, and leaves everything but the cache file and the
    logs as it was. *)
Lemma save_cache_frame (E : Env) (w : World) :
  ∃ w', _save_processed_files_cache E w = (Ok tt, w') ∧
        cache w' = cache w ∧ fs w' = fs w ∧ calls w' = calls w ∧
        kb_storage w' = kb_storage w ∧ stdin w' = stdin w.
Proof.
  unfold _save_processed_files_cache, write_cache_file. unfold_monad.
  destruct (refused E OpWriteCacheFile); eauto 10.
Qed.

(** C5. Saving a set of identifiers and loading it back (from any in-memory
    state) yields that set again, when the cache file can be written and
    read; and loading while no cache file exists yields the empty set,
    without an exception and without a warning. *)
Theorem cache_save_load_roundtrip (E : Env) (w : World) (ids stale : gset string) :
  (refused E OpWriteCacheFile = false →
   refused E OpReadCacheFile = false →
   ∃ w1 w2,
     _save_processed_files_cache E (with_cache ids w) = (Ok tt, w1) ∧
     _load_processed_files_cache E (with_cache stale w1) = (Ok tt, w2) ∧
     cache w2 = ids)
  ∧ (∃ w2,
       _load_processed_files_cache E (with_cache stale (with_cache_file None w)) = (Ok tt, w2) ∧
       cache w2 = ∅ ∧ out w2 = out w).
Proof.
  split.
  - intros Hw Hr. eexists _, _. split; [by apply save_cache_written|].
    unfold _load_processed_files_cache, read_cache_file. unfold_monad. simpl.
    rewrite Hr. simpl. split; [done|]. apply list_to_set_elements_L.
  - eexists. unfold _load_processed_files_cache. unfold_monad. simpl. done.
Qed.

(** C5, at [batch_world]: two identifiers saved and loaded back over a
    stale in-memory cache. *)
Lemma cache_save_load_roundtrip_witness :
  ∃ w1 w2,
    _save_processed_files_cache batch_env
      (with_cache {["/docs/a.pdf"; "/docs/b.pdf"]} batch_world) = (Ok tt, w1) ∧
    _load_processed_files_cache batch_env (with_cache {["stale"]} w1) = (Ok tt, w2) ∧
    cache w2 = {["/docs/a.pdf"; "/docs/b.pdf"]}.
Proof.
  apply (proj1 (cache_save_load_roundtrip batch_env batch_world
                  {["/docs/a.pdf"; "/docs/b.pdf"]} {["stale"]})); reflexivity.
Defined.

(** ** [process_document] *)

(** The skip: a path whose string is in the cache is not processed again.
    The call returns [False] and only writes a log line. *)
Lemma process_document_cached (E : Env) (p : path) (w : World) :
  path_str p ∈ cache w →
  ∃ line, process_document E p false w = (Ok false, with_out (out w ++ [line]) w).
Proof.
  intros Hin. unfold process_document, path_exists. unfold_monad. simpl.
  destruct (bool_decide (is_Some (fs w !! p))); simpl; [|eauto].
  rewrite bool_decide_eq_true_2 by done. eauto.
Qed.

(** What a call that returned [True] has done. *)
Lemma process_document_true (E : Env) (p : path) (force : bool) (w w1 : World) :
  process_document E p force w = (Ok true, w1) →
  calls w1 = (calls w ++ [path_str p])%list ∧
  cache w1 = {[path_str p]} ∪ cache w ∧
  (pipeline E (path_str p) (kb_storage w)).1 = Ok tt.
Proof.
  unfold process_document, path_exists. unfold_monad. simpl.
  destruct (bool_decide (is_Some (fs w !! p))); simpl; [|congruence].
  destruct (negb force && bool_decide (path_str p ∈ cache w)); simpl; [congruence|].
  unfold process_document_complete; simpl.
  destruct (pipeline E (path_str p) (kb_storage w)) as [[[]|e] k]; simpl; [|congruence].
  match goal with |- context [_save_processed_files_cache E ?w0] =>
    destruct (save_cache_frame E w0) as (w' & -> & Hc & Hf & Hcalls & Hk & Hi)
  end.
  simpl in *.
  destruct (bool_decide (p.1 = PENDING_DIR E)); simpl.
  - unfold mark_file_as_processed, path_exists, path_rename. unfold_monad. simpl.
    destruct (bool_decide (is_Some (fs w' !! p))); simpl.
    + destruct (bool_decide (p.1 = PENDING_DIR E)); simpl.
      * destruct (fs w' !! p); simpl; [|congruence].
        destruct (refused E _); simpl; [congruence|].
        intros [= <-]. simpl. by rewrite Hc, Hcalls.
      * intros [= <-]. simpl. by rewrite Hc, Hcalls.
    + intros [= <-]. simpl. by rewrite Hc, Hcalls.
  - intros [= <-]. simpl. by rewrite Hc, Hcalls.
Qed.

(** C1. After a call of [process_document] on a path returned [True] (one
    pipeline call was made for the path), a second call on the same path
    without [force_reprocess] returns [False], makes no pipeline call, and
    changes neither the cache nor the cache file nor the files. *)
Theorem process_document_idempotent (E : Env) (p : path) (force : bool) (w w1 : World) :
  process_document E p force w = (Ok true, w1) →
  calls w1 = (calls w ++ [path_str p])%list ∧
  ∃ w2, process_document E p false w1 = (Ok false, w2) ∧
        calls w2 = calls w1 ∧
        cache w2 = cache w1 ∧
        cache_file w2 = cache_file w1 ∧
        fs w2 = fs w1 ∧
        kb_storage w2 = kb_storage w1 ∧
        ops w2 = ops w1.
Proof.
  intros H. destruct (process_document_true _ _ _ _ _ H) as (Hcalls & Hcache & _).
  split; [done|].
  destruct (process_document_cached E p w1) as [line ->].
  { rewrite Hcache. apply elem_of_union_l. by apply elem_of_singleton. }
  eexists. split; [done|]. done.
Qed.

(** C1, at [batch_world]: [b.pdf] is processed, then offered again. *)
Lemma process_document_idempotent_witness :
  let p := ("documents/pending", "b.pdf") in
  let w1 := (process_document batch_env p false batch_world).2 in
  calls w1 = ["documents/pending/b.pdf"] ∧
  ∃ w2, process_document batch_env p false w1 = (Ok false, w2) ∧
        calls w2 = calls w1 ∧
        cache w2 = cache w1 ∧
        cache_file w2 = cache_file w1 ∧
        fs w2 = fs w1 ∧
        kb_storage w2 = kb_storage w1 ∧
        ops w2 = ops w1.
Proof.
  apply (process_document_idempotent batch_env ("documents/pending", "b.pdf") false
           batch_world (process_document batch_env ("documents/pending", "b.pdf") false
                          batch_world).2).
  vm_compute. reflexivity.
Defined.

(** A call on an existing, uncached file on which the pipeline raises
    returns [False] and leaves the files and the cache as they were. *)
Lemma process_document_raises (E : Env) (p : path) (w : World) :
  is_Some (fs w !! p) →
  path_str p ∉ cache w →
  is_ok (pipeline E (path_str p) (kb_storage w)).1 = false →
  ∃ w', process_document E p false w = (Ok false, w') ∧
        fs w' = fs w ∧ cache w' = cache w.
Proof.
  intros Hex Hnc Hp. unfold process_document, path_exists. unfold_monad. simpl.
  rewrite bool_decide_eq_true_2 by done. simpl.
  rewrite bool_decide_eq_false_2 by done. simpl.
  unfold process_document_complete. simpl.
  destruct (pipeline E (path_str p) (kb_storage w)) as [[[]|e] k]; simpl in *; [done|].
  eauto.
Qed.

(** A call on an uncached regular file of the pending directory on which
    the pipeline returns: the path is added to the cache and the file is
    renamed into the processed directory. *)
Lemma process_document_pending (E : Env) (name : string) (nd : node) (w : World) :
  fs w !! (PENDING_DIR E, name) = Some nd →
  path_str (PENDING_DIR E, name) ∉ cache w →
  is_ok (pipeline E (path_str (PENDING_DIR E, name)) (kb_storage w)).1 = true →
  refused E (OpRename (PENDING_DIR E, name) (PROCESSED_DIR E, name)) = false →
  ∃ w', process_document E (PENDING_DIR E, name) false w = (Ok true, w') ∧
        fs w' = <[(PROCESSED_DIR E, name) := nd]> (delete (PENDING_DIR E, name) (fs w)) ∧
        cache w' = {[path_str (PENDING_DIR E, name)]} ∪ cache w.
Proof.
  intros Hex Hnc Hp Hr. unfold process_document, path_exists. unfold_monad. simpl.
  rewrite bool_decide_eq_true_2 by (by rewrite Hex). simpl.
  rewrite bool_decide_eq_false_2 by done. simpl.
  unfold process_document_complete. simpl.
  destruct (pipeline E _ (kb_storage w)) as [[[]|e] k]; simpl in *; [|done].
  match goal with |- context [_save_processed_files_cache E ?w0] =>
    destruct (save_cache_frame E w0) as (w' & -> & Hc & Hf & Hcalls & Hk & Hi)
  end.
  simpl in *.
  rewrite bool_decide_eq_true_2 by done. simpl.
  unfold mark_file_as_processed, path_exists, path_rename. unfold_monad. simpl.
  rewrite Hf, Hex. simpl.
  rewrite bool_decide_eq_true_2 by done. simpl.
  rewrite Hf, Hex, Hr. simpl. eexists. split; [done|]. simpl. by rewrite Hc.
Qed.

(** A call never raises; it makes at most one pipeline call, adds at most
    the path's own string to the cache, and leaves every file other than
    the given one and its destination in the processed directory alone. *)
Lemma process_document_frame (E : Env) (p : path) (force : bool) (w : World) :
  ∃ b w', process_document E p force w = (Ok b, w') ∧
    (calls w' = calls w ∨ calls w' = (calls w ++ [path_str p])%list) ∧
    (cache w' = cache w ∨ cache w' = {[path_str p]} ∪ cache w) ∧
    (∀ q, q ≠ p → q ≠ (PROCESSED_DIR E, p.2) → fs w' !! q = fs w !! q) ∧
    stdin w' = stdin w.
Proof.
  unfold process_document, path_exists. unfold_monad. simpl.
  destruct (bool_decide (is_Some (fs w !! p))); simpl; [|eauto 10].
  destruct (negb force && bool_decide (path_str p ∈ cache w)); simpl; [eauto 10|].
  unfold process_document_complete; simpl.
  destruct (pipeline E (path_str p) (kb_storage w)) as [[[]|e] k]; simpl; [|eauto 10].
  match goal with |- context [_save_processed_files_cache E ?w0] =>
    destruct (save_cache_frame E w0) as (w' & -> & Hc & Hf & Hcalls & Hk & Hi)
  end.
  simpl in *.
  destruct (bool_decide (p.1 = PENDING_DIR E)); simpl.
  - unfold mark_file_as_processed, path_exists, path_rename. unfold_monad. simpl.
    destruct (bool_decide (is_Some (fs w' !! p))); simpl.
    + destruct (bool_decide (p.1 = PENDING_DIR E)); simpl.
      * destruct (fs w' !! p); simpl.
        -- destruct (refused E _); simpl.
           ++ eexists _, _. split; [done|]. simpl. rewrite ?Hc, ?Hf, ?Hcalls, ?Hi. eauto 10.
           ++ eexists _, _. split; [done|]. simpl. rewrite ?Hc, ?Hf, ?Hcalls, ?Hi.
              repeat split; eauto.
              intros q Hq1 Hq2. by rewrite lookup_insert_ne, lookup_delete_ne.
        -- eexists _, _. split; [done|]. simpl. rewrite ?Hc, ?Hf, ?Hcalls, ?Hi. eauto 10.
      * eexists _, _. split; [done|]. simpl. rewrite ?Hc, ?Hf, ?Hcalls, ?Hi. eauto 10.
    + eexists _, _. split; [done|]. simpl. rewrite ?Hc, ?Hf, ?Hcalls, ?Hi. eauto 10.
  - eexists _, _. split; [done|]. simpl. rewrite ?Hc, ?Hf, ?Hcalls, ?Hi. eauto 10.
Qed.

(** A call on an existing path that is not a skip reaches the pipeline:
    exactly one pipeline call is made, whatever happens afterwards. *)
Lemma process_document_reaches_pipeline (E : Env) (p : path) (force : bool) (w : World) :
  is_Some (fs w !! p) →
  force = true ∨ path_str p ∉ cache w →
  calls (process_document E p force w).2 = (calls w ++ [path_str p])%list.
Proof.
  intros Hex Hrun. unfold process_document, path_exists. unfold_monad. simpl.
  rewrite bool_decide_eq_true_2 by done. simpl.
  assert (negb force && bool_decide (path_str p ∈ cache w) = false) as ->.
  { destruct Hrun as [->|Hn]; [done|]. rewrite (bool_decide_eq_false_2 _ Hn).
    apply andb_false_r. }
  unfold process_document_complete. simpl.
  destruct (pipeline E (path_str p) (kb_storage w)) as [[[]|e] k]; simpl; [|done].
  match goal with |- context [_save_processed_files_cache E ?w0] =>
    destruct (save_cache_frame E w0) as (w' & -> & Hc & Hf & Hcalls & Hk & Hi)
  end.
  simpl in *.
  destruct (bool_decide (p.1 = PENDING_DIR E)); simpl; [|done].
  unfold mark_file_as_processed, path_exists, path_rename. unfold_monad. simpl.
  destruct (bool_decide (is_Some (fs w' !! p))); simpl; [|done].
  destruct (bool_decide (p.1 = PENDING_DIR E)); simpl; [|done].
  destruct (fs w' !! p); simpl; [|done].
  destruct (refused E _); simpl; done.
Qed.

(** A call that reaches a raising pipeline. *)
Lemma process_document_pipeline_raises (E : Env) (p : path) (force : bool) (w : World) :
  is_Some (fs w !! p) →
  force = true ∨ path_str p ∉ cache w →
  is_ok (pipeline E (path_str p) (kb_storage w)).1 = false →
  ∃ line1 line2,
    process_document E p force w =
      (Ok false,
       with_out ((out w ++ [line1]) ++ [line2])
         (with_kb_storage (pipeline E (path_str p) (kb_storage w)).2
            (with_calls (calls w ++ [path_str p]) w))).
Proof.
  intros Hex Hrun Hp. unfold process_document, path_exists. unfold_monad. simpl.
  rewrite bool_decide_eq_true_2 by done. simpl.
  assert (negb force && bool_decide (path_str p ∈ cache w) = false) as ->.
  { destruct Hrun as [->|Hn]; [done|]. rewrite (bool_decide_eq_false_2 _ Hn).
    apply andb_false_r. }
  unfold process_document_complete. simpl.
  destruct (pipeline E (path_str p) (kb_storage w)) as [[[]|e] k]; simpl in *; [done|].
  eauto.
Qed.

(** The entries that [iterdir] lists. *)
Lemma elem_of_iterdir (m : gmap (string * string) node) (d : string) (p : path) :
  p ∈ filter (fun p : path => p.1 = d) (map_to_list m).*1 ↔ p.1 = d ∧ is_Some (m !! p).
Proof.
  rewrite list_elem_of_filter, list_elem_of_fmap. split.
  - intros [Hd ([q nd] & -> & Hin)]. split; [done|].
    apply elem_of_map_to_list in Hin. simpl. eauto.
  - intros [Hd [nd Hnd]]. split; [done|]. exists (p, nd). split; [done|].
    by apply elem_of_map_to_list.
Qed.

(** ** [process_pending_documents] *)

Lemma count_if_ext_in {A} (t1 t2 : A → bool) (l : list A) :
  (∀ x, x ∈ l → t1 x = t2 x) → count_if t1 l = count_if t2 l.
Proof.
  induction l as [|x l IH]; intros H; simpl; [done|].
  rewrite (H x) by apply list_elem_of_here.
  rewrite IH; [done|]. intros y Hy. apply H. by apply list_elem_of_further.
Qed.

Lemma count_if_Permutation {A} (t : A → bool) (l1 l2 : list A) :
  l1 ≡ₚ l2 → count_if t l1 = count_if t l2.
Proof. induction 1; simpl; lia. Qed.

(** One turn of the loop: how the result of [process_document] is counted. *)
Lemma process_files_step (E : Env) (f : path) (rest : list path) (force : bool)
    (res : results) (w w1 : World) (success : bool) (d : string) :
  fs w !! f = Some (RegularFile d) →
  process_document E f force w = (Ok success, w1) →
  process_files E (f :: rest) force res w =
    process_files E rest force
      (if success then mkResults (S (processed res)) (skipped res) (failed res)
       else if bool_decide (path_str f ∈ cache w1)
            then mkResults (processed res) (S (skipped res)) (failed res)
            else mkResults (processed res) (skipped res) (S (failed res)))
      w1.
Proof.
  intros Hf Hp. simpl. unfold is_file. unfold_monad. by rewrite Hf, Hp.
Qed.

(** The batch over a snapshot of regular pending files, when the pipeline's
    verdict on each uncached file is [runs] and the rename of a file the
    pipeline accepts is not refused: the files already cached are skipped,
    the others are processed or failed as the pipeline returns or raises. *)
Lemma process_files_counts (E : Env) (runs : path → bool) (files : list path) :
  ∀ (w : World) (res : results),
  NoDup files →
  (∀ f, f ∈ files → f.1 = PENDING_DIR E) →
  (∀ f, f ∈ files → ∃ d, fs w !! f = Some (RegularFile d)) →
  (∀ f, f ∈ files → path_str f ∉ cache w → runs f = true →
        refused E (OpRename f (PROCESSED_DIR E, f.2)) = false) →
  (∀ f k, f ∈ files → path_str f ∉ cache w →
          is_ok (pipeline E (path_str f) k).1 = runs f) →
  ∃ w', process_files E files false res w =
          (Ok (mkResults
                 (processed res + count_if (fun f => negb (cached w f) && runs f) files)
                 (skipped res + count_if (cached w) files)
                 (failed res + count_if (fun f => negb (cached w f) && negb (runs f)) files)),
           w').
Proof.
  induction files as [|f rest IH]; intros w res Hnd Hdir Hreg Href Hrun.
  - simpl. unfold_monad. eexists. repeat f_equal.
    destruct res; simpl. f_equal; lia.
  - apply NoDup_cons in Hnd as [Hnotin Hnd].
    destruct (Hreg f) as [d Hf]; [apply list_elem_of_here|].
    assert (Hrest : ∀ f', f' ∈ rest → path_str f' ≠ path_str f).
    { intros [d' n'] Hin Heq. destruct f as [df nf].
      pose proof (Hdir _ (list_elem_of_further _ _ _ Hin)) as H1.
      pose proof (Hdir _ (list_elem_of_here _ _)) as H2. simpl in *. subst.
      apply path_str_inj in Heq. subst. done. }
    destruct (decide (path_str f ∈ cache w)) as [Hc|Hc].
    + (* already cached: skipped *)
      destruct (process_document_cached E f w Hc) as [line Hp].
      rewrite (process_files_step _ _ _ _ _ _ _ _ _ Hf Hp). simpl.
      rewrite bool_decide_eq_true_2 by done.
      destruct (IH (with_out (out w ++ [line]) w)
                   (mkResults (processed res) (S (skipped res)) (failed res)))
        as [w' ->]; auto using list_elem_of_further.
      eexists. f_equal. unfold cached. simpl.
      rewrite (bool_decide_eq_true_2 (path_str f ∈ cache w)) by done. simpl.
      f_equal. f_equal; lia.
    + destruct (runs f) eqn:Hr.
      * (* the pipeline returns: processed *)
        destruct f as [df nf].
        pose proof (Hdir _ (list_elem_of_here _ _)) as Hd. simpl in Hd. subst df.
        destruct (process_document_pending E nf _ w Hf Hc) as (w1 & Hp & Hfs & Hca).
        { rewrite Hrun; [done|apply list_elem_of_here|done]. }
        { apply (Href (PENDING_DIR E, nf)); [apply list_elem_of_here|done|done]. }
        rewrite (process_files_step _ _ _ _ _ _ _ _ _ Hf Hp). simpl.
        assert (Hin1 : ∀ f', f' ∈ rest → path_str f' ∈ cache w1 ↔ path_str f' ∈ cache w).
        { intros f' Hin. rewrite Hca, elem_of_union, elem_of_singleton.
          split; [intros [?|?]; [by apply Hrest in Hin|done]|by right]. }
        destruct (IH w1 (mkResults (S (processed res)) (skipped res) (failed res)))
          as [w' ->]; auto using list_elem_of_further.
        { intros f' Hin. destruct (Hreg f') as [d' Hf']; [by apply list_elem_of_further|].
          exists d'. rewrite Hfs.
          rewrite lookup_insert_ne, lookup_delete_ne; [done| |].
          all: intros <-; try done.
          pose proof (Hdir _ (list_elem_of_further _ _ _ Hin)) as H1.
          simpl in H1. symmetry in H1. by apply pending_ne_processed in H1. }
        { intros f' Hin Hn Hr'. apply Href; [by apply list_elem_of_further| |done].
          by rewrite <- Hin1. }
        { intros f' k Hin Hn. apply Hrun; [by apply list_elem_of_further|].
          by rewrite <- Hin1. }
        eexists. f_equal.
        assert (Hsame : ∀ f', f' ∈ rest → cached w1 f' = cached w f').
        { intros f' Hin. unfold cached. apply bool_decide_ext. by apply Hin1. }
        rewrite (count_if_ext_in (cached w1) (cached w)) by done.
        rewrite (count_if_ext_in (fun f => negb (cached w1 f) && runs f)
                                 (fun f => negb (cached w f) && runs f))
          by (intros; by rewrite Hsame).
        rewrite (count_if_ext_in (fun f => negb (cached w1 f) && negb (runs f))
                                 (fun f => negb (cached w f) && negb (runs f)))
          by (intros; by rewrite Hsame).
        unfold cached. simpl.
        rewrite (bool_decide_eq_false_2 (path_str (PENDING_DIR E, nf) ∈ cache w)) by done.
        simpl. rewrite Hr. simpl.
        f_equal. f_equal; lia.
      * (* the pipeline raises: failed *)
        destruct (process_document_raises E f w) as (w1 & Hp & Hfs & Hca); [by eexists|done| |].
        { rewrite Hrun; [done|apply list_elem_of_here|done]. }
        rewrite (process_files_step _ _ _ _ _ _ _ _ _ Hf Hp). simpl.
        rewrite Hca, bool_decide_eq_false_2 by done.
        destruct (IH w1 (mkResults (processed res) (skipped res) (S (failed res))))
          as [w' ->]; auto using list_elem_of_further.
        { intros f' Hin. rewrite Hfs. by apply Hreg, list_elem_of_further. }
        { intros f' Hin Hn Hr'. apply Href; [by apply list_elem_of_further| |done].
          by rewrite <- Hca. }
        { intros f' k Hin Hn. apply Hrun; [by apply list_elem_of_further|].
          by rewrite <- Hca. }
        eexists. f_equal. unfold cached. rewrite Hca. simpl.
        rewrite (bool_decide_eq_false_2 (path_str f ∈ cache w)) by done.
        simpl. rewrite Hr. simpl.
        f_equal. f_equal; lia.
Qed.

(** What [process_document] returns, and whether the path is in the cache
    afterwards, as a function of what the call looks at. *)
Lemma process_document_summary (E : Env) (f : path) (force : bool) (w : World) :
  (process_document E f force w).1 =
    Ok (bool_decide (is_Some (fs w !! f))
        && negb (negb force && bool_decide (path_str f ∈ cache w))
        && is_ok (pipeline E (path_str f) (kb_storage w)).1
        && negb (bool_decide (f.1 = PENDING_DIR E)
                 && refused E (OpRename f (PROCESSED_DIR E, f.2))))
  ∧ bool_decide (path_str f ∈ cache (process_document E f force w).2) =
      bool_decide (path_str f ∈ cache w)
      || (bool_decide (is_Some (fs w !! f))
          && negb (negb force && bool_decide (path_str f ∈ cache w))
          && is_ok (pipeline E (path_str f) (kb_storage w)).1).
Proof.
  assert (Hadd : ∀ c : gset string, bool_decide (path_str f ∈ {[path_str f]} ∪ c) = true).
  { intros c. apply bool_decide_eq_true_2, elem_of_union_l. by apply elem_of_singleton. }
  unfold process_document, path_exists. unfold_monad. simpl.
  destruct (bool_decide (is_Some (fs w !! f))) eqn:Hex; simpl.
  { apply bool_decide_eq_true_1 in Hex as [nd Hnd].
    destruct (negb force && bool_decide (path_str f ∈ cache w)) eqn:Hskip; simpl.
    { apply andb_true_iff in Hskip as [_ ->]. done. }
    unfold process_document_complete. simpl.
    destruct (pipeline E (path_str f) (kb_storage w)) as [[[]|e] k]; simpl.
    2: { by rewrite orb_false_r. }
    match goal with |- context [_save_processed_files_cache E ?w0] =>
      destruct (save_cache_frame E w0) as (w' & -> & Hc & Hf & Hcalls & Hk & Hi)
    end.
    simpl in *.
    destruct (bool_decide (f.1 = PENDING_DIR E)) eqn:Hd; simpl.
    - unfold mark_file_as_processed, path_exists, path_rename. unfold_monad. simpl.
      rewrite Hf, Hnd. simpl. rewrite Hd. simpl. rewrite Hf, Hnd.
      destruct (refused E _); simpl; rewrite ?Hc, Hadd, orb_true_r; done.
    - rewrite ?Hc, Hadd, orb_true_r. done. }
  by rewrite orb_false_r.
Qed.

(** The call looks at the entry of its path, at the path's membership in
    the cache and at the pipeline's verdict only. *)
Lemma process_document_local (E : Env) (f : path) (force : bool) (w1 w2 : World) :
  fs w1 !! f = fs w2 !! f →
  (path_str f ∈ cache w1 ↔ path_str f ∈ cache w2) →
  is_ok (pipeline E (path_str f) (kb_storage w1)).1
    = is_ok (pipeline E (path_str f) (kb_storage w2)).1 →
  (process_document E f force w1).1 = (process_document E f force w2).1
  ∧ bool_decide (path_str f ∈ cache (process_document E f force w1).2)
    = bool_decide (path_str f ∈ cache (process_document E f force w2).2).
Proof.
  intros Hfs Hc Hp.
  destruct (process_document_summary E f force w1) as [-> ->].
  destruct (process_document_summary E f force w2) as [-> ->].
  by rewrite Hfs, Hp, (bool_decide_ext _ _ Hc).
Qed.

(** The loop counts each file as its own call of [process_document] from
    the first world would be counted, when the files of the snapshot are
    entries of the pending directory and the pipeline's verdict on a file
    does not depend on what was ingested before. *)
Lemma process_files_classified (E : Env) (force : bool) (w0 : World) (files : list path) :
  ∀ (w : World) (res : results),
  NoDup files →
  (∀ f, f ∈ files → f.1 = PENDING_DIR E) →
  (∀ f, f ∈ files → is_Some (fs w0 !! f)) →
  (∀ f, f ∈ files → fs w !! f = fs w0 !! f) →
  (∀ f, f ∈ files → path_str f ∈ cache w ↔ path_str f ∈ cache w0) →
  (∀ f k k', f ∈ files →
     is_ok (pipeline E (path_str f) k).1 = is_ok (pipeline E (path_str f) k').1) →
  ∃ w', process_files E files force res w =
          (Ok (mkResults
                 (processed res + count_if (counted_processed E force w0) files)
                 (skipped res + count_if (counted_skipped E force w0) files)
                 (failed res + count_if (counted_failed E force w0) files)),
           w').
Proof.
  induction files as [|f rest IH]; intros w res Hnd Hdir Hex Hfs Hca Hind.
  - simpl. unfold_monad. eexists. repeat f_equal.
    destruct res; simpl. f_equal; lia.
  - apply NoDup_cons in Hnd as [Hnotin Hnd].
    assert (Hin0 : f ∈ f :: rest) by apply list_elem_of_here.
    assert (Hrest : ∀ f', f' ∈ rest → path_str f' ≠ path_str f).
    { intros [d' n'] Hin Heq. destruct f as [df nf].
      pose proof (Hdir _ (list_elem_of_further _ _ _ Hin)) as H1.
      pose proof (Hdir _ Hin0) as H2. simpl in *. subst.
      apply path_str_inj in Heq. subst. done. }
    destruct (process_document_frame E f force w)
      as (b & w1 & Hrun & _ & Hcache & Hframe & _).
    destruct (process_document_local E f force w w0) as [Hres Hafter];
      [by apply Hfs|by apply Hca|by apply Hind|].
    rewrite Hrun in Hres, Hafter. simpl in Hres, Hafter.
    assert (Hnext : ∃ w',
      process_files E rest force
        (if b then mkResults (S (processed res)) (skipped res) (failed res)
         else if bool_decide (path_str f ∈ cache w1)
              then mkResults (processed res) (S (skipped res)) (failed res)
              else mkResults (processed res) (skipped res) (S (failed res))) w1
      = (Ok (mkResults
               (processed (if b then mkResults (S (processed res)) (skipped res) (failed res)
                           else if bool_decide (path_str f ∈ cache w1)
                                then mkResults (processed res) (S (skipped res)) (failed res)
                                else mkResults (processed res) (skipped res) (S (failed res)))
                + count_if (counted_processed E force w0) rest)
               (skipped (if b then mkResults (S (processed res)) (skipped res) (failed res)
                         else if bool_decide (path_str f ∈ cache w1)
                              then mkResults (processed res) (S (skipped res)) (failed res)
                              else mkResults (processed res) (skipped res) (S (failed res)))
                + count_if (counted_skipped E force w0) rest)
               (failed (if b then mkResults (S (processed res)) (skipped res) (failed res)
                        else if bool_decide (path_str f ∈ cache w1)
                             then mkResults (processed res) (S (skipped res)) (failed res)
                             else mkResults (processed res) (skipped res) (S (failed res)))
                + count_if (counted_failed E force w0) rest)), w')).
    { apply IH.
      - done.
      - intros f' Hin. by apply Hdir, list_elem_of_further.
      - intros f' Hin. by apply Hex, list_elem_of_further.
      - intros f' Hin. rewrite Hframe; [by apply Hfs, list_elem_of_further| |].
        + intros ->. done.
        + intros ->. pose proof (Hdir _ (list_elem_of_further _ _ _ Hin)) as H.
          simpl in H. symmetry in H. by apply pending_ne_processed in H.
      - intros f' Hin. rewrite <- (Hca f') by (by apply list_elem_of_further).
        destruct Hcache as [->| ->]; [done|].
        rewrite elem_of_union, elem_of_singleton.
        split; [intros [?|?]; [by apply Hrest in Hin|done]|by right].
      - intros f' k k' Hin. by apply Hind, list_elem_of_further. }
    destruct (fs w0 !! f) as [[d|]|] eqn:Hf0.
    + (* a regular file *)
      assert (Hf : fs w !! f = Some (RegularFile d)) by (by rewrite Hfs).
      rewrite (process_files_step _ _ _ _ _ _ _ _ _ Hf Hrun).
      assert (Hhead : counted_processed E force w0 f = b
                      ∧ counted_skipped E force w0 f
                        = negb b && bool_decide (path_str f ∈ cache w1)
                      ∧ counted_failed E force w0 f
                        = negb b && negb (bool_decide (path_str f ∈ cache w1))).
      { unfold counted_processed, counted_skipped, counted_failed. rewrite Hf0.
        destruct (process_document E f force w0) as [r0 w0'].
        simpl in Hres, Hafter. subst r0. rewrite <- Hafter. by destruct b. }
      destruct Hhead as (Hcp & Hcs & Hcf).
      destruct Hnext as [w' ->]. eexists. f_equal. f_equal.
      cbn [count_if]. rewrite Hcp, Hcs, Hcf.
      destruct b; [|destruct (bool_decide (path_str f ∈ cache w1))]; simpl;
        f_equal; lia.
    + (* a directory: passed over *)
      assert (Hf : fs w !! f = Some Directory) by (by rewrite Hfs).
      destruct (IH w res) as [w' Hrec].
      { done. }
      { intros f' Hin. by apply Hdir, list_elem_of_further. }
      { intros f' Hin. by apply Hex, list_elem_of_further. }
      { intros f' Hin. by apply Hfs, list_elem_of_further. }
      { intros f' Hin. by apply Hca, list_elem_of_further. }
      { intros f' k k' Hin. by apply Hind, list_elem_of_further. }
      assert (Hhead : counted_processed E force w0 f = false
                      ∧ counted_skipped E force w0 f = false
                      ∧ counted_failed E force w0 f = false).
      { unfold counted_processed, counted_skipped, counted_failed. by rewrite Hf0. }
      destruct Hhead as (Hcp & Hcs & Hcf).
      exists w'. cbn [process_files count_if]. unfold is_file, bind.
      rewrite Hf, Hrec, Hcp, Hcs, Hcf. reflexivity.
    + destruct (Hex f Hin0) as [nd0 Hnd0]. congruence.
Qed.

Lemma filter_ext_in {A} (P Q : A → Prop) `{!∀ x, Decision (P x)} `{!∀ x, Decision (Q x)}
    (l : list A) :
  (∀ x, x ∈ l → P x ↔ Q x) → filter P l = filter Q l.
Proof.
  induction l as [|x l IH]; intros Hext; [done|].
  rewrite !filter_cons.
  destruct (decide (P x)) as [HP|HP]; destruct (decide (Q x)) as [HQ|HQ].
  - f_equal. apply IH. intros y Hy. by apply Hext, list_elem_of_further.
  - destruct HQ. by apply (Hext x (list_elem_of_here _ _)).
  - destruct HP. by apply (Hext x (list_elem_of_here _ _)).
  - apply IH. intros y Hy. by apply Hext, list_elem_of_further.
Qed.

(** What the batch over a snapshot of regular pending files leaves behind,
    under the hypotheses of [process_files_counts]: one pipeline call for
    each uncached file, in the order of the snapshot; the cache grown by
    the paths on which the pipeline returned; those files, and no others,
    moved to the processed directory. *)
Lemma process_files_effects (E : Env) (runs : path → bool) (files : list path) :
  ∀ (w : World) (res : results),
  NoDup files →
  (∀ f, f ∈ files → f.1 = PENDING_DIR E) →
  (∀ f, f ∈ files → ∃ d, fs w !! f = Some (RegularFile d)) →
  (∀ f, f ∈ files → path_str f ∉ cache w → runs f = true →
        refused E (OpRename f (PROCESSED_DIR E, f.2)) = false) →
  (∀ f k, f ∈ files → path_str f ∉ cache w →
          is_ok (pipeline E (path_str f) k).1 = runs f) →
  ∃ res' w', process_files E files false res w = (Ok res', w') ∧
    calls w' = (calls w ++ (path_str <$> filter (fun f => path_str f ∉ cache w) files))%list ∧
    (∀ id, id ∈ cache w' ↔
           id ∈ cache w ∨
           ∃ f, f ∈ files ∧ id = path_str f ∧ (path_str f ∉ cache w) ∧ runs f = true) ∧
    (∀ q, q ∉ files → (∀ f, f ∈ files → q ≠ (PROCESSED_DIR E, f.2)) →
          fs w' !! q = fs w !! q) ∧
    (∀ f, f ∈ files → path_str f ∉ cache w → runs f = true →
          fs w' !! f = None ∧ fs w' !! (PROCESSED_DIR E, f.2) = fs w !! f) ∧
    (∀ f, f ∈ files → path_str f ∈ cache w ∨ runs f = false → fs w' !! f = fs w !! f).
Proof.
  induction files as [|f rest IH]; intros w res Hnd Hdir Hreg Href Hrun.
  - simpl. unfold_monad. eexists _, _. split; [done|]. simpl.
    split; [by rewrite app_nil_r|]. split.
    { intros id. split; [by left|]. intros [?|(f & Hf & _)]; [done|].
      by apply elem_of_nil in Hf. }
    split; [done|]. split; intros f Hf; by apply elem_of_nil in Hf.
  - apply NoDup_cons in Hnd as [Hnotin Hnd].
    assert (Hin0 : f ∈ f :: rest) by apply list_elem_of_here.
    destruct (Hreg f Hin0) as [d Hf].
    assert (Hdir' : ∀ f', f' ∈ rest → f'.1 = PENDING_DIR E)
      by (intros; by apply Hdir, list_elem_of_further).
    assert (Hrest : ∀ f', f' ∈ rest → path_str f' ≠ path_str f).
    { intros [d' n'] Hin Heq. destruct f as [df nf].
      pose proof (Hdir' _ Hin) as H1. pose proof (Hdir _ Hin0) as H2. simpl in *. subst.
      apply path_str_inj in Heq. subst. done. }
    assert (Hdest : ∀ f', f' ∈ rest → f ≠ (PROCESSED_DIR E, f'.2)).
    { intros f' Hin ->. pose proof (Hdir _ Hin0) as H. simpl in H.
      symmetry in H. by apply pending_ne_processed in H. }
    assert (Hdest' : ∀ f', f' ∈ rest → (PROCESSED_DIR E, f.2) ≠ (PROCESSED_DIR E, f'.2)).
    { intros f' Hin [= Heq]. apply Hnotin.
      destruct f as [df nf], f' as [df' nf']. simpl in *. subst nf'.
      pose proof (Hdir' _ Hin) as H1. pose proof (Hdir _ Hin0) as H2. simpl in *.
      by subst. }
    assert (Hnotproc : (PROCESSED_DIR E, f.2) ∉ rest).
    { intros Hin. apply Hdir' in Hin. simpl in Hin.
      symmetry in Hin. by apply pending_ne_processed in Hin. }
    destruct (decide (path_str f ∈ cache w)) as [Hc|Hc].
    + (* already cached: skipped, nothing changes *)
      destruct (process_document_cached E f w Hc) as [line Hp].
      rewrite (process_files_step _ _ _ _ _ _ _ _ _ Hf Hp).
      match goal with |- context [process_files E rest false ?r ?w1] =>
        destruct (IH w1 r) as (res' & w' & -> & Hcalls & Hcache & Hframe & Hmoved & Hkept)
      end; auto using list_elem_of_further.
      eexists _, _. split; [done|]. simpl in *.
      split; [by rewrite filter_cons_False by (by intros ?)|]. split.
      { intros id. rewrite Hcache. split; intros [?|(f' & Hin & ? & ? & ?)]; auto.
        - right. exists f'. split; [by apply list_elem_of_further|done].
        - apply elem_of_cons in Hin as [->|Hin]; [done|]. right. by exists f'. }
      split.
      { intros q Hq Hqd. apply not_elem_of_cons in Hq as [_ Hq].
        apply Hframe; [done|]. intros f' Hin. by apply Hqd, list_elem_of_further. }
      split.
      { intros f' Hin Hn Hr. apply elem_of_cons in Hin as [->|Hin]; [done|].
        by apply Hmoved. }
      intros f' Hin Hor. apply elem_of_cons in Hin as [->|Hin]; [|by apply Hkept].
      by apply Hframe.
    + destruct (runs f) eqn:Hr.
      * (* the pipeline returns: processed and moved *)
        destruct f as [df nf].
        pose proof (Hdir _ Hin0) as Hd. simpl in Hd. subst df.
        destruct (process_document_pending E nf _ w Hf Hc) as (w1 & Hp & Hfs & Hca).
        { rewrite Hrun; [done|apply list_elem_of_here|done]. }
        { apply (Href (PENDING_DIR E, nf)); [apply list_elem_of_here|done|done]. }
        destruct (process_document_true _ _ _ _ _ Hp) as (Hcalls1 & _ & _).
        rewrite (process_files_step _ _ _ _ _ _ _ _ _ Hf Hp).
        assert (Hin1 : ∀ f', f' ∈ rest → path_str f' ∈ cache w1 ↔ path_str f' ∈ cache w).
        { intros f' Hin. rewrite Hca, elem_of_union, elem_of_singleton.
          split; [intros [?|?]; [by apply Hrest in Hin|done]|by right]. }
        assert (Hfs1 : ∀ q, q ≠ (PENDING_DIR E, nf) → q ≠ (PROCESSED_DIR E, nf) →
                            fs w1 !! q = fs w !! q).
        { intros q H1 H2. by rewrite Hfs, lookup_insert_ne, lookup_delete_ne. }
        match goal with |- context [process_files E rest false ?r w1] =>
          destruct (IH w1 r) as (res' & w' & -> & Hcalls & Hcache & Hframe & Hmoved & Hkept)
        end; auto using list_elem_of_further.
        { intros f' Hin. destruct (Hreg f') as [d' Hf']; [by apply list_elem_of_further|].
          exists d'. rewrite Hfs1; [done| |].
          - intros ->. done.
          - intros ->. by apply Hnotproc. }
        { intros f' Hin Hn Hr'. apply Href; [by apply list_elem_of_further| |done].
          by rewrite <- Hin1. }
        { intros f' k Hin Hn. apply Hrun; [by apply list_elem_of_further|].
          by rewrite <- Hin1. }
        eexists _, _. split; [done|]. simpl in *.
        split.
        { rewrite Hcalls, Hcalls1, filter_cons_True by done.
          rewrite (filter_ext_in (fun f => path_str f ∉ cache w1)
                                 (fun f => path_str f ∉ cache w) rest).
          - rewrite fmap_cons, <- app_assoc. done.
          - intros f' Hin. by rewrite (Hin1 f' Hin). }
        split.
        { intros id. rewrite Hcache. split.
          - intros [Hid|(f' & Hin & -> & Hn & Hr')].
            + rewrite Hca in Hid. apply elem_of_union in Hid as [Hid|Hid]; [|by left].
              apply elem_of_singleton in Hid as ->.
              right. exists (PENDING_DIR E, nf). by split; [apply list_elem_of_here|].
            + right. exists f'. split; [by apply list_elem_of_further|].
              split; [done|]. split; [|done]. by rewrite <- (Hin1 f' Hin).
          - intros [Hid|(f' & Hin & -> & Hn & Hr')].
            + left. rewrite Hca. by apply elem_of_union_r.
            + apply elem_of_cons in Hin as [->|Hin].
              * left. rewrite Hca. apply elem_of_union_l. by apply elem_of_singleton.
              * right. exists f'. split; [done|]. split; [done|]. split; [|done].
                by rewrite (Hin1 f' Hin). }
        split.
        { intros q Hq Hqd. apply not_elem_of_cons in Hq as [Hq1 Hq].
          rewrite Hframe; [|done|intros f' Hin; by apply Hqd, list_elem_of_further].
          apply Hfs1; [done|]. apply (Hqd (PENDING_DIR E, nf)), list_elem_of_here. }
        split.
        { intros f' Hin Hn Hr'. apply elem_of_cons in Hin as [->|Hin].
          - simpl. split.
            + rewrite Hframe; [|done|apply Hdest].
              rewrite Hfs, lookup_insert_ne, lookup_delete_eq; [done|].
              intros [= H]. symmetry in H. by apply pending_ne_processed in H.
            + rewrite Hframe; [|done|apply Hdest'].
              by rewrite Hfs, lookup_insert_eq.
          - destruct (Hmoved f' Hin) as [H1 H2]; [by rewrite (Hin1 f' Hin)|done|].
            split; [done|]. rewrite H2. apply Hfs1.
            + intros ->. done.
            + intros ->. by apply Hnotproc. }
        intros f' Hin Hor. apply elem_of_cons in Hin as [->|Hin].
        { destruct Hor as [?|?]; [done|congruence]. }
        rewrite Hkept; [|done|by rewrite (Hin1 f' Hin)].
        apply Hfs1.
        -- intros ->. done.
        -- intros ->. by apply Hnotproc.
      * (* the pipeline raises: failed, nothing moves *)
        destruct (process_document_pipeline_raises E f false w) as (l1 & l2 & Hp);
          [by eexists|by right| |].
        { rewrite Hrun; [done|apply list_elem_of_here|done]. }
        rewrite (process_files_step _ _ _ _ _ _ _ _ _ Hf Hp).
        match goal with |- context [process_files E rest false ?r ?w1] =>
          destruct (IH w1 r) as (res' & w' & -> & Hcalls & Hcache & Hframe & Hmoved & Hkept)
        end; auto using list_elem_of_further.
        eexists _, _. split; [done|]. simpl in *.
        split.
        { rewrite Hcalls, filter_cons_True by done. by rewrite fmap_cons, <- app_assoc. }
        split.
        { intros id. rewrite Hcache. split; intros [?|(f' & Hin & ? & ? & Hr')]; auto.
          - right. exists f'. split; [by apply list_elem_of_further|done].
          - apply elem_of_cons in Hin as [->|Hin]; [congruence|]. right. by exists f'. }
        split.
        { intros q Hq Hqd. apply not_elem_of_cons in Hq as [_ Hq].
          apply Hframe; [done|]. intros f' Hin. by apply Hqd, list_elem_of_further. }
        split.
        { intros f' Hin Hn Hr'. apply elem_of_cons in Hin as [->|Hin]; [congruence|].
          by apply Hmoved. }
        intros f' Hin Hor. apply elem_of_cons in Hin as [->|Hin]; [|by apply Hkept].
        by apply Hframe.
Qed.

Lemma process_pending_documents_run (E : Env) (force : bool) (w w1 : World) (res1 : results) :
  filter (fun p : path => p.1 = PENDING_DIR E) (map_to_list (fs w)).*1 ≠ [] →
  process_files E (filter (fun p : path => p.1 = PENDING_DIR E) (map_to_list (fs w)).*1)
    force (mkResults 0 0 0) w = (Ok res1, w1) →
  process_pending_documents E force w =
    (Ok res1, with_out (out w1 ++ ["INFO - Processing complete"])%list w1).
Proof.
  intros Hne Hrun. unfold process_pending_documents, iterdir.
  unfold bind at 1. cbv beta iota.
  destruct (filter _ _) as [|f0 files'] eqn:Hfiles; [done|].
  unfold bind at 1. rewrite Hrun. reflexivity.
Qed.

(** C4. When the pending directory holds exactly three regular files, of
    which [a] is in the cache and [b] and [c] are not, the pipeline
    returns on [b] and raises on [c], and the move of [b] is not refused,
    [process_pending_documents] without [force_reprocess] returns
    processed 1, skipped 1, failed 1, whatever the order of the directory
    listing; it has called the pipeline on [b] and on [c] and on nothing
    else, added the path of [b] to the cache, moved [b] to the processed
    directory and left [a] and [c] where they were. In general, for any
    number of pending entries and either value of [force_reprocess], the
    three counters are the numbers of regular files whose call of
    [process_document] returns [True], returns [False] with the path's
    string in the cache after the call, and returns [False] with the
    path's string not in the cache after the call (the pipeline's verdict
    on a file not depending on what was ingested before). *)
Theorem process_pending_counts (E : Env) (w : World) (a b c : string) :
  filter (fun p : path => p.1 = PENDING_DIR E) (map_to_list (fs w)).*1
    ≡ₚ [(PENDING_DIR E, a); (PENDING_DIR E, b); (PENDING_DIR E, c)] →
  (∀ f, f ∈ [(PENDING_DIR E, a); (PENDING_DIR E, b); (PENDING_DIR E, c)] →
        ∃ d, fs w !! f = Some (RegularFile d)) →
  path_str (PENDING_DIR E, a) ∈ cache w →
  path_str (PENDING_DIR E, b) ∉ cache w →
  path_str (PENDING_DIR E, c) ∉ cache w →
  (∀ k, is_ok (pipeline E (path_str (PENDING_DIR E, b)) k).1 = true) →
  (∀ k, is_ok (pipeline E (path_str (PENDING_DIR E, c)) k).1 = false) →
  refused E (OpRename (PENDING_DIR E, b) (PROCESSED_DIR E, b)) = false →
  (∃ w' order,
     process_pending_documents E false w = (Ok (mkResults 1 1 1), w') ∧
     calls w' = (calls w ++ order)%list ∧
     order ≡ₚ [path_str (PENDING_DIR E, b); path_str (PENDING_DIR E, c)] ∧
     cache w' = {[path_str (PENDING_DIR E, b)]} ∪ cache w ∧
     fs w' !! (PENDING_DIR E, a) = fs w !! (PENDING_DIR E, a) ∧
     fs w' !! (PENDING_DIR E, b) = None ∧
     fs w' !! (PROCESSED_DIR E, b) = fs w !! (PENDING_DIR E, b) ∧
     fs w' !! (PENDING_DIR E, c) = fs w !! (PENDING_DIR E, c))
  ∧ (∀ (force : bool) (w0 : World),
       (∀ f k k',
          f ∈ filter (fun p : path => p.1 = PENDING_DIR E) (map_to_list (fs w0)).*1 →
          is_ok (pipeline E (path_str f) k).1 = is_ok (pipeline E (path_str f) k').1) →
       ∃ w',
         process_pending_documents E force w0 =
           (Ok (mkResults
                  (count_if (counted_processed E force w0)
                     (filter (fun p : path => p.1 = PENDING_DIR E) (map_to_list (fs w0)).*1))
                  (count_if (counted_skipped E force w0)
                     (filter (fun p : path => p.1 = PENDING_DIR E) (map_to_list (fs w0)).*1))
                  (count_if (counted_failed E force w0)
                     (filter (fun p : path => p.1 = PENDING_DIR E) (map_to_list (fs w0)).*1))),
            w')).
Proof.
  intros Hperm Hreg Ha Hb Hc Hpb Hpc Href. split.
  - set (files := filter _ _) in *.
    set (runs := fun f : path => is_ok (pipeline E (path_str f) None).1).
    assert (Hnd : NoDup files) by apply NoDup_filter, NoDup_fst_map_to_list.
    assert (Hdir : ∀ f, f ∈ files → f.1 = PENDING_DIR E).
    { intros f Hin. by apply list_elem_of_filter in Hin as [? _]. }
    assert (Hreg' : ∀ f, f ∈ files → ∃ d, fs w !! f = Some (RegularFile d)).
    { intros f Hin. apply Hreg. by rewrite <- Hperm. }
    assert (Href' : ∀ f, f ∈ files → path_str f ∉ cache w → runs f = true →
                         refused E (OpRename f (PROCESSED_DIR E, f.2)) = false).
    { intros f Hin Hn Hr. rewrite Hperm in Hin.
      apply elem_of_cons in Hin as [->|Hin]; [done|].
      apply elem_of_cons in Hin as [->|Hin]; [done|].
      apply list_elem_of_singleton in Hin as ->.
      unfold runs in Hr. by rewrite Hpc in Hr. }
    assert (Hrun' : ∀ f k, f ∈ files → path_str f ∉ cache w →
                           is_ok (pipeline E (path_str f) k).1 = runs f).
    { intros f k Hin Hn. rewrite Hperm in Hin. unfold runs.
      apply elem_of_cons in Hin as [->|Hin]; [done|].
      apply elem_of_cons in Hin as [->|Hin]; [by rewrite !Hpb|].
      apply list_elem_of_singleton in Hin as ->. by rewrite !Hpc. }
    destruct (process_files_counts E runs files w (mkResults 0 0 0) Hnd Hdir Hreg' Href' Hrun')
      as [w2 Hcount].
    destruct (process_files_effects E runs files w (mkResults 0 0 0) Hnd Hdir Hreg' Href' Hrun')
      as (res1 & w1 & Hrun & Hcalls & Hcache & Hframe & Hmoved & Hkept).
    rewrite Hrun in Hcount. injection Hcount as -> <-.
    rewrite !(count_if_Permutation _ _ _ Hperm) in Hrun. simpl in Hrun.
    unfold cached, runs in Hrun.
    rewrite (bool_decide_eq_true_2 _ Ha), (bool_decide_eq_false_2 _ Hb),
      (bool_decide_eq_false_2 _ Hc), Hpb, Hpc in Hrun. simpl in Hrun.
    assert (Hina : (PENDING_DIR E, a) ∈ files).
    { rewrite Hperm. apply list_elem_of_here. }
    assert (Hinb : (PENDING_DIR E, b) ∈ files).
    { rewrite Hperm. apply list_elem_of_further, list_elem_of_here. }
    assert (Hinc : (PENDING_DIR E, c) ∈ files).
    { rewrite Hperm. do 2 apply list_elem_of_further. apply list_elem_of_here. }
    assert (Hrb : runs (PENDING_DIR E, b) = true) by apply Hpb.
    assert (Hrc : runs (PENDING_DIR E, c) = false) by apply Hpc.
    exists (with_out (out w1 ++ ["INFO - Processing complete"])%list w1),
      (path_str <$> filter (fun f => path_str f ∉ cache w) files).
    split.
    { apply process_pending_documents_run; [|exact Hrun].
      fold files. intros Hnil. rewrite Hnil in Hina. by apply elem_of_nil in Hina. }
    split; [exact Hcalls|]. split.
    { rewrite Hperm. rewrite filter_cons_False by (by intros ?).
      rewrite filter_cons_True by done. rewrite filter_cons_True by done. done. }
    split.
    { apply set_eq. intros id. simpl.
      rewrite Hcache, elem_of_union, elem_of_singleton. split.
      - intros [?|(f & Hin & -> & Hn & Hr)]; [by right|]. left.
        rewrite Hperm in Hin.
        apply elem_of_cons in Hin as [->|Hin]; [done|].
        apply elem_of_cons in Hin as [->|Hin]; [done|].
        apply list_elem_of_singleton in Hin as ->. congruence.
      - intros [->|?]; [|by left]. right. by exists (PENDING_DIR E, b). }
    simpl.
    split; [apply Hkept; auto|].
    destruct (Hmoved (PENDING_DIR E, b) Hinb Hb Hrb) as [H1 H2].
    split; [done|]. split; [done|]. apply Hkept; auto.
  - intros force w0 Hind. clear Hperm.
    set (files := filter (fun p : path => p.1 = PENDING_DIR E) (map_to_list (fs w0)).*1) in *.
    destruct (process_files_classified E force w0 files w0 (mkResults 0 0 0)) as [w' Hrun].
    + apply NoDup_filter, NoDup_fst_map_to_list.
    + intros f Hin. by apply list_elem_of_filter in Hin as [? _].
    + intros f Hin. unfold files in Hin. by apply elem_of_iterdir in Hin as [_ ?].
    + done.
    + done.
    + intros f k k' Hin. by apply Hind.
    + destruct files as [|f0 files'] eqn:Hfiles.
      * unfold process_pending_documents, iterdir. unfold_monad.
        fold files. rewrite Hfiles. eexists. reflexivity.
      * eexists. apply process_pending_documents_run.
        -- fold files. by rewrite Hfiles.
        -- fold files. rewrite Hfiles. exact Hrun.
Qed.

(** C4, at [batch_world]: the three pending files of the example. *)
Lemma process_pending_counts_witness :
  ∃ w' order,
    process_pending_documents batch_env false batch_world = (Ok (mkResults 1 1 1), w') ∧
    calls w' = (calls batch_world ++ order)%list ∧
    order ≡ₚ ["documents/pending/b.pdf"; "documents/pending/c.pdf"] ∧
    cache w' = {["documents/pending/b.pdf"]} ∪ cache batch_world ∧
    fs w' !! ("documents/pending", "a.pdf") = fs batch_world !! ("documents/pending", "a.pdf") ∧
    fs w' !! ("documents/pending", "b.pdf") = None ∧
    fs w' !! ("documents/processed", "b.pdf") = fs batch_world !! ("documents/pending", "b.pdf") ∧
    fs w' !! ("documents/pending", "c.pdf") = fs batch_world !! ("documents/pending", "c.pdf").
Proof.
  refine (proj1 (process_pending_counts batch_env batch_world "a.pdf" "b.pdf" "c.pdf"
                   _ _ _ _ _ _ _ _)).
  - vm_compute. apply Permutation_cons_append.
  - intros f Hf. apply list_elem_of_In in Hf. simpl in Hf.
    destruct Hf as [<-|[<-|[<-|[]]]]; eexists; vm_compute; reflexivity.
  - apply (bool_decide_unpack _). vm_compute. exact I.
  - apply (bool_decide_unpack _). vm_compute. exact I.
  - apply (bool_decide_unpack _). vm_compute. exact I.
  - intros k. reflexivity.
  - intros k. reflexivity.
  - reflexivity.
Defined.

(** ** Removal *)

(** A call on an existing path that is not skipped reaches the pipeline:
    exactly one pipeline call is made, whatever happens afterwards. *)
Lemma process_document_runs (E : Env) (p : path) (w : World) :
  is_Some (fs w !! p) →
  path_str p ∉ cache w →
  calls (process_document E p false w).2 = (calls w ++ [path_str p])%list.
Proof.
  intros Hex Hnc. unfold process_document, path_exists. unfold_monad. simpl.
  rewrite bool_decide_eq_true_2 by done. simpl.
  rewrite bool_decide_eq_false_2 by done. simpl.
  unfold process_document_complete. simpl.
  destruct (pipeline E (path_str p) (kb_storage w)) as [[[]|e] k]; simpl; [|done].
  match goal with |- context [_save_processed_files_cache E ?w0] =>
    destruct (save_cache_frame E w0) as (w' & -> & Hc & Hf & Hcalls & Hk & Hi)
  end.
  simpl in *.
  destruct (bool_decide (p.1 = PENDING_DIR E)); simpl; [|done].
  unfold mark_file_as_processed, path_exists, path_rename. unfold_monad. simpl.
  destruct (bool_decide (is_Some (fs w' !! p)) && bool_decide (p.1 = PENDING_DIR E));
    simpl; [|done].
  destruct (fs w' !! p); simpl; [|done].
  destruct (refused E _); simpl; done.
Qed.

(** What [_remove_document_from_storage] does when the document has a file
    in the processed directory and the system refuses nothing it needs. *)
Lemma remove_document_from_storage_moves (E : Env) (doc_name : string) (nd : node) (w : World) :
  fs w !! (PROCESSED_DIR E, doc_name) = Some nd →
  refused E (OpRename (PROCESSED_DIR E, doc_name) (PENDING_DIR E, doc_name)) = false →
  refused E OpWriteCacheFile = false →
  let kept : gset string :=
    filter (fun cached_file =>
              ¬ (Py.contains doc_name cached_file || Py.endswith cached_file doc_name))
           (cache w) in
  ∃ w1, _remove_document_from_storage E doc_name w = (Ok true, w1) ∧
        fs w1 = <[(PENDING_DIR E, doc_name) := nd]> (delete (PROCESSED_DIR E, doc_name) (fs w)) ∧
        cache w1 = kept ∧
        cache_file w1 = Some (JsonIds (elements kept)) ∧
        calls w1 = calls w ∧
        ops w1 = (ops w ++ [OpWriteCacheFile;
                            OpRename (PROCESSED_DIR E, doc_name) (PENDING_DIR E, doc_name)])%list.
Proof.
  intros Hex Hr Hw kept. unfold _remove_document_from_storage. unfold_monad. simpl.
  rewrite save_cache_written by done. simpl.
  unfold path_exists, path_rename. simpl.
  rewrite Hex. simpl. rewrite Hr. simpl. rewrite Hex. simpl.
  eexists. split; [done|]. simpl. by rewrite <- app_assoc.
Qed.

(** C7. Removing a document that has a same-named file in the processed
    directory (the rename and the cache write not being refused) renames
    that file into the pending directory, removes from the cache exactly the
    identifiers that contain or end with the name, and writes the remaining
    identifiers to the cache file; the string of the pending path is then
    absent from the cache, so the next [process_document] on that path is
    not skipped: it calls the pipeline. *)
Theorem remove_then_reprocess (E : Env) (doc_name : string) (nd : node) (w : World) :
  fs w !! (PROCESSED_DIR E, doc_name) = Some nd →
  refused E (OpRename (PROCESSED_DIR E, doc_name) (PENDING_DIR E, doc_name)) = false →
  refused E OpWriteCacheFile = false →
  ∃ w1, _remove_document_from_storage E doc_name w = (Ok true, w1) ∧
        fs w1 !! (PENDING_DIR E, doc_name) = Some nd ∧
        fs w1 !! (PROCESSED_DIR E, doc_name) = None ∧
        (∀ id, id ∈ cache w1 ↔
               id ∈ cache w ∧ Py.contains doc_name id = false ∧ Py.endswith id doc_name = false) ∧
        cache_file w1 = Some (JsonIds (elements (cache w1))) ∧
        (path_str (PENDING_DIR E, doc_name) ∉ cache w1) ∧
        calls (process_document E (PENDING_DIR E, doc_name) false w1).2
          = (calls w1 ++ [path_str (PENDING_DIR E, doc_name)])%list.
Proof.
  intros Hex Hr Hw.
  destruct (remove_document_from_storage_moves E doc_name nd w Hex Hr Hw)
    as (w1 & Hrun & Hfs & Hcache & Hfile & Hcalls & Hops).
  assert (Hmem : ∀ id, id ∈ cache w1 ↔
            id ∈ cache w ∧ Py.contains doc_name id = false ∧ Py.endswith id doc_name = false).
  { intros id. rewrite Hcache, elem_of_filter.
    destruct (Py.contains doc_name id), (Py.endswith id doc_name); simpl;
      intuition congruence. }
  assert (Hnew : fs w1 !! (PENDING_DIR E, doc_name) = Some nd).
  { rewrite Hfs. apply lookup_insert_eq. }
  assert (Habsent : path_str (PENDING_DIR E, doc_name) ∉ cache w1).
  { rewrite Hmem. intros (_ & _ & Hend). by rewrite path_str_endswith in Hend. }
  exists w1. split; [done|]. split; [done|]. split.
  { rewrite Hfs, lookup_insert_ne, lookup_delete_eq; [done|].
    intros [= H]. by apply pending_ne_processed in H. }
  split; [done|]. split; [by rewrite Hfile, Hcache|]. split; [done|].
  apply process_document_runs; [by eexists|done].
Qed.

(** C7, at [processed_world]: [b.pdf] goes back to the pending directory. *)
Lemma remove_then_reprocess_witness :
  ∃ w1, _remove_document_from_storage batch_env "b.pdf" processed_world = (Ok true, w1) ∧
        fs w1 !! ("documents/pending", "b.pdf") = Some (RegularFile "B") ∧
        fs w1 !! ("documents/processed", "b.pdf") = None ∧
        (∀ id, id ∈ cache w1 ↔
               id ∈ cache processed_world ∧ Py.contains "b.pdf" id = false
               ∧ Py.endswith id "b.pdf" = false) ∧
        cache_file w1 = Some (JsonIds (elements (cache w1))) ∧
        ("documents/pending/b.pdf" ∉ cache w1) ∧
        calls (process_document batch_env ("documents/pending", "b.pdf") false w1).2
          = (calls w1 ++ ["documents/pending/b.pdf"])%list.
Proof.
  apply (remove_then_reprocess batch_env "b.pdf" (RegularFile "B") processed_world);
    reflexivity.
Defined.

(** ** Which filesystem operations the code performs *)

Section Issues.
Context {P : fs_op → Prop}.

Lemma issues_same {A} (m : M A) :
  (∀ w, ops (m w).2 = ops w) → issues P m.
Proof. intros H w. exists []. by rewrite H, app_nil_r. Qed.

Lemma issues_one {A} (m : M A) (op : fs_op) :
  P op → (∀ w, ops (m w).2 = ops w ∨ ops (m w).2 = (ops w ++ [op])%list) → issues P m.
Proof.
  intros HP H w. destruct (H w) as [Hw|Hw].
  - exists []. by rewrite Hw, app_nil_r.
  - exists [op]. split; [done|]. by constructor.
Qed.

Lemma issues_ret {A} (a : A) : issues P (ret a).
Proof. by apply issues_same. Qed.

Lemma issues_get : issues P get.
Proof. by apply issues_same. Qed.

Lemma issues_print (line : string) : issues P (print line).
Proof. by apply issues_same. Qed.

Lemma issues_modify (f : World → World) :
  (∀ w, ops (f w) = ops w) → issues P (modify f).
Proof. intros H. by apply issues_same. Qed.

Lemma issues_bind {A B} (m : M A) (k : A → M B) :
  issues P m → (∀ a, issues P (k a)) → issues P (bind m k).
Proof.
  intros Hm Hk w. unfold bind. destruct (Hm w) as (n1 & H1 & F1).
  destruct (m w) as [[a|e] w1]; simpl in *.
  - destruct (Hk a w1) as (n2 & H2 & F2). exists (n1 ++ n2)%list.
    rewrite H2, H1, app_assoc. split; [done|]. by apply Forall_app.
  - by exists n1.
Qed.

Lemma issues_try_except {A} (body : M A) (handler : string → M A) :
  issues P body → (∀ e, issues P (handler e)) → issues P (try_except body handler).
Proof.
  intros Hm Hk w. unfold try_except. destruct (Hm w) as (n1 & H1 & F1).
  destruct (body w) as [[a|e] w1]; simpl in *.
  - by exists n1.
  - destruct (Hk e w1) as (n2 & H2 & F2). exists (n1 ++ n2)%list.
    rewrite H2, H1, app_assoc. split; [done|]. by apply Forall_app.
Qed.

Lemma issues_for_each {A} (xs : list A) (body : A → M unit) :
  (∀ x, issues P (body x)) → issues P (for_each xs body).
Proof.
  intros H. induction xs as [|x xs IH]; simpl.
  - apply issues_ret.
  - apply issues_bind; [apply H|]. intros _. apply IH.
Qed.

Lemma issues_path_exists (p : path) : issues P (path_exists p).
Proof. by apply issues_same. Qed.

Lemma issues_is_file (E : Env) (p : path) : issues P (is_file E p).
Proof.
  apply issues_same. intros w. unfold is_file.
  destruct (fs w !! p) as [[d|]|]; try done. by destruct (refused E _).
Qed.

Lemma issues_iterdir (d : string) : issues P (iterdir d).
Proof. by apply issues_same. Qed.

Lemma issues_path_rename (E : Env) (src dst : path) :
  P (OpRename src dst) → issues P (path_rename E src dst).
Proof.
  intros HP. apply (issues_one _ (OpRename src dst)); [done|]. intros w.
  unfold path_rename. destruct (fs w !! src); [|by left].
  destruct (refused E _); simpl; auto.
Qed.

Lemma issues_read_bytes (E : Env) (p : path) :
  P (OpReadBytes p) → issues P (read_bytes E p).
Proof.
  intros HP. apply (issues_one _ (OpReadBytes p)); [done|]. intros w.
  unfold read_bytes. destruct (fs w !! p) as [[]|]; [|by left..].
  destruct (refused E _); simpl; auto.
Qed.

Lemma issues_write_bytes (E : Env) (p : path) (data : string) :
  P (OpWriteBytes p) → issues P (write_bytes E p data).
Proof.
  intros HP. apply (issues_one _ (OpWriteBytes p)); [done|]. intros w.
  unfold write_bytes. destruct (fs w !! p) as [[]|]; [|by left|];
    destruct (refused E _); simpl; auto.
Qed.

Lemma issues_unlink (E : Env) (p : path) :
  P (OpUnlink p) → issues P (unlink E p).
Proof.
  intros HP. apply (issues_one _ (OpUnlink p)); [done|]. intros w.
  unfold unlink. destruct (fs w !! p) as [[]|]; [|by left..].
  destruct (refused E _); simpl; auto.
Qed.

Lemma issues_save_cache (E : Env) :
  P OpWriteCacheFile → issues P (_save_processed_files_cache E).
Proof.
  intros HP. apply (issues_one _ OpWriteCacheFile); [done|]. intros w.
  unfold _save_processed_files_cache, write_cache_file. unfold_monad.
  destruct (refused E _); simpl; auto.
Qed.

Lemma issues_process_document_complete (E : Env) (file_path : string) :
  issues P (process_document_complete E file_path).
Proof.
  apply issues_same. intros w. unfold process_document_complete.
  by destruct (pipeline E file_path (kb_storage w)).
Qed.

End Issues.

Create HintDb issues.

#[local] Hint Resolve issues_ret issues_get issues_print issues_path_exists issues_is_file
  issues_iterdir issues_process_document_complete : issues.

Ltac issues_step :=
  first
    [ apply issues_path_rename
    | apply issues_read_bytes
    | apply issues_write_bytes
    | apply issues_unlink
    | apply issues_save_cache
    | solve [unfold logger_info, logger_warning, logger_error; auto with issues]
    | apply issues_modify; intros ?; reflexivity
    | apply issues_for_each; intros ?
    | apply issues_try_except; [|intros ?]
    | apply issues_bind; [|intros ?]
    | match goal with |- issues _ (if ?b then _ else _) => destruct b end
    | match goal with |- issues _ (match ?x with _ => _ end) => destruct x end ].

Lemma issues_rmtree_storage {P : fs_op → Prop} (E : Env) :
  P OpRmtreeStorage → issues P (rmtree_storage E).
Proof.
  intros HP. apply (issues_one _ OpRmtreeStorage); [done|]. intros w.
  unfold rmtree_storage. destruct (refused E _); simpl; auto.
Qed.

Lemma issues_mkdir_storage {P : fs_op → Prop} (E : Env) :
  P OpMkdirStorage → issues P (mkdir_storage E).
Proof.
  intros HP. apply (issues_one _ OpMkdirStorage); [done|]. intros w.
  unfold mkdir_storage. destruct (refused E _); simpl; auto.
Qed.

Lemma issues_unlink_cache_file {P : fs_op → Prop} (E : Env) :
  P OpUnlinkCacheFile → issues P (unlink_cache_file E).
Proof.
  intros HP. apply (issues_one _ OpUnlinkCacheFile); [done|]. intros w.
  unfold unlink_cache_file. destruct (cache_file w); [|by left].
  destruct (refused E _); simpl; auto.
Qed.

Lemma mark_file_as_processed_renames (E : Env) (p : path) :
  issues (fun op => moves_without_rename E op = false) (mark_file_as_processed E p).
Proof. unfold mark_file_as_processed. repeat issues_step; done. Qed.

Lemma process_document_renames (E : Env) (p : path) (force : bool) :
  issues (fun op => moves_without_rename E op = false) (process_document E p force).
Proof.
  unfold process_document.
  repeat first [apply mark_file_as_processed_renames | issues_step]; done.
Qed.

Lemma remove_document_from_storage_renames (E : Env) (doc_name : string) :
  issues (fun op => moves_without_rename E op = false)
         (_remove_document_from_storage E doc_name).
Proof. unfold _remove_document_from_storage. repeat issues_step; done. Qed.

Lemma clear_storage_never_renames (E : Env) :
  issues (fun op => is_rename op = false) (_clear_storage_directories E).
Proof.
  unfold _clear_storage_directories, restore_file.
  repeat first [apply issues_rmtree_storage | apply issues_mkdir_storage
               | apply issues_unlink_cache_file | issues_step]; done.
Qed.

(** How the full reset moves one regular file of the processed directory
    when nothing is refused: it reads it, writes a file of the same name and
    bytes into the pending directory, and unlinks it. *)
Lemma restore_file_copies (E : Env) (name data : string) (w : World) :
  fs w !! (PROCESSED_DIR E, name) = Some (RegularFile data) →
  fs w !! (PENDING_DIR E, name) ≠ Some Directory →
  refused E (OpReadBytes (PROCESSED_DIR E, name)) = false →
  refused E (OpWriteBytes (PENDING_DIR E, name)) = false →
  refused E (OpUnlink (PROCESSED_DIR E, name)) = false →
  ∃ w', restore_file E (PROCESSED_DIR E, name) w = (Ok tt, w') ∧
        ops w' = (ops w ++ [OpReadBytes (PROCESSED_DIR E, name);
                            OpWriteBytes (PENDING_DIR E, name);
                            OpUnlink (PROCESSED_DIR E, name)])%list ∧
        fs w' = delete (PROCESSED_DIR E, name)
                       (<[(PENDING_DIR E, name) := RegularFile data]> (fs w)).
Proof.
  intros Hf Hnd Hr Hw Hu.
  assert (Hne : (PENDING_DIR E, name) ≠ (PROCESSED_DIR E, name)).
  { intros [= H]. by apply pending_ne_processed in H. }
  unfold restore_file, is_file, read_bytes, write_bytes, unlink. unfold_monad. simpl.
  destruct (fs w !! (PENDING_DIR E, name)) as [[]|] eqn:Hp; [|done|];
    repeat (progress (rewrite ?Hf, ?Hr, ?Hw, ?Hu, ?Hp, ?lookup_insert_ne by done; simpl));
    (eexists; split; [done|]); simpl; by rewrite <- !app_assoc.
Qed.

(** C9, as the code has it. The move at processing time
    ([mark_file_as_processed], and [process_document] around it) and the
    reverse move at removal ([_remove_document_from_storage]) perform no
    write into and no unlink from the pending and processed directories:
    the only operation they perform on them is the rename. The restoration
    of the full reset ([_clear_storage_directories]) performs no rename at
    all: it moves a regular file of the processed directory by reading it,
    writing its bytes to the pending directory and unlinking it. *)
Theorem moves_by_rename_except_reset (E : Env) :
  (∀ p, issues (fun op => moves_without_rename E op = false) (mark_file_as_processed E p))
  ∧ (∀ p force,
       issues (fun op => moves_without_rename E op = false) (process_document E p force))
  ∧ (∀ doc_name,
       issues (fun op => moves_without_rename E op = false)
              (_remove_document_from_storage E doc_name))
  ∧ issues (fun op => is_rename op = false) (_clear_storage_directories E)
  ∧ (∀ name data w,
       fs w !! (PROCESSED_DIR E, name) = Some (RegularFile data) →
       fs w !! (PENDING_DIR E, name) ≠ Some Directory →
       refused E (OpReadBytes (PROCESSED_DIR E, name)) = false →
       refused E (OpWriteBytes (PENDING_DIR E, name)) = false →
       refused E (OpUnlink (PROCESSED_DIR E, name)) = false →
       ∃ w', restore_file E (PROCESSED_DIR E, name) w = (Ok tt, w') ∧
             ops w' = (ops w ++ [OpReadBytes (PROCESSED_DIR E, name);
                                 OpWriteBytes (PENDING_DIR E, name);
                                 OpUnlink (PROCESSED_DIR E, name)])%list ∧
             fs w' = delete (PROCESSED_DIR E, name)
                            (<[(PENDING_DIR E, name) := RegularFile data]> (fs w))).
Proof.
  split; [intros; apply mark_file_as_processed_renames|].
  split; [intros; apply process_document_renames|].
  split; [intros; apply remove_document_from_storage_renames|].
  split; [apply clear_storage_never_renames|].
  intros. by apply restore_file_copies.
Qed.

(** C9, at [processed_world]: how the full reset restores [b.pdf]. *)
Lemma moves_by_rename_except_reset_witness :
  ∃ w', restore_file batch_env ("documents/processed", "b.pdf") processed_world = (Ok tt, w') ∧
        ops w' = [OpReadBytes ("documents/processed", "b.pdf");
                  OpWriteBytes ("documents/pending", "b.pdf");
                  OpUnlink ("documents/processed", "b.pdf")] ∧
        fs w' = delete ("documents/processed", "b.pdf")
                  (<[("documents/pending", "b.pdf") := RegularFile "B"]> (fs processed_world)).
Proof.
  apply (proj2 (proj2 (proj2 (proj2 (moves_by_rename_except_reset batch_env))))
           "b.pdf" "B" processed_world); done.
Defined.

(** C9 fails for the full reset. At [reset_world], [remove_all_documents]
    moves [b.pdf] back by a rename (in its removal loop) and then
    [_clear_storage_directories] moves the remaining file [.keep] by reading
    it, writing its bytes into the pending directory and unlinking it.
    Called on [processed_world], [_clear_storage_directories] moves [b.pdf]
    in the same way; it performs no rename. *)
Lemma clear_storage_copies_then_deletes :
  ops (remove_all_documents batch_env reset_world).2
    = [OpWriteCacheFile;
       OpRename ("documents/processed", "b.pdf") ("documents/pending", "b.pdf");
       OpRmtreeStorage; OpMkdirStorage; OpUnlinkCacheFile;
       OpReadBytes ("documents/processed", ".keep");
       OpWriteBytes ("documents/pending", ".keep");
       OpUnlink ("documents/processed", ".keep")]
  ∧ moves_without_rename batch_env (OpWriteBytes ("documents/pending", ".keep")) = true
  ∧ moves_without_rename batch_env (OpUnlink ("documents/processed", ".keep")) = true
  ∧ fs (remove_all_documents batch_env reset_world).2 !! ("documents/pending", ".keep")
    = Some (RegularFile "K")
  ∧ fs (remove_all_documents batch_env reset_world).2 !! ("documents/processed", ".keep")
    = None
  ∧ ops (_clear_storage_directories batch_env processed_world).2
    = [OpRmtreeStorage; OpMkdirStorage; OpUnlinkCacheFile;
       OpReadBytes ("documents/processed", "b.pdf");
       OpWriteBytes ("documents/pending", "b.pdf");
       OpUnlink ("documents/processed", "b.pdf")].
Proof. repeat split; vm_compute; reflexivity. Qed.

(** ** The full reset *)








(** ** [remove_document] *)

(** The storage removal never raises: its handler prints and returns
    [False]. *)
Lemma remove_document_from_storage_returns (E : Env) (doc_name : string) (w : World) :
  ∃ b w', _remove_document_from_storage E doc_name w = (Ok b, w').
Proof.
  unfold _remove_document_from_storage, try_except.
  match goal with |- context [let (_, _) := ?body w in _] => destruct (body w) as [[b|e] w1] end.
  - eauto.
  - unfold_monad. eauto.
Qed.

Lemma remove_and_report_returns (E : Env) (doc_name : string) (w : World) :
  ∃ w', remove_and_report E doc_name w = (Ok tt, w').
Proof.
  unfold remove_and_report, bind.
  destruct (remove_document_from_storage_returns E doc_name w) as (b & w1 & ->).
  destruct b; unfold print, modify; eauto.
Qed.

Lemma remove_each_returns (E : Env) (selected : list string) :
  ∀ w, ∃ w', for_each selected (remove_and_report E) w = (Ok tt, w').
Proof.
  induction selected as [|doc rest IH]; intros w; simpl.
  - unfold ret. eauto.
  - unfold bind. destruct (remove_and_report_returns E doc w) as [w1 ->]. apply IH.
Qed.

(** [remove_document], step by step. *)
Lemma remove_document_unfold (E : Env) (doc_identifier : string) (w : World) :
  remove_document E doc_identifier w =
    match select_docs doc_identifier
            (_get_processed_documents_list E w)
            (matching_docs doc_identifier (_get_processed_documents_list E w))
            (with_out (out w ++ ["Removing document: " +:+ doc_identifier]) w) with
    | (Ok (Some selected_docs), w1) =>
        match for_each selected_docs (remove_and_report E) w1 with
        | (Ok _, w2) => (Ok true, w2)
        | (Raised e, w2) =>
            (Ok false, with_out (out w2 ++ ["Error removing document: " +:+ e]) w2)
        end
    | (Ok None, w1) => (Ok false, w1)
    | (Raised e, w1) =>
        (Ok false, with_out (out w1 ++ ["Error removing document: " +:+ e]) w1)
    end.
Proof.
  unfold remove_document. unfold_monad.
  change (_get_processed_documents_list E
            (with_out (out w ++ ["Removing document: " +:+ doc_identifier]) w))
    with (_get_processed_documents_list E w).
  destruct (select_docs _ _ _ _) as [[[sel|]|e] w1]; try reflexivity.
  destruct (for_each sel _ w1) as [[[]|e] w2]; reflexivity.
Qed.

(** C10. Once [remove_document] has picked the documents to remove (one
    match, or a valid answer to the prompt), it returns [True], whatever the
    storage removals return. In particular, with a single match whose
    storage removal fails, it returns [True] and the failure shows only in
    the printed line. *)
Theorem remove_document_true_on_match (E : Env) (doc_identifier : string) (w : World) :
  (∀ selected w1,
     select_docs doc_identifier
       (_get_processed_documents_list E w)
       (matching_docs doc_identifier (_get_processed_documents_list E w))
       (with_out (out w ++ ["Removing document: " +:+ doc_identifier]) w)
     = (Ok (Some selected), w1) →
     ∃ w', remove_document E doc_identifier w = (Ok true, w'))
  ∧ (∀ doc_name,
       matching_docs doc_identifier (_get_processed_documents_list E w) = [doc_name] →
       (_remove_document_from_storage E doc_name
          (with_out (out w ++ ["Removing document: " +:+ doc_identifier]) w)).1 = Ok false →
       ∃ w', remove_document E doc_identifier w = (Ok true, w') ∧
             last (out w') = Some ("Failed to remove: " +:+ doc_name)).
Proof.
  split.
  - intros selected w1 Hsel. rewrite remove_document_unfold, Hsel.
    destruct (remove_each_returns E selected w1) as [w' ->]. eauto.
  - intros doc_name Hm Hfail. rewrite remove_document_unfold, Hm. simpl.
    unfold remove_and_report. unfold_monad.
    destruct (_remove_document_from_storage E doc_name _) as [[[]|e] w1]; simpl in *;
      try discriminate.
    eexists. split; [done|]. simpl. apply last_snoc.
Qed.

(** C10, at [processed_world] when every rename is refused: the removal of
    [b.pdf] fails and [remove_document] still returns [True]. *)
Lemma remove_document_true_on_match_witness :
  ∃ w', remove_document no_rename_env "B.PDF" processed_world = (Ok true, w') ∧
        last (out w') = Some "Failed to remove: b.pdf".
Proof.
  apply (proj2 (remove_document_true_on_match no_rename_env "B.PDF" processed_world) "b.pdf").
  - vm_compute. reflexivity.
  - vm_compute. reflexivity.
Defined.

(** ** The registry listing *)

Lemma foldl_insert_lookup {V} (g : string → V) (l : list string) :
  ∀ (m : gmap string V) (k : string),
  foldl (fun acc n => <[n := g n]> acc) m l !! k =
    if bool_decide (k ∈ l) then Some (g k) else m !! k.
Proof.
  induction l as [|n l IH]; intros m k; cbn [foldl].
  - by rewrite bool_decide_eq_false_2 by apply not_elem_of_nil.
  - rewrite IH. destruct (decide (k ∈ l)) as [Hin|Hnin].
    + rewrite !bool_decide_eq_true_2; [done| by apply list_elem_of_further | done].
    + rewrite (bool_decide_eq_false_2 (k ∈ l)) by done.
      destruct (decide (k = n)) as [->|Hne].
      * rewrite lookup_insert_eq. by rewrite bool_decide_eq_true_2 by apply list_elem_of_here.
      * rewrite lookup_insert_ne by done.
        rewrite bool_decide_eq_false_2; [done|]. rewrite elem_of_cons. tauto.
Qed.

Lemma foldl_insert_if_lookup {V} (t : string → bool) (g : string → V) (l : list string) :
  ∀ (m : gmap string V) (k : string),
  foldl (fun acc n => if t n then <[n := g n]> acc else acc) m l !! k =
    if t k && bool_decide (k ∈ l) then Some (g k) else m !! k.
Proof.
  induction l as [|n l IH]; intros m k; cbn [foldl].
  - rewrite (bool_decide_eq_false_2 (k ∈ [])) by apply not_elem_of_nil.
    by rewrite andb_false_r.
  - rewrite IH. destruct (t k) eqn:Htk; cbn [andb].
    + destruct (decide (k ∈ l)) as [Hin|Hnin].
      * rewrite !bool_decide_eq_true_2; [done| by apply list_elem_of_further | done].
      * rewrite (bool_decide_eq_false_2 (k ∈ l)) by done.
        destruct (decide (k = n)) as [->|Hne].
        -- rewrite Htk, lookup_insert_eq.
           by rewrite bool_decide_eq_true_2 by apply list_elem_of_here.
        -- rewrite bool_decide_eq_false_2 by (rewrite elem_of_cons; tauto).
           destruct (t n); [by rewrite lookup_insert_ne|done].
    + destruct (t n) eqn:Htn; [|done].
      rewrite lookup_insert_ne; [done|]. intros ->. congruence.
Qed.

(** The processed directory's part of the listing: its keys are the
    regular, non-hidden files of the directory. *)
Lemma processed_docs_lookup (E : Env) (w : World) (name : string) :
  processed_docs E w !! name =
    if bool_decide (name ∈ processed_entries E w)
    then Some (match stat_info E name with
               | Some meta => meta
               | None => ("Unknown", "Unknown")
               end)
    else None.
Proof. unfold processed_docs. by rewrite foldl_insert_lookup, lookup_empty. Qed.

(** The listing, name by name. *)
Lemma detailed_info_lookup (E : Env) (w : World) (name : string) :
  _get_detailed_documents_info E w !! name =
    if listable name
       && bool_decide (name ∈ cache_docs E w ∪ dom (processed_docs E w) ∪ kb_docs E w)
    then Some (mkDetails (bool_decide (name ∈ cache_docs E w))
                         (bool_decide (name ∈ dom (processed_docs E w)))
                         (bool_decide (name ∈ kb_docs E w))
                         (fst <$> processed_docs E w !! name)
                         (snd <$> processed_docs E w !! name))
    else None.
Proof.
  unfold _get_detailed_documents_info.
  rewrite (foldl_insert_if_lookup listable
             (fun doc_name =>
                mkDetails (bool_decide (doc_name ∈ cache_docs E w))
                          (bool_decide (doc_name ∈ dom (processed_docs E w)))
                          (bool_decide (doc_name ∈ kb_docs E w))
                          (fst <$> processed_docs E w !! doc_name)
                          (snd <$> processed_docs E w !! doc_name))).
  rewrite lookup_empty.
  by rewrite (bool_decide_ext _ _ (elem_of_elements _ name)).
Qed.

(** C3, as the code has it. The listing holds exactly the names of the
    union of the three sources that are longer than one character and do
    not start with a dot, and each flag of a listed name says whether the
    name is in the corresponding source. In particular, when the basenames
    of the cache identifiers are exactly [a.pdf], the processed directory
    holds exactly [b.pdf] and the knowledge-base table yields exactly
    [c.pdf], the listing has exactly these three names, each with only its
    own flag set. *)
Theorem detailed_info_is_filtered_union (E : Env) (w : World) :
  (∀ name,
     _get_detailed_documents_info E w !! name =
       if listable name
          && bool_decide (name ∈ cache_docs E w ∪ dom (processed_docs E w) ∪ kb_docs E w)
       then Some (mkDetails (bool_decide (name ∈ cache_docs E w))
                            (bool_decide (name ∈ dom (processed_docs E w)))
                            (bool_decide (name ∈ kb_docs E w))
                            (fst <$> processed_docs E w !! name)
                            (snd <$> processed_docs E w !! name))
       else None)
  ∧ (cache_docs E w = {["a.pdf"]} →
     dom (processed_docs E w) = {["b.pdf"]} →
     kb_docs E w = {["c.pdf"]} →
     ∃ size modified,
       _get_detailed_documents_info E w =
         {[ "a.pdf" := mkDetails true false false None None;
            "b.pdf" := mkDetails false true false (Some size) (Some modified);
            "c.pdf" := mkDetails false false true None None ]}).
Proof.
  split; [apply detailed_info_lookup|].
  intros Hc Hp Hk.
  assert (Hb : is_Some (processed_docs E w !! "b.pdf")).
  { apply elem_of_dom. rewrite Hp. by apply elem_of_singleton. }
  destruct Hb as [[size modified] Hb].
  assert (Hother : ∀ name, name ≠ "b.pdf" → processed_docs E w !! name = None).
  { intros name Hne. apply not_elem_of_dom. rewrite Hp. by rewrite elem_of_singleton. }
  exists size, modified. apply map_eq. intros name.
  rewrite detailed_info_lookup, Hc, Hp, Hk.
  destruct (decide (name = "a.pdf")) as [->|Ha].
  { rewrite lookup_insert_eq, Hother by done. reflexivity. }
  rewrite lookup_insert_ne by done.
  destruct (decide (name = "b.pdf")) as [->|Hnb].
  { rewrite lookup_insert_eq, Hb. reflexivity. }
  rewrite lookup_insert_ne by done.
  destruct (decide (name = "c.pdf")) as [->|Hnc].
  { rewrite lookup_singleton_eq, Hother by done. reflexivity. }
  rewrite lookup_singleton_ne by done.
  rewrite (bool_decide_eq_false_2 (name ∈ _ ∪ _ ∪ _)).
  - by rewrite andb_false_r.
  - rewrite !elem_of_union, !elem_of_singleton. tauto.
Qed.

(** C3 as amended, at [three_sources_world]. *)
Lemma detailed_info_is_filtered_union_witness :
  ∃ size modified,
    _get_detailed_documents_info batch_env three_sources_world =
      {[ "a.pdf" := mkDetails true false false None None;
         "b.pdf" := mkDetails false true false (Some size) (Some modified);
         "c.pdf" := mkDetails false false true None None ]}.
Proof.
  apply (proj2 (detailed_info_is_filtered_union batch_env three_sources_world));
    vm_compute; reflexivity.
Defined.

(** C3 fails in general: the only cache identifier of [short_name_world]
    has the basename [a], which is in the union of the sources and is not
    listed. *)
Lemma detailed_info_drops_short_name :
  cache_docs batch_env short_name_world
    ∪ dom (processed_docs batch_env short_name_world)
    ∪ kb_docs batch_env short_name_world = {["a"]}
  ∧ _get_detailed_documents_info batch_env short_name_world = ∅.
Proof. split; vm_compute; reflexivity. Qed.

(** ** Names without separators *)

Lemma has_char_rev_app (t : ascii → bool) (s1 s2 : string) :
  has_char t (String.rev_app s1 s2) = has_char t s1 || has_char t s2.
Proof.
  revert s2. induction s1 as [|c s1 IH]; intros s2; simpl; [done|].
  rewrite IH. simpl. destruct (t c), (has_char t s1), (has_char t s2); done.
Qed.

Lemma has_char_rev (t : ascii → bool) (s : string) :
  has_char t (String.rev s) = has_char t s.
Proof. unfold String.rev. rewrite has_char_rev_app. simpl. apply orb_false_r. Qed.

(** The text after the last separator has no separator, and no character
    that the whole text does not have. *)
Lemma after_last_go_chars (sep t : ascii → bool) (s : string) :
  ∀ acc,
  (has_char sep acc = false → has_char sep (Py.after_last_go sep s acc) = false)
  ∧ (has_char t s = false → has_char t acc = false →
     has_char t (Py.after_last_go sep s acc) = false).
Proof.
  induction s as [|c s IH]; intros acc; simpl.
  - rewrite !has_char_rev. tauto.
  - destruct (sep c) eqn:Hc.
    + split; [intros _; by apply IH|].
      intros [_ Hs]%orb_false_elim _. by apply IH.
    + split.
      * intros Hacc. apply IH. simpl. by rewrite Hc.
      * intros [Htc Hs]%orb_false_elim Hacc. apply IH; [done|]. simpl. by rewrite Htc.
Qed.

Lemma replace_backslash_chars (s : string) :
  has_char (Ascii.eqb Py.backslash) (Py.replace_char Py.backslash Py.slash s) = false.
Proof.
  induction s as [|c s IH]; [done|]. cbn [Py.replace_char has_char].
  rewrite IH, orb_false_r.
  destruct (Ascii.eqb c Py.backslash) eqn:Hc; [reflexivity|].
  by rewrite Ascii.eqb_sym.
Qed.

(** [clean_name] leaves no forward and no backward slash. *)
Lemma clean_name_no_separator (doc : string) :
  has_char is_separator (clean_name doc) = false.
Proof.
  unfold clean_name, Py.after_last.
  destruct (after_last_go_chars (Ascii.eqb Py.slash) (Ascii.eqb Py.backslash)
              (Py.replace_char Py.backslash Py.slash doc) EmptyString) as [H1 H2].
  specialize (H1 eq_refl). specialize (H2 (replace_backslash_chars doc) eq_refl).
  revert H1 H2. generalize (Py.after_last_go (Ascii.eqb Py.slash)
                              (Py.replace_char Py.backslash Py.slash doc) EmptyString).
  intros s. induction s as [|c s IH]; [done|]. cbn [has_char].
  intros [H1 H1']%orb_false_elim [H2 H2']%orb_false_elim.
  unfold is_separator at 1. rewrite (Ascii.eqb_sym c Py.slash), H1.
  rewrite (Ascii.eqb_sym c Py.backslash), H2. by apply IH.
Qed.

(** Every name of [_get_processed_documents_list] is free of separators,
    on either platform. *)
Lemma processed_documents_list_no_separator (E : Env) (w : World) (name : string) :
  name ∈ _get_processed_documents_list E w → has_char is_separator name = false.
Proof.
  unfold _get_processed_documents_list. rewrite merge_sort_Permutation.
  rewrite elem_of_elements, elem_of_list_to_set, list_elem_of_omap.
  intros (doc & _ & Hdoc).
  destruct (Py.truthy doc); [|done].
  destruct (_ && _); [|done].
  injection Hdoc as <-. apply clean_name_no_separator.
Qed.

(** C6. On a POSIX host, a knowledge-base [file_path] written with
    backslashes is listed by [_get_detailed_documents_info] under the whole
    string: [os.path.basename] finds no [/] in it and the listing does not
    strip separators itself. [_get_processed_documents_list] does strip
    them and yields [report.pdf] for the same table; on a Windows host the
    listing yields [report.pdf] too. A POSIX path is reduced to
    [report.PDF], case preserved, by both functions. *)
Theorem detailed_info_keeps_backslash_path :
  dom (_get_detailed_documents_info batch_env windows_path_world)
    = ({["C:\x\y\report.pdf"]} : gset string)
  ∧ _get_processed_documents_list batch_env windows_path_world = ["report.pdf"]
  ∧ dom (_get_detailed_documents_info windows_env windows_path_world)
    = ({["report.pdf"]} : gset string)
  ∧ _get_processed_documents_list windows_env windows_path_world = ["report.pdf"]
  ∧ dom (_get_detailed_documents_info batch_env posix_path_world)
    = ({["report.PDF"]} : gset string)
  ∧ _get_processed_documents_list batch_env posix_path_world = ["report.PDF"]
  ∧ dom (_get_detailed_documents_info windows_env posix_path_world)
    = ({["report.PDF"]} : gset string)
  ∧ _get_processed_documents_list windows_env posix_path_world = ["report.PDF"].
Proof. repeat split; vm_compute; reflexivity. Qed.

(** ** The caption normaliser *)







(** The scanners on small texts, as Python's [re] answers on them. *)
Example findall_json_backs_off : Regex.findall_json "{a{b{c}}" = ["{b{c}}"].
Proof. reflexivity. Qed.

Example findall_json_two_levels :
  Regex.findall_json "x {a} y {b {c} d} z {e" = ["{a}"; "{b {c} d}"]
  ∧ Regex.findall_json "{{{}}}" = ["{{}}"].
Proof. split; reflexivity. Qed.

Example first_fenced_block_lazy :
  Regex.first_fenced_block "pre ``` {a} } ``` post ```{b}```" = Some "{a} }"
  ∧ Regex.first_fenced_block "```jsonx{a}```" = None
  ∧ Regex.first_fenced_block "```json ```{a}```" = Some "{a}".
Proof. repeat split; reflexivity. Qed.

Example entity_patterns :
  RefLib.findall ProperNouns "Hello World1 and Foo Bar" = ["Hello"; "Foo Bar"]
  ∧ RefLib.findall MoneyAmounts "paid $1,234.56 and $5" = ["$1,234.56"; "$5"]
  ∧ RefLib.findall Dates "on 12/31/2024 or 1-2-20 not 123/1/2020" = ["12/31/2024"; "1-2-20"]
  ∧ RefLib.findall Acronyms "USA and NASA1 AB_ BB" = ["USA"; "BB"].
Proof. repeat split; vm_compute; reflexivity. Qed.





(** The contents of a fenced block are parsed and returned. *)
Example normalize_fenced_block :
  normalize RefLib.lib fenced_text
  = Ok (RefLib.dumps false (JObject [("description", JString "x"); ("entities", JArray [])])).
Proof. vm_compute. reflexivity. Qed.

(** Prose after the JSON object is kept under [additional_notes], and the
    missing [entities] key is filled in. *)
Example normalize_object_then_prose :
  normalize RefLib.lib object_then_prose
  = Ok (RefLib.dumps false (JObject [("description", JString "a chart");
                                     ("additional_notes", JString "Hope this helps!");
                                     ("entities", JArray [])])).
Proof. vm_compute. reflexivity. Qed.

(** A parsed record keeps the description it carries, even an empty one or
    one that is no string; and a record whose [entities] has no length ends
    in the error record. *)
Example normalize_keeps_parsed_description :
  normalize RefLib.lib ("{" +:+ quoted "description" +:+ ": 5}")
  = Ok (RefLib.dumps false (JObject [("description", JInt 5); ("entities", JArray [])]))
  ∧ normalize RefLib.lib ("{" +:+ quoted "entities" +:+ ": null}")
    = Ok (RefLib.dumps true
            (error_record "object of type 'NoneType' has no len()"
               (Some ("{" +:+ quoted "entities" +:+ ": null}")))).
Proof. split; vm_compute; reflexivity. Qed.

(** The blanks that [strip()] removes include the no-break space: a text
    of blanks only is normalised like the empty text, and a fence may be
    followed by one. *)
Example normalize_no_break_space :
  normalize RefLib.lib (String (ascii_of_nat 160) " " +:+ String (ascii_of_nat 133) "")
  = normalize RefLib.lib ""
  ∧ normalize RefLib.lib
      ("```" +:+ String (ascii_of_nat 160) "" +:+ "{" +:+ quoted "description" +:+ ":"
       +:+ quoted "x" +:+ "}" +:+ "```")
    = Ok (RefLib.dumps false (JObject [("description", JString "x"); ("entities", JArray [])])).
Proof. split; vm_compute; reflexivity. Qed.

(** When the call of the language model raises, so does the normaliser. *)
Example robust_llm_func_when_the_model_raises (L : Lib) (e : string) :
  robust_llm_func L (Raised e) = Raised "UnboundLocalError".
Proof. reflexivity. Qed.

(** ** Texts outside ASCII *)

(** [lower()] reaches the capitals of Latin-1: two documents that differ
    in the case of an accented letter both match. *)
Example matching_docs_latin1 :
  matching_docs (String (ascii_of_nat 233) ".pdf")
    [String (ascii_of_nat 233) ".pdf"; String (ascii_of_nat 201) ".pdf"]
  = [String (ascii_of_nat 233) ".pdf"; String (ascii_of_nat 201) ".pdf"].
Proof. vm_compute. reflexivity. Qed.

(** [strip()] and [int()] take the no-break space for a blank; [int()]
    does not take the separators 28 to 31 for one. *)
Example strip_and_int_no_break_space :
  Py.strip (String (ascii_of_nat 160) "yes") = "yes"
  ∧ Py.int (String (ascii_of_nat 160) "1") = Some 1%Z
  ∧ Py.strip (String (ascii_of_nat 28) "1") = "1"
  ∧ Py.int (String (ascii_of_nat 28) "1") = None.
Proof. vm_compute. repeat split; reflexivity. Qed.

(** A confirmation that begins with a no-break space is still [yes]. *)
Example remove_all_documents_no_break_space :
  (remove_all_documents batch_env
     (with_stdin [String (ascii_of_nat 160) "yes"] reset_world)).1 = Ok true.
Proof. vm_compute. reflexivity. Qed.

(** * Further properties of the code *)

Local Open Scope list_scope.

(** ** What one call of [process_document] can touch *)



(** X2. A failure of the pipeline is not remembered. When the file exists,
    the call is not a skip (the path is uncached, or [force_reprocess] is
    set) and the pipeline raises, [process_document] returns [False] after
    one pipeline call and leaves the files, the cache, the cache file and
    the filesystem log as they were; the same call made again reaches the
    pipeline once more. *)
Theorem process_document_failure_is_retried (E : Env) (p : path) (force : bool) (w : World) :
  is_Some (fs w !! p) →
  force = true ∨ path_str p ∉ cache w →
  is_ok (pipeline E (path_str p) (kb_storage w)).1 = false →
  ∃ w', process_document E p force w = (Ok false, w') ∧
        fs w' = fs w ∧ cache w' = cache w ∧ cache_file w' = cache_file w ∧
        ops w' = ops w ∧
        calls w' = (calls w ++ [path_str p])%list ∧
        calls (process_document E p force w').2 = (calls w' ++ [path_str p])%list.
Proof.
  intros Hex Hrun Hp.
  destruct (process_document_pipeline_raises E p force w Hex Hrun Hp) as (l1 & l2 & ->).
  eexists. split; [done|]. simpl. repeat split.
  by apply process_document_reaches_pipeline.
Qed.

(** X2, at [cached_pending_world]: a forced call on a pipeline that raises
    on everything. *)
Lemma process_document_failure_is_retried_witness :
  ∃ w', process_document failing_env ("documents/pending", "a.pdf") true
          cached_pending_world = (Ok false, w') ∧
        fs w' = fs cached_pending_world ∧ cache w' = cache cached_pending_world ∧
        cache_file w' = cache_file cached_pending_world ∧
        ops w' = ops cached_pending_world ∧
        calls w' = (calls cached_pending_world ++ ["documents/pending/a.pdf"])%list ∧
        calls (process_document failing_env ("documents/pending", "a.pdf") true w').2
          = (calls w' ++ ["documents/pending/a.pdf"])%list.
Proof.
  apply (process_document_failure_is_retried failing_env ("documents/pending", "a.pdf")
           true cached_pending_world).
  - vm_compute. eauto.
  - left. reflexivity.
  - reflexivity.
Defined.

(** X3. A file that the pipeline accepted but that cannot be moved is
    reported as failed and remembered as processed. When the rename of an
    uncached regular pending file into the processed directory is refused
    after the pipeline returned, [process_document] returns [False], the
    file is still pending, and the path's string is in the cache; a later
    call without [force_reprocess] skips the file, and the batch counts
    the file as skipped, not as failed. *)
Theorem process_document_rename_refused (E : Env) (name d : string) (w : World) :
  fs w !! (PENDING_DIR E, name) = Some (RegularFile d) →
  path_str (PENDING_DIR E, name) ∉ cache w →
  is_ok (pipeline E (path_str (PENDING_DIR E, name)) (kb_storage w)).1 = true →
  refused E (OpRename (PENDING_DIR E, name) (PROCESSED_DIR E, name)) = true →
  ∃ w1, process_document E (PENDING_DIR E, name) false w = (Ok false, w1) ∧
        fs w1 = fs w ∧
        path_str (PENDING_DIR E, name) ∈ cache w1 ∧
        (∃ w2, process_document E (PENDING_DIR E, name) false w1 = (Ok false, w2) ∧
               calls w2 = calls w1) ∧
        process_files E [(PENDING_DIR E, name)] false (mkResults 0 0 0) w
          = (Ok (mkResults 0 1 0), w1).
Proof.
  intros Hex Hnc Hp Hr.
  assert (∃ w1, process_document E (PENDING_DIR E, name) false w = (Ok false, w1) ∧
                fs w1 = fs w ∧ path_str (PENDING_DIR E, name) ∈ cache w1)
    as (w1 & Hrun & Hfs & Hca).
  { unfold process_document, path_exists. unfold_monad. simpl.
    rewrite bool_decide_eq_true_2 by (by rewrite Hex). simpl.
    rewrite bool_decide_eq_false_2 by done. simpl.
    unfold process_document_complete. simpl.
    destruct (pipeline E _ (kb_storage w)) as [[[]|e] k]; simpl in *; [|done].
    match goal with |- context [_save_processed_files_cache E ?w0] =>
      destruct (save_cache_frame E w0) as (w' & -> & Hc & Hf & Hcalls & Hk & Hi)
    end.
    simpl in *.
    rewrite bool_decide_eq_true_2 by done. simpl.
    unfold mark_file_as_processed, path_exists, path_rename. unfold_monad. simpl.
    rewrite Hf, Hex. simpl.
    rewrite bool_decide_eq_true_2 by done. simpl.
    rewrite Hf, Hex, Hr. simpl. eexists. split; [done|]. simpl.
    split; [done|]. rewrite Hc. apply elem_of_union_l. by apply elem_of_singleton. }
  exists w1. repeat split; try done.
  - destruct (process_document_cached E (PENDING_DIR E, name) w1 Hca) as [line ->].
    eauto.
  - rewrite (process_files_step _ _ _ _ _ _ _ _ _ Hex Hrun). simpl.
    by rewrite bool_decide_eq_true_2.
Qed.

(** X3, at [batch_world] with every rename refused. *)
Lemma process_document_rename_refused_witness :
  ∃ w1, process_document no_rename_env ("documents/pending", "b.pdf") false batch_world
          = (Ok false, w1) ∧
        fs w1 = fs batch_world ∧
        "documents/pending/b.pdf" ∈ cache w1 ∧
        (∃ w2, process_document no_rename_env ("documents/pending", "b.pdf") false w1
                 = (Ok false, w2) ∧
               calls w2 = calls w1) ∧
        process_files no_rename_env [("documents/pending", "b.pdf")] false
          (mkResults 0 0 0) batch_world
          = (Ok (mkResults 0 1 0), w1).
Proof.
  apply (process_document_rename_refused no_rename_env "b.pdf" "B" batch_world).
  - vm_compute. reflexivity.
  - apply (bool_decide_unpack _). vm_compute. exact I.
  - reflexivity.
  - reflexivity.
Defined.

(** X4. [force_reprocess] bypasses the cache and nothing else does. On an
    existing file whose path is in the cache, a call with
    [force_reprocess] makes one pipeline call and a call without it makes
    none. *)
Theorem force_reprocess_bypasses_cache (E : Env) (p : path) (w : World) :
  is_Some (fs w !! p) →
  path_str p ∈ cache w →
  calls (process_document E p true w).2 = (calls w ++ [path_str p])%list ∧
  calls (process_document E p false w).2 = calls w.
Proof.
  intros Hex Hc. split.
  - apply process_document_reaches_pipeline; auto.
  - by destruct (process_document_cached E p w Hc) as [line ->].
Qed.

(** X4, at [batch_world], where [a.pdf] is cached. *)
Lemma force_reprocess_bypasses_cache_witness :
  calls (process_document batch_env ("documents/pending", "a.pdf") true batch_world).2
    = (calls batch_world ++ ["documents/pending/a.pdf"])%list ∧
  calls (process_document batch_env ("documents/pending", "a.pdf") false batch_world).2
    = calls batch_world.
Proof.
  apply (force_reprocess_bypasses_cache batch_env ("documents/pending", "a.pdf") batch_world).
  - vm_compute. eauto.
  - apply (bool_decide_unpack _). vm_compute. exact I.
Defined.

(** ** The batch accounts for every file *)

(** The loop over a snapshot of the pending directory, when [is_file]
    raises on none of its entries. *)
Lemma process_files_total (E : Env) (force : bool) (files : list path) :
  ∀ (w : World) (res : results),
  NoDup files →
  (∀ f, f ∈ files → f.1 = PENDING_DIR E) →
  (∀ f, f ∈ files → fs w !! f = None → refused E (OpStat f) = false) →
  ∃ res' w', process_files E files force res w = (Ok res', w') ∧
    processed res' + skipped res' + failed res' =
      processed res + skipped res + failed res +
      count_if (fun f => match fs w !! f with Some (RegularFile _) => true | _ => false end)
               files ∧
    (length (calls w') ≤
       length (calls w) +
       count_if (fun f => match fs w !! f with Some (RegularFile _) => true | _ => false end)
                files)%nat.
Proof.
  induction files as [|f rest IH]; intros w res Hnd Hdir Hstat.
  - simpl. unfold_monad. eexists _, _. split; [done|]. lia.
  - apply NoDup_cons in Hnd as [Hnotin Hnd].
    assert (Hdir' : ∀ f', f' ∈ rest → f'.1 = PENDING_DIR E)
      by (intros; by apply Hdir, list_elem_of_further).
    assert (Hstat' : ∀ f', f' ∈ rest → fs w !! f' = None → refused E (OpStat f') = false)
      by (intros; by apply Hstat; [apply list_elem_of_further|]).
    simpl. unfold is_file. unfold_monad.
    destruct (fs w !! f) as [[d|]|] eqn:Hf.
    + destruct (process_document_frame E f force w)
        as (b & w1 & -> & Hcalls & _ & Hfs & _).
      assert (Hsame : ∀ f', f' ∈ rest → fs w1 !! f' = fs w !! f').
      { intros f' Hin. apply Hfs.
        - intros ->. done.
        - intros ->. apply Hdir' in Hin. simpl in Hin.
          symmetry in Hin. by apply pending_ne_processed in Hin. }
      destruct (IH w1 (if b then mkResults (S (processed res)) (skipped res) (failed res)
                       else if bool_decide (path_str f ∈ cache w1)
                            then mkResults (processed res) (S (skipped res)) (failed res)
                            else mkResults (processed res) (skipped res) (S (failed res))))
        as (res' & w' & -> & Hsum & Hlen); [done|done| |].
      { intros f' Hin. rewrite (Hsame f' Hin). by apply Hstat'. }
      eexists _, _. split; [done|].
      assert (Hext : count_if (fun f => match fs w1 !! f with
                                        | Some (RegularFile _) => true | _ => false end) rest
                     = count_if (fun f => match fs w !! f with
                                          | Some (RegularFile _) => true | _ => false end) rest).
      { apply count_if_ext_in. intros f' Hin. by rewrite (Hsame f' Hin). }
      rewrite Hext in Hsum, Hlen.
      split.
      * rewrite Hsum. destruct b; [|destruct (bool_decide _)]; simpl; lia.
      * destruct Hcalls as [Hcalls|Hcalls]; rewrite Hcalls in Hlen;
          rewrite ?length_app in Hlen; simpl in *; lia.
    + destruct (IH w res) as (res' & w' & -> & Hsum & Hlen); [done|done|done|].
      eexists _, _. split; [done|]. lia.
    + rewrite (Hstat f (list_elem_of_here _ _) Hf).
      destruct (IH w res) as (res' & w' & -> & Hsum & Hlen); [done|done|done|].
      eexists _, _. split; [done|]. lia.
Qed.

(** X5. The loop of [process_pending_documents] accounts for every
    regular file of its snapshot exactly once, unless [is_file] raises.
    For a snapshot of distinct paths of the pending directory on none of
    which [is_file] raises (an entry that is gone is passed over), with or
    without [force_reprocess], whether the pipeline and the renames
    return or raise, the loop returns, the three counters grow by the
    number of regular files of the snapshot in total, and at most that
    many pipeline calls are made. When [is_file] raises on an entry, the
    loop raises there: nothing catches the error. *)
Theorem process_files_accounts_for_every_file (E : Env) (force : bool)
    (files : list path) (w : World) (res : results) :
  NoDup files →
  (∀ f, f ∈ files → f.1 = PENDING_DIR E) →
  (∀ f, f ∈ files → fs w !! f = None → refused E (OpStat f) = false) →
  (∃ res' w', process_files E files force res w = (Ok res', w') ∧
     processed res' + skipped res' + failed res' =
       processed res + skipped res + failed res +
       count_if (fun f => match fs w !! f with Some (RegularFile _) => true | _ => false end)
                files ∧
     (length (calls w') ≤
        length (calls w) +
        count_if (fun f => match fs w !! f with Some (RegularFile _) => true | _ => false end)
                 files)%nat)
  ∧ (∀ f rest w0 res0,
       fs w0 !! f = None → refused E (OpStat f) = true →
       process_files E (f :: rest) force res0 w0 = (Raised "OSError", w0)).
Proof.
  intros Hnd Hdir Hstat. split; [by apply process_files_total|].
  intros f rest w0 res0 Hf Hr. simpl. unfold is_file, bind. by rewrite Hf, Hr.
Qed.

(** X5, at [batch_world], over a snapshot of the cached [a.pdf] and of an
    entry that is gone. *)
Lemma process_files_accounts_for_every_file_witness :
  ∃ res' w',
    process_files batch_env [("documents/pending", "a.pdf"); ("documents/pending", "gone.pdf")]
      false (mkResults 0 0 0) batch_world = (Ok res', w') ∧
    processed res' + skipped res' + failed res' = 1 ∧
    (length (calls w') ≤ 1)%nat.
Proof.
  apply (proj1 (process_files_accounts_for_every_file batch_env false
                  [("documents/pending", "a.pdf"); ("documents/pending", "gone.pdf")]
                  batch_world (mkResults 0 0 0)
                  ltac:(apply NoDup_ListNoDup; repeat constructor; simpl; intuition discriminate)
                  ltac:(intros f Hf; apply list_elem_of_In in Hf; simpl in Hf;
                        destruct Hf as [<-|[<-|[]]]; reflexivity)
                  ltac:(intros f _ _; reflexivity))).
Defined.

(** X6. A forced reprocessing that fails is counted as skipped. When a
    regular file whose path is in the cache is reprocessed with
    [force_reprocess] and the pipeline raises, the loop of
    [process_pending_documents] makes the pipeline call and adds the file
    to [skipped], not to [failed]. *)
Theorem failed_reprocess_counts_as_skipped (E : Env) (f : path) (d : string)
    (rest : list path) (res : results) (w : World) :
  fs w !! f = Some (RegularFile d) →
  path_str f ∈ cache w →
  is_ok (pipeline E (path_str f) (kb_storage w)).1 = false →
  ∃ w1, calls w1 = (calls w ++ [path_str f])%list ∧
        process_files E (f :: rest) true res w =
          process_files E rest true
            (mkResults (processed res) (S (skipped res)) (failed res)) w1.
Proof.
  intros Hf Hc Hp.
  destruct (process_document_pipeline_raises E f true w) as (l1 & l2 & Hrun);
    [by eexists|by left|done|].
  eexists. split; [|rewrite (process_files_step _ _ _ _ _ _ _ _ _ Hf Hrun); simpl;
                     by rewrite bool_decide_eq_true_2].
  done.
Qed.

(** X6, at [cached_pending_world]: the batch reports one skipped file
    after one failed pipeline call. *)
Lemma failed_reprocess_counts_as_skipped_witness :
  ∃ w1, calls w1 = (calls cached_pending_world ++ ["documents/pending/a.pdf"])%list ∧
        process_files failing_env [("documents/pending", "a.pdf")] true
          (mkResults 0 0 0) cached_pending_world =
          process_files failing_env [] true (mkResults 0 1 0) w1.
Proof.
  apply (failed_reprocess_counts_as_skipped failing_env ("documents/pending", "a.pdf")
           "A" [] (mkResults 0 0 0) cached_pending_world).
  - vm_compute. reflexivity.
  - apply (bool_decide_unpack _). vm_compute. exact I.
  - reflexivity.
Defined.

(** ** The cache file *)



(** X7. A cache file that cannot be used empties the cache. When the
    cache file exists but [json.load] rejects it or reading it is refused,
    [_load_processed_files_cache] does not raise: it logs one warning,
    leaves the cache file and the documents as they are, and leaves the
    in-memory cache empty, whatever it held before. *)
Theorem load_cache_failure_gives_empty_cache (E : Env) (w : World) (blob : cache_blob) :
  cache_file w = Some blob →
  blob = Corrupt ∨ refused E OpReadCacheFile = true →
  ∃ line w', _load_processed_files_cache E w = (Ok tt, w') ∧
             cache w' = ∅ ∧
             out w' = (out w ++ [line])%list ∧
             cache_file w' = cache_file w ∧
             fs w' = fs w.
Proof.
  intros Hfile Hbad. unfold _load_processed_files_cache, read_cache_file. unfold_monad.
  simpl. rewrite Hfile. simpl. rewrite Hfile.
  destruct (refused E OpReadCacheFile) eqn:Hr; simpl.
  - eexists _, _. split; [done|]. simpl. by rewrite Hfile.
  - destruct Hbad as [->|?]; [|done]. eexists _, _. split; [done|]. simpl.
    by rewrite Hfile.
Qed.

(** X7, at [corrupt_cache_world], whose in-memory cache holds one stale
    entry. *)
Lemma load_cache_failure_gives_empty_cache_witness :
  ∃ line w', _load_processed_files_cache batch_env corrupt_cache_world = (Ok tt, w') ∧
             cache w' = ∅ ∧
             out w' = (out corrupt_cache_world ++ [line])%list ∧
             cache_file w' = cache_file corrupt_cache_world ∧
             fs w' = fs corrupt_cache_world.
Proof.
  apply (load_cache_failure_gives_empty_cache batch_env corrupt_cache_world Corrupt).
  - reflexivity.
  - left. reflexivity.
Defined.



(** ** [get_status] *)

(** A rename out of a directory takes one entry off its listing. *)
Lemma iterdir_after_move (m : gmap (string * string) node) (d d' n : string) (nd : node) :
  m !! (d, n) = Some nd →
  d ≠ d' →
  filter (fun p : path => p.1 = d) (map_to_list m).*1
    ≡ₚ (d, n) :: filter (fun p : path => p.1 = d)
                   (map_to_list (<[(d', n) := nd]> (delete (d, n) m))).*1.
Proof.
  intros Hm Hne. apply NoDup_Permutation.
  - apply NoDup_filter, NoDup_fst_map_to_list.
  - apply NoDup_cons. split; [|apply NoDup_filter, NoDup_fst_map_to_list].
    rewrite elem_of_iterdir. intros [_ [x Hx]].
    rewrite lookup_insert_ne, lookup_delete_eq in Hx by congruence. done.
  - intros p. rewrite elem_of_cons, !elem_of_iterdir. split.
    + intros [Hd Hp]. destruct (decide (p = (d, n))) as [->|Hpn]; [by left|right].
      split; [done|]. rewrite lookup_insert_ne, lookup_delete_ne; [done|congruence|].
      intros <-. simpl in Hd. congruence.
    + intros [->|[Hd Hp]]; [by eauto|]. split; [done|].
      destruct (decide (p = (d, n))) as [->|Hpn]; [by eauto|].
      rewrite lookup_insert_ne, lookup_delete_ne in Hp; [done|congruence|].
      intros <-. simpl in Hd. congruence.
Qed.

(** X9. [get_status] follows a successful processing. After
    [process_document] has processed an uncached pending file (the
    pipeline returns and the move is not refused), [get_status] reports
    one processed file more and one pending file fewer than before; the
    processed count is the size of the in-memory cache. *)
Theorem get_status_after_processing (E : Env) (STORAGE_DIR name : string) (nd : node)
    (w : World) :
  fs w !! (PENDING_DIR E, name) = Some nd →
  path_str (PENDING_DIR E, name) ∉ cache w →
  is_ok (pipeline E (path_str (PENDING_DIR E, name)) (kb_storage w)).1 = true →
  refused E (OpRename (PENDING_DIR E, name) (PROCESSED_DIR E, name)) = false →
  ∃ st w1 st1,
    get_status E STORAGE_DIR w = (Ok st, w) ∧
    process_document E (PENDING_DIR E, name) false w = (Ok true, w1) ∧
    get_status E STORAGE_DIR w1 = (Ok st1, w1) ∧
    processed_files_count st = size (cache w) ∧
    processed_files_count st1 = S (processed_files_count st) ∧
    S (pending_files_count st1) = pending_files_count st.
Proof.
  intros Hex Hnc Hp Hr.
  destruct (process_document_pending E name nd w Hex Hnc Hp Hr) as (w1 & Hrun & Hfs & Hca).
  eexists _, w1, _. split; [done|]. split; [done|]. split; [done|].
  unfold iterdir. simpl. split; [done|]. split.
  - rewrite Hca, size_union by (by apply disjoint_singleton_l). by rewrite size_singleton.
  - rewrite Hfs.
    rewrite (Permutation_length
               (iterdir_after_move (fs w) (PENDING_DIR E) (PROCESSED_DIR E) name nd Hex
                  (pending_ne_processed E))).
    done.
Qed.

(** X9, at [batch_world]: [b.pdf] is processed. *)
Lemma get_status_after_processing_witness :
  ∃ st w1 st1,
    get_status batch_env "storage" batch_world = (Ok st, batch_world) ∧
    process_document batch_env ("documents/pending", "b.pdf") false batch_world
      = (Ok true, w1) ∧
    get_status batch_env "storage" w1 = (Ok st1, w1) ∧
    processed_files_count st = size (cache batch_world) ∧
    processed_files_count st1 = S (processed_files_count st) ∧
    S (pending_files_count st1) = pending_files_count st.
Proof.
  apply (get_status_after_processing batch_env "storage" "b.pdf" (RegularFile "B")
           batch_world).
  - vm_compute. reflexivity.
  - apply (bool_decide_unpack _). vm_compute. exact I.
  - reflexivity.
  - reflexivity.
Defined.

(** ** More on the registry listing *)

(** X10. Every listed document has a source. An entry of
    [_get_detailed_documents_info] has a listable name and at least one of
    its three flags set, so [list_processed_documents] shows at least one
    status icon for it and never the question mark; and it carries a file
    size and a process date exactly when it is a regular, non-hidden file
    of the processed directory. *)
Theorem listed_document_has_a_source (E : Env) (w : World) (name : string)
    (info : doc_details) :
  _get_detailed_documents_info E w !! name = Some info →
  listable name = true
  ∧ status_icons info ≠ []
  ∧ (is_Some (file_size info) ↔ name ∈ processed_entries E w)
  ∧ (is_Some (process_date info) ↔ name ∈ processed_entries E w)
  ∧ (in_processed_dir info = true ↔ name ∈ processed_entries E w).
Proof.
  rewrite detailed_info_lookup.
  destruct (listable name); simpl; [|done].
  destruct (bool_decide _) eqn:Hin; [|done].
  apply bool_decide_eq_true_1 in Hin. intros [= <-]. simpl.
  assert (Hdom : name ∈ dom (processed_docs E w) ↔ name ∈ processed_entries E w).
  { rewrite elem_of_dom, processed_docs_lookup.
    destruct (decide (name ∈ processed_entries E w)) as [H|H].
    - rewrite bool_decide_eq_true_2 by done. split; eauto.
    - rewrite bool_decide_eq_false_2 by done. split; [by intros [? ?]|done]. }
  split; [done|]. split.
  - unfold status_icons. simpl.
    apply elem_of_union in Hin as [Hin|Hin]; [apply elem_of_union in Hin as [Hin|Hin]|].
    + by rewrite (bool_decide_eq_true_2 _ Hin).
    + rewrite (bool_decide_eq_true_2 _ Hin). by destruct (bool_decide _).
    + rewrite (bool_decide_eq_true_2 _ Hin). by do 2 destruct (bool_decide _).
  - split; [|split].
    + rewrite fmap_is_Some. etrans; [symmetry; apply elem_of_dom|done].
    + rewrite fmap_is_Some. etrans; [symmetry; apply elem_of_dom|done].
    + etrans; [apply bool_decide_eq_true|done].
Qed.

(** X10, at [three_sources_world]: [b.pdf] sits in the processed
    directory. *)
Lemma listed_document_has_a_source_witness :
  listable "b.pdf" = true
  ∧ status_icons (mkDetails false true false (Some "1.0 KB") (Some "2024-01-01 10:00")) ≠ []
  ∧ (is_Some (Some "1.0 KB") ↔ "b.pdf" ∈ processed_entries batch_env three_sources_world)
  ∧ (is_Some (Some "2024-01-01 10:00")
     ↔ "b.pdf" ∈ processed_entries batch_env three_sources_world)
  ∧ (true = true ↔ "b.pdf" ∈ processed_entries batch_env three_sources_world).
Proof.
  apply (listed_document_has_a_source batch_env three_sources_world "b.pdf"
           (mkDetails false true false (Some "1.0 KB") (Some "2024-01-01 10:00"))).
  vm_compute. reflexivity.
Defined.

(** The rows after one whose [file_path] is no string are not read. *)
Lemma kb_names_stops (E : Env) (rows1 rows2 : list (string * doc_info)) (id : string) :
  ∀ acc, kb_names E (rows1 ++ (id, InfoBadPath) :: rows2) acc = kb_names E rows1 acc.
Proof.
  induction rows1 as [|[i [fp| |]] rows1 IH]; intros acc; simpl; auto.
Qed.

(** X11. One bad row hides the rest of the knowledge-base table. When a
    row of [kv_store_full_docs.json] has a [file_path] that is no string,
    the names of the rows after it are not collected: the knowledge-base
    names, the detailed listing and the name list are those of the table
    cut before that row. *)
Theorem kb_docs_stops_at_bad_row (E : Env) (w : World)
    (rows1 rows2 : list (string * doc_info)) (id : string) :
  kb_docs E (with_kb_storage
               (Some (mkStorage (Some (DocsTable (rows1 ++ (id, InfoBadPath) :: rows2))))) w)
  = kb_docs E (with_kb_storage (Some (mkStorage (Some (DocsTable rows1)))) w)
  ∧ _get_detailed_documents_info E
      (with_kb_storage
         (Some (mkStorage (Some (DocsTable (rows1 ++ (id, InfoBadPath) :: rows2))))) w)
    = _get_detailed_documents_info E
        (with_kb_storage (Some (mkStorage (Some (DocsTable rows1)))) w)
  ∧ _get_processed_documents_list E
      (with_kb_storage
         (Some (mkStorage (Some (DocsTable (rows1 ++ (id, InfoBadPath) :: rows2))))) w)
    = _get_processed_documents_list E
        (with_kb_storage (Some (mkStorage (Some (DocsTable rows1)))) w).
Proof.
  set (cut := with_kb_storage (Some (mkStorage (Some (DocsTable rows1)))) w).
  set (whole := with_kb_storage _ w).
  assert (Hkb : kb_docs E whole = kb_docs E cut).
  { unfold kb_docs, whole, cut. simpl. apply kb_names_stops. }
  split; [done|]. split.
  - unfold _get_detailed_documents_info. rewrite Hkb. reflexivity.
  - unfold _get_processed_documents_list. rewrite Hkb. reflexivity.
Qed.

(** At [bad_row_world] the name of the first row is collected and the
    name of the third, which follows the bad row, is not. *)
Example kb_docs_bad_row_example :
  "a.pdf" ∈ kb_docs batch_env bad_row_world ∧ "c.pdf" ∉ kb_docs batch_env bad_row_world.
Proof. split; apply (bool_decide_unpack _); vm_compute; exact I. Qed.

(** ** The name list *)

Lemma clean_docs_listable (doc name : string) :
  (if Py.truthy doc then
     if Py.truthy (clean_name doc) && negb (Py.startswith (clean_name doc) ".")
        && (1 <? String.length (clean_name doc))%nat
     then Some (clean_name doc) else None
   else None) = Some name →
  listable name = true.
Proof.
  destruct (Py.truthy doc); [|done].
  destruct (_ && _) eqn:H; [|done]. intros [= <-].
  apply andb_true_iff in H as [H H3]. apply andb_true_iff in H as [H1 H2].
  unfold listable. by rewrite H1, H2, H3.
Qed.

(** X12. The name list is sorted, free of repeats and clean. Whatever
    the cache, the processed directory and the knowledge base hold,
    [_get_processed_documents_list] returns a list in ascending order
    without duplicates, each of whose names is listable (not empty, longer
    than one character, not starting with a dot) and contains neither a
    slash nor a backslash. *)
Theorem processed_documents_list_sorted_and_clean (E : Env) (w : World) :
  Sorted String.le (_get_processed_documents_list E w)
  ∧ NoDup (_get_processed_documents_list E w)
  ∧ Forall (fun name => listable name = true ∧ has_char is_separator name = false)
           (_get_processed_documents_list E w).
Proof.
  split; [apply Sorted_merge_sort; apply _|]. split.
  - unfold _get_processed_documents_list. rewrite merge_sort_Permutation.
    apply NoDup_elements.
  - apply Forall_forall. intros name Hin. split.
    + revert Hin. unfold _get_processed_documents_list. rewrite merge_sort_Permutation.
      rewrite elem_of_elements, elem_of_list_to_set, list_elem_of_omap.
      intros (doc & _ & Hdoc). by apply (clean_docs_listable doc).
    + by apply (processed_documents_list_no_separator E w).
Qed.

(** ** Removal that removes nothing *)

Lemma for_each_print_map {A} (f : A → string) (l : list A) :
  ∀ w, for_each l (fun x => print (f x)) w = (Ok tt, with_out (out w ++ (f <$> l)) w).
Proof.
  induction l as [|x l IH]; intros w; simpl.
  - unfold ret. f_equal. destruct w; unfold with_out; simpl. by rewrite app_nil_r.
  - unfold bind. unfold print at 1. unfold modify. rewrite IH. f_equal.
    unfold with_out; simpl. by rewrite <- app_assoc.
Qed.

Lemma for_each_print (lines : list string) :
  ∀ w, for_each lines print w = (Ok tt, with_out (out w ++ lines) w).
Proof.
  intros w. rewrite <- (list_fmap_id lines) at 2. apply (for_each_print_map id).
Qed.

(** X13. Removing a document that matches nothing changes nothing. When
    no name of the registry contains the identifier (case-insensitively),
    [remove_document] returns [False]; it prints that the document was not
    found and the available names, reads nothing from the console, and
    leaves the files, the cache, the cache file and the knowledge base as
    they were. *)
Theorem remove_document_without_match (E : Env) (doc_identifier : string) (w : World) :
  matching_docs doc_identifier (_get_processed_documents_list E w) = [] →
  remove_document E doc_identifier w =
    (Ok false,
     with_out (out w
               ++ ["Removing document: " +:+ doc_identifier;
                   "Document '" +:+ doc_identifier +:+ "' not found";
                   "Available documents:"]
               ++ ((fun doc => "  - " +:+ doc) <$> _get_processed_documents_list E w)) w).
Proof.
  intros Hm. rewrite remove_document_unfold, Hm. unfold select_docs.
  unfold bind at 1. unfold print at 1. unfold modify. cbv beta iota.
  unfold bind at 1. unfold print at 1. unfold modify. cbv beta iota.
  unfold bind at 1. rewrite for_each_print_map. cbv beta iota. unfold ret.
  f_equal. unfold with_out. simpl. by rewrite <- !app_assoc.
Qed.

(** X13, at [processed_world], which has no document named like
    [report]. *)
Lemma remove_document_without_match_witness :
  remove_document batch_env "report" processed_world =
    (Ok false,
     with_out (out processed_world
               ++ ["Removing document: report";
                   "Document 'report' not found";
                   "Available documents:"]
               ++ ((fun doc => "  - " +:+ doc)
                   <$> _get_processed_documents_list batch_env processed_world))
       processed_world).
Proof.
  apply (remove_document_without_match batch_env "report" processed_world).
  vm_compute. reflexivity.
Defined.

(** The prompt of [select_docs], up to the line read. *)
Lemma select_docs_prompt (doc_identifier : string) (available_docs : list string)
    (m1 m2 : string) (rest : list string) (w : World) :
  ∃ lines,
    select_docs doc_identifier available_docs (m1 :: m2 :: rest) w =
      match stdin w with
      | [] => (Raised "EOFError", with_out (out w ++ lines) w)
      | line :: more =>
          (if String.eqb (Py.lower (Py.strip line)) "all"
           then ret (Some (m1 :: m2 :: rest))
           else match Py.int (Py.strip line) with
                | None => print "Invalid selection" ;; ret None
                | Some n =>
                    match Py.index (m1 :: m2 :: rest) (n - 1) with
                    | None => print "Invalid selection" ;; ret None
                    | Some m => ret (Some [m])
                    end
                end)
            (with_stdin more (with_out (out w ++ lines) w))
      end.
Proof.
  eexists. unfold select_docs.
  unfold bind at 1. unfold print at 1. unfold modify. cbv beta iota.
  unfold bind at 1. rewrite for_each_print. cbv beta iota.
  unfold bind at 1. unfold input. simpl.
  destruct (stdin w) as [|line more].
  - f_equal. unfold with_out. simpl. rewrite <- !app_assoc. reflexivity.
  - unfold with_out, with_stdin. simpl. rewrite <- !app_assoc. reflexivity.
Qed.

(** X14. An ambiguous removal needs a valid answer. When two or more
    names match the identifier and the console is at its end, or the line
    read is neither [all] nor a number that indexes a match,
    [remove_document] returns [False] and leaves the files, the cache, the
    cache file, the knowledge base and the filesystem log as they were. *)
Theorem remove_document_ambiguous_unanswered (E : Env) (doc_identifier : string)
    (w : World) (m1 m2 : string) (rest : list string) :
  matching_docs doc_identifier (_get_processed_documents_list E w) = m1 :: m2 :: rest →
  (stdin w = [] ∨
   ∃ line more, stdin w = line :: more ∧
     String.eqb (Py.lower (Py.strip line)) "all" = false ∧
     Py.int (Py.strip line) ≫= (fun n => Py.index (m1 :: m2 :: rest) (n - 1)) = None) →
  ∃ w', remove_document E doc_identifier w = (Ok false, w') ∧
        fs w' = fs w ∧ cache w' = cache w ∧ cache_file w' = cache_file w ∧
        kb_storage w' = kb_storage w ∧ ops w' = ops w.
Proof.
  intros Hm Hin. rewrite remove_document_unfold, Hm.
  destruct (select_docs_prompt doc_identifier (_get_processed_documents_list E w)
              m1 m2 rest
              (with_out (out w ++ ["Removing document: " +:+ doc_identifier]) w))
    as [lines ->].
  simpl. destruct Hin as [->|(line & more & -> & Hall & Hidx)].
  - eexists. split; [done|]. done.
  - rewrite Hall. destruct (Py.int (Py.strip line)) as [n|]; simpl in Hidx.
    + rewrite Hidx. unfold_monad. eexists. split; [done|]. done.
    + unfold_monad. eexists. split; [done|]. done.
Qed.

(** X14, at [two_reports_world]: two names match [report] and the console
    gives no line. *)
Lemma remove_document_ambiguous_unanswered_witness :
  ∃ w', remove_document batch_env "report" two_reports_world = (Ok false, w') ∧
        fs w' = fs two_reports_world ∧ cache w' = cache two_reports_world ∧
        cache_file w' = cache_file two_reports_world ∧
        kb_storage w' = kb_storage two_reports_world ∧ ops w' = ops two_reports_world.
Proof.
  apply (remove_document_ambiguous_unanswered batch_env "report" two_reports_world
           "report-a.pdf" "report-b.pdf" []).
  - vm_compute. reflexivity.
  - left. reflexivity.
Defined.



(** ** What a removal does and does not reach *)

(** [_remove_document_from_storage], in full. *)
Lemma remove_document_from_storage_result (E : Env) (doc_name : string) (w : World) :
  ∃ w', _remove_document_from_storage E doc_name w =
          (Ok (negb (bool_decide (is_Some (fs w !! (PROCESSED_DIR E, doc_name)))
                     && refused E (OpRename (PROCESSED_DIR E, doc_name)
                                            (PENDING_DIR E, doc_name)))), w') ∧
        cache w' = filter (fun cached_file =>
                             ¬ (Py.contains doc_name cached_file
                                || Py.endswith cached_file doc_name)) (cache w) ∧
        (∀ q, q ≠ (PROCESSED_DIR E, doc_name) → q ≠ (PENDING_DIR E, doc_name) →
              fs w' !! q = fs w !! q) ∧
        kb_storage w' = kb_storage w ∧
        calls w' = calls w ∧
        stdin w' = stdin w.
Proof.
  unfold _remove_document_from_storage, path_exists, path_rename. unfold_monad. simpl.
  match goal with |- context [_save_processed_files_cache E ?w0] =>
    destruct (save_cache_frame E w0) as (w' & -> & Hc & Hf & Hcalls & Hk & Hi)
  end.
  simpl in *. rewrite ?Hf.
  destruct (fs w !! (PROCESSED_DIR E, doc_name)) as [nd|] eqn:Hp; simpl.
  - rewrite ?Hf, ?Hp. destruct (refused E _); simpl.
    + eexists. split; [done|]. simpl. rewrite ?Hc, ?Hf, ?Hk, ?Hcalls, ?Hi. done.
    + eexists. split; [done|]. simpl. rewrite ?Hc, ?Hf, ?Hk, ?Hcalls, ?Hi.
      repeat split; try done.
      intros q H1 H2. by rewrite lookup_insert_ne, lookup_delete_ne.
  - eexists. split; [done|]. simpl. rewrite ?Hc, ?Hf, ?Hk, ?Hcalls, ?Hi. done.
Qed.

(** X16. On a name as the callers pass it (a listable name without a
    separator, which [_get_processed_documents_list] yields) whose entry in
    the processed directory [stat()] examines or reports as absent,
    [_remove_document_from_storage] fails only on the move. It returns
    [False] exactly when the document is an entry of the processed
    directory whose rename into the pending directory is refused. Whatever
    it returns, the cache has lost every identifier that contains the name
    or ends with it; no other file is touched, no pipeline call is made,
    and the knowledge-base storage is as before. *)
Theorem remove_document_from_storage_effect (E : Env) (doc_name : string) (w : World) :
  listable doc_name = true →
  has_char is_separator doc_name = false →
  is_Some (fs w !! (PROCESSED_DIR E, doc_name))
    ∨ refused E (OpStat (PROCESSED_DIR E, doc_name)) = false →
  ∃ w', _remove_document_from_storage E doc_name w =
          (Ok (negb (bool_decide (is_Some (fs w !! (PROCESSED_DIR E, doc_name)))
                     && refused E (OpRename (PROCESSED_DIR E, doc_name)
                                            (PENDING_DIR E, doc_name)))), w') ∧
        cache w' = filter (fun cached_file =>
                             ¬ (Py.contains doc_name cached_file
                                || Py.endswith cached_file doc_name)) (cache w) ∧
        (∀ q, q ≠ (PROCESSED_DIR E, doc_name) → q ≠ (PENDING_DIR E, doc_name) →
              fs w' !! q = fs w !! q) ∧
        kb_storage w' = kb_storage w ∧
        calls w' = calls w ∧
        stdin w' = stdin w.
Proof. intros _ _ _. apply remove_document_from_storage_result. Qed.

(** X16, at [processed_world], on the processed document [b.pdf]. *)
Lemma remove_document_from_storage_effect_witness :
  ∃ w', _remove_document_from_storage batch_env "b.pdf" processed_world = (Ok true, w') ∧
        cache w' = filter (fun cached_file =>
                             ¬ (Py.contains "b.pdf" cached_file
                                || Py.endswith cached_file "b.pdf")) (cache processed_world) ∧
        (∀ q, q ≠ ("documents/processed", "b.pdf") → q ≠ ("documents/pending", "b.pdf") →
              fs w' !! q = fs processed_world !! q) ∧
        kb_storage w' = kb_storage processed_world ∧
        calls w' = calls processed_world ∧
        stdin w' = stdin processed_world.
Proof.
  apply (remove_document_from_storage_effect batch_env "b.pdf" processed_world).
  - reflexivity.
  - reflexivity.
  - left. vm_compute. eauto.
Defined.

(** [os.path.basename] returns a suffix of its argument. *)
Lemma endswith_rev_app (acc t x : string) :
  Py.endswith t x = true → Py.endswith (String.rev_app acc t) x = true.
Proof.
  revert t. induction acc as [|a acc IH]; intros t H; simpl; [done|].
  apply IH. simpl. rewrite H. apply orb_true_r.
Qed.

Lemma after_last_go_endswith (sep : ascii → bool) (s : string) :
  ∀ acc, Py.endswith (String.rev_app acc s) (Py.after_last_go sep s acc) = true.
Proof.
  induction s as [|c s IH]; intros acc; simpl.
  - apply endswith_refl.
  - destruct (sep c).
    + apply endswith_rev_app. pose proof (IH EmptyString) as H.
      change (String.rev_app EmptyString s) with s in H.
      cbn [Py.endswith]. rewrite H. apply orb_true_r.
    + apply (IH (String c acc)).
Qed.

Lemma basename_endswith (o : os_flavour) (p : string) :
  Py.endswith p (basename o p) = true.
Proof.
  destruct o; simpl.
  - apply (after_last_go_endswith _ p EmptyString).
  - destruct p as [|a [|b r]]; try apply (after_last_go_endswith _ _ EmptyString).
    destruct (Ascii.eqb b ":") eqn:Hb.
    + apply Ascii.eqb_eq in Hb as ->.
      pose proof (after_last_go_endswith
                    (fun c => Ascii.eqb c Py.slash || Ascii.eqb c Py.backslash)
                    r EmptyString) as H.
      change (String.rev_app EmptyString r) with r in H.
      cbn [Py.endswith]. unfold Py.after_last. rewrite H.
      by rewrite !orb_true_r.
    + assert (b ≠ ":"%char) as Hne by (by apply Ascii.eqb_neq).
      replace (match b with ":"%char => r | _ => String a (String b r) end)
        with (String a (String b r)).
      * apply (after_last_go_endswith _ _ EmptyString).
      * destruct b as [[] [] [] [] [] [] [] []]; try reflexivity. done.
Qed.

(** X17. Removing a document does not take it out of the knowledge base.
    A listable name that the knowledge-base table yields is still an
    entry of [_get_detailed_documents_info] after
    [_remove_document_from_storage] has run on it, with its
    knowledge-base flag set and its cache flag cleared. *)
Theorem removed_document_stays_in_knowledge_base (E : Env) (doc_name : string) (w : World) :
  doc_name ∈ kb_docs E w →
  listable doc_name = true →
  ∃ info,
    _get_detailed_documents_info E (_remove_document_from_storage E doc_name w).2
      !! doc_name = Some info ∧
    in_knowledge_base info = true ∧
    in_cache info = false.
Proof.
  intros Hkb Hl.
  destruct (remove_document_from_storage_result E doc_name w)
    as (w' & Hrun & Hc & _ & Hk & _).
  rewrite Hrun. simpl.
  assert (Hkb' : doc_name ∈ kb_docs E w') by (unfold kb_docs in *; by rewrite Hk).
  rewrite detailed_info_lookup, Hl. simpl.
  rewrite bool_decide_eq_true_2 by (by apply elem_of_union_r).
  eexists. split; [done|]. simpl. split; [by apply bool_decide_eq_true_2|].
  apply bool_decide_eq_false_2. unfold cache_docs.
  rewrite elem_of_list_to_set, list_elem_of_fmap.
  intros (c & Hb & Hin). apply list_elem_of_filter in Hin as [_ Hin].
  apply elem_of_elements in Hin. rewrite Hc in Hin.
  apply elem_of_filter in Hin as [Hnot _]. apply Hnot.
  apply Is_true_true. apply orb_true_iff. right.
  rewrite Hb. apply basename_endswith.
Qed.

(** X17, at [three_sources_world], where the knowledge-base table yields
    [c.pdf]. *)
Lemma removed_document_stays_in_knowledge_base_witness :
  ∃ info,
    _get_detailed_documents_info batch_env
      (_remove_document_from_storage batch_env "c.pdf" three_sources_world).2
      !! "c.pdf" = Some info ∧
    in_knowledge_base info = true ∧
    in_cache info = false.
Proof.
  apply (removed_document_stays_in_knowledge_base batch_env "c.pdf" three_sources_world).
  - apply (bool_decide_unpack _). vm_compute. exact I.
  - reflexivity.
Defined.

(** ** [remove_all_documents] *)

(** X18. Nothing is removed without a [yes]. When the registry lists at
    least one document and the console is at its end, or the line read is
    not [yes] (after stripping blanks and lowering case),
    [remove_all_documents] returns [False] and leaves the files, the
    cache, the cache file, the knowledge base and the filesystem log as
    they were. *)
Theorem remove_all_documents_needs_yes (E : Env) (w : World) :
  _get_processed_documents_list E w ≠ [] →
  (stdin w = [] ∨
   ∃ line more, stdin w = line :: more ∧
     String.eqb (Py.lower (Py.strip line)) "yes" = false) →
  ∃ w', remove_all_documents E w = (Ok false, w') ∧
        fs w' = fs w ∧ cache w' = cache w ∧ cache_file w' = cache_file w ∧
        kb_storage w' = kb_storage w ∧ ops w' = ops w.
Proof.
  intros Hne Hin. unfold remove_all_documents, try_except.
  unfold bind at 1. unfold get. cbv beta iota.
  destruct (_get_processed_documents_list E w) as [|d ds]; [done|].
  unfold bind at 1. unfold print at 1. unfold modify. cbv beta iota.
  unfold bind at 1. rewrite for_each_print_map. cbv beta iota.
  unfold bind at 1.
  match goal with |- context [if ?c then print ?l else ret tt] =>
    assert (∃ lines, ∀ w0, (if c then print l else ret tt) w0
                           = (Ok tt, with_out (out w0 ++ lines) w0)) as [lines Hif]
  end.
  { destruct (_ <? _)%nat.
    - eexists [_]. done.
    - exists []. intros w0. unfold ret. f_equal. destruct w0; unfold with_out; simpl.
      by rewrite app_nil_r. }
  rewrite Hif. cbv beta iota.
  unfold bind at 1. unfold input. simpl.
  destruct Hin as [->|(line & more & -> & Hno)].
  - unfold_monad. eexists. split; [done|]. done.
  - rewrite Hno. unfold_monad. simpl. eexists. split; [done|]. done.
Qed.

(** X18, at [processed_world], whose console gives no line. *)
Lemma remove_all_documents_needs_yes_witness :
  ∃ w', remove_all_documents batch_env processed_world = (Ok false, w') ∧
        fs w' = fs processed_world ∧ cache w' = cache processed_world ∧
        cache_file w' = cache_file processed_world ∧
        kb_storage w' = kb_storage processed_world ∧ ops w' = ops processed_world.
Proof.
  apply (remove_all_documents_needs_yes batch_env processed_world).
  - vm_compute. discriminate.
  - left. reflexivity.
Defined.

(** ** What the full reset leaves in memory *)

Section Keeps.
Context {X : Type} (f : World → X).
Hypothesis f_out : ∀ o w, f (with_out o w) = f w.
Hypothesis f_ops : ∀ o w, f (with_ops o w) = f w.
Hypothesis f_fs : ∀ m w, f (with_fs m w) = f w.

Lemma keeps_ret {A} (a : A) : keeps f (ret a).
Proof. by intros w. Qed.

Lemma keeps_get : keeps f get.
Proof. by intros w. Qed.

Lemma keeps_print (line : string) : keeps f (print line).
Proof. intros w. apply f_out. Qed.

Lemma keeps_bind {A B} (m : M A) (k : A → M B) :
  keeps f m → (∀ a, keeps f (k a)) → keeps f (bind m k).
Proof.
  intros Hm Hk w. unfold bind. specialize (Hm w).
  destruct (m w) as [[a|e] w1]; simpl in *; [|done].
  by rewrite (Hk a w1).
Qed.

Lemma keeps_try_except {A} (body : M A) (handler : string → M A) :
  keeps f body → (∀ e, keeps f (handler e)) → keeps f (try_except body handler).
Proof.
  intros Hm Hk w. unfold try_except. specialize (Hm w).
  destruct (body w) as [[a|e] w1]; simpl in *; [done|].
  by rewrite (Hk e w1).
Qed.

Lemma keeps_for_each {A} (xs : list A) (body : A → M unit) :
  (∀ x, keeps f (body x)) → keeps f (for_each xs body).
Proof.
  intros Hb. induction xs as [|x xs IH]; simpl.
  - apply keeps_ret.
  - apply keeps_bind; [apply Hb|by intros _].
Qed.

Lemma keeps_is_file (E : Env) (p : path) : keeps f (is_file E p).
Proof.
  intros w. unfold is_file. destruct (fs w !! p) as [[d|]|]; try done.
  by destruct (refused E _).
Qed.

Lemma keeps_iterdir (d : string) : keeps f (iterdir d).
Proof. by intros w. Qed.

Lemma keeps_read_bytes (E : Env) (p : path) : keeps f (read_bytes E p).
Proof.
  intros w. unfold read_bytes. destruct (fs w !! p) as [[d|]|]; try done.
  destruct (refused E _); simpl; [done|apply f_ops].
Qed.

Lemma keeps_write_bytes (E : Env) (p : path) (data : string) :
  keeps f (write_bytes E p data).
Proof.
  intros w. unfold write_bytes.
  destruct (fs w !! p) as [[d|]|]; try done;
    (destruct (refused E _); simpl; [done|by rewrite f_ops, f_fs]).
Qed.

Lemma keeps_unlink (E : Env) (p : path) : keeps f (unlink E p).
Proof.
  intros w. unfold unlink. destruct (fs w !! p) as [[d|]|]; try done.
  destruct (refused E _); simpl; [done|by rewrite f_ops, f_fs].
Qed.

Lemma keeps_restore_file (E : Env) (file : path) : keeps f (restore_file E file).
Proof.
  unfold restore_file. apply keeps_bind; [apply keeps_is_file|].
  intros []; [|apply keeps_ret].
  apply keeps_bind; [apply keeps_read_bytes|]. intros data.
  apply keeps_bind; [apply keeps_write_bytes|]. intros _. apply keeps_unlink.
Qed.

End Keeps.

(** X19. The full reset does not clear the cache in memory.
    [_clear_storage_directories] may delete the cache file, but it leaves
    the in-memory cache of the manager exactly as it was (and makes no
    pipeline call and reads nothing from the console), whatever the
    filesystem refuses. *)
Theorem clear_storage_keeps_memory_cache (E : Env) (w : World) :
  cache (_clear_storage_directories E w).2 = cache w
  ∧ calls (_clear_storage_directories E w).2 = calls w
  ∧ stdin (_clear_storage_directories E w).2 = stdin w.
Proof.
  assert (H : keeps (fun w => (cache w, calls w, stdin w)) (_clear_storage_directories E)).
  { unfold _clear_storage_directories.
    apply keeps_try_except; [|intros e; by apply keeps_print].
    apply keeps_bind; [apply keeps_get|]. intros w0.
    apply keeps_bind.
    { destruct (bool_decide _); [|apply keeps_ret].
      apply keeps_bind.
      { intros w1. unfold rmtree_storage. by destruct (refused E _). }
      intros _. apply keeps_bind.
      { intros w1. unfold mkdir_storage. by destruct (refused E _). }
      intros _. by apply keeps_print. }
    intros _. apply keeps_bind; [apply keeps_get|]. intros w1.
    apply keeps_bind.
    { destruct (bool_decide _); [|apply keeps_ret].
      intros w2. unfold unlink_cache_file. destruct (cache_file w2); [|done].
      by destruct (refused E _). }
    intros _. apply keeps_bind; [by apply keeps_print|]. intros _.
    apply keeps_bind; [apply keeps_iterdir|]. intros files.
    apply keeps_bind; [|intros _; by apply keeps_print].
    apply keeps_for_each. intros file. by apply keeps_restore_file. }
  specialize (H w). simpl in H. by injection H as -> -> ->.
Qed.

(** ** The full reset when nothing is refused *)

(** The loop that moves the processed files back. *)
Lemma restore_loop (E : Env) (files : list path) :
  (∀ op, refused E op = false) →
  ∀ w0,
  NoDup files →
  (∀ p, p ∈ files → p.1 = PROCESSED_DIR E) →
  (∀ name, fs w0 !! (PENDING_DIR E, name) ≠ Some Directory) →
  ∃ w1, for_each files (restore_file E) w0 = (Ok tt, w1) ∧
        cache_file w1 = cache_file w0 ∧
        kb_storage w1 = kb_storage w0 ∧
        (∀ q, q.1 = PROCESSED_DIR E → q ∉ files → fs w1 !! q = fs w0 !! q) ∧
        (∀ q, q.1 = PENDING_DIR E → (PROCESSED_DIR E, q.2) ∉ files →
              fs w1 !! q = fs w0 !! q) ∧
        (∀ name, fs w1 !! (PENDING_DIR E, name) ≠ Some Directory) ∧
        (∀ p d, p ∈ files → fs w0 !! p = Some (RegularFile d) →
                fs w1 !! p = None ∧ fs w1 !! (PENDING_DIR E, p.2) = Some (RegularFile d)).
Proof.
  intros Hperm. induction files as [|p files IH]; intros w0 Hnd Hdir Hpend.
  - simpl. unfold ret. eexists. split; [done|].
    split; [done|]. split; [done|]. split; [done|]. split; [done|]. split; [done|].
    intros p d Hin. by apply elem_of_nil in Hin.
  - apply NoDup_cons in Hnd as [Hnotin Hnd].
    assert (Hp : p = (PROCESSED_DIR E, p.2)).
    { destruct p as [pd pn]. simpl. f_equal. apply (Hdir (pd, pn)), list_elem_of_here. }
    assert (Hdir' : ∀ p', p' ∈ files → p'.1 = PROCESSED_DIR E)
      by (intros; by apply Hdir, list_elem_of_further).
    destruct (fs w0 !! p) as [[d|]|] eqn:Hfp.
    + (* a regular file: copied and deleted *)
      destruct (restore_file_copies E p.2 d w0) as (w' & Hrun & _ & Hfs);
        [by rewrite <- Hp|apply Hpend|apply Hperm|apply Hperm|apply Hperm|].
      rewrite <- Hp in Hrun, Hfs.
      assert (Hcf : cache_file w' = cache_file w0 ∧ kb_storage w' = kb_storage w0).
      { assert (H : keeps (fun w => (cache_file w, kb_storage w)) (restore_file E p))
          by (by apply keeps_restore_file).
        specialize (H w0). rewrite Hrun in H. simpl in H. by injection H as -> ->. }
      destruct Hcf as [Hcf Hkb].
      destruct (IH w' Hnd Hdir') as (w1 & Hloop & Hcf1 & Hkb1 & Hproc & Hpen & Hnodir & Hmoved).
      { intros name. rewrite Hfs.
        destruct (decide ((PENDING_DIR E, name) = p)) as [<-|Hne];
          [by rewrite lookup_delete_eq|].
        rewrite lookup_delete_ne by done.
        destruct (decide ((PENDING_DIR E, name) = (PENDING_DIR E, p.2))) as [->|Hne'].
        - by rewrite lookup_insert_eq.
        - rewrite lookup_insert_ne by done. apply Hpend. }
      exists w1. split.
      { simpl. unfold bind. by rewrite Hrun. }
      split; [congruence|]. split; [congruence|].
      assert (Hpp : (PENDING_DIR E, p.2) ≠ p).
      { rewrite Hp at 2. intros [= H]. by apply pending_ne_processed in H. }
      split; [|split; [|split; [done|]]].
      * intros q Hq Hnin. apply not_elem_of_cons in Hnin as [Hqp Hnin].
        rewrite (Hproc q Hq Hnin), Hfs, lookup_delete_ne, lookup_insert_ne; [done| |done].
        intros <-. simpl in Hq. by apply pending_ne_processed in Hq.
      * intros q Hq Hnin. apply not_elem_of_cons in Hnin as [Hqp Hnin].
        rewrite (Hpen q Hq Hnin), Hfs, lookup_delete_ne, lookup_insert_ne; [done| |].
        -- intros <-. simpl in Hqp. apply Hqp. by rewrite <- Hp.
        -- intros <-. rewrite (Hdir p) in Hq by apply list_elem_of_here.
           symmetry in Hq. by apply pending_ne_processed in Hq.
      * intros p' d' Hin Hreg. apply elem_of_cons in Hin as [->|Hin].
        -- rewrite Hfp in Hreg. injection Hreg as <-. split.
           ++ rewrite (Hproc p), Hfs, ?lookup_delete_eq; [done| |done].
              apply Hdir, list_elem_of_here.
           ++ rewrite (Hpen (PENDING_DIR E, p.2)); [|done|simpl; by rewrite <- Hp].
              rewrite Hfs, lookup_delete_ne, lookup_insert_eq; done.
        -- apply (Hmoved p' d' Hin). rewrite Hfs.
           rewrite lookup_delete_ne by (intros <-; done).
           rewrite lookup_insert_ne; [done|].
           intros <-. pose proof (Hdir' _ Hin) as H. simpl in H.
           by apply pending_ne_processed in H.
    + (* a directory: left alone *)
      destruct (IH w0 Hnd Hdir' Hpend)
        as (w1 & Hloop & Hcf1 & Hkb1 & Hproc & Hpen & Hnodir & Hmoved).
      exists w1. split.
      { simpl. unfold bind, restore_file, is_file, bind, ret. by rewrite Hfp, ?Hperm. }
      split; [done|]. split; [done|]. split; [|split; [|split; [done|]]].
      * intros q Hq Hnin. apply not_elem_of_cons in Hnin as [_ Hnin]. by apply Hproc.
      * intros q Hq Hnin. apply not_elem_of_cons in Hnin as [_ Hnin]. by apply Hpen.
      * intros p' d' Hin Hreg. apply elem_of_cons in Hin as [->|Hin]; [congruence|].
        by apply (Hmoved p' d').
    + destruct (IH w0 Hnd Hdir' Hpend)
        as (w1 & Hloop & Hcf1 & Hkb1 & Hproc & Hpen & Hnodir & Hmoved).
      exists w1. split.
      { simpl. unfold bind, restore_file, is_file, bind, ret. by rewrite Hfp, ?Hperm. }
      split; [done|]. split; [done|]. split; [|split; [|split; [done|]]].
      * intros q Hq Hnin. apply not_elem_of_cons in Hnin as [_ Hnin]. by apply Hproc.
      * intros q Hq Hnin. apply not_elem_of_cons in Hnin as [_ Hnin]. by apply Hpen.
      * intros p' d' Hin Hreg. apply elem_of_cons in Hin as [->|Hin]; [congruence|].
        by apply (Hmoved p' d').
Qed.

(** X20. A full reset that nothing refuses moves every processed file
    back. When the system refuses no operation and the pending directory
    holds no subdirectory, [_clear_storage_directories] ends with its last
    step: the cache file is gone, the knowledge-base storage (if there was
    one) is empty, and every regular file of the processed directory,
    hidden ones included, is in the pending directory with its content and
    no longer in the processed directory; a pending file of the same name
    is overwritten. *)
Theorem clear_storage_restores_every_file (E : Env) (w : World) :
  (∀ op, refused E op = false) →
  (∀ name, fs w !! (PENDING_DIR E, name) ≠ Some Directory) →
  ∃ w', _clear_storage_directories E w = (Ok tt, w') ∧
        cache_file w' = None ∧
        kb_storage w' = (kb_storage w ≫= fun _ => Some (mkStorage None)) ∧
        last (out w') = Some "Moved processed files back to pending" ∧
        (∀ name d, fs w !! (PROCESSED_DIR E, name) = Some (RegularFile d) →
                   fs w' !! (PROCESSED_DIR E, name) = None ∧
                   fs w' !! (PENDING_DIR E, name) = Some (RegularFile d)).
Proof.
  intros Hperm Hpend.
  unfold _clear_storage_directories, try_except.
  unfold bind at 1. unfold get at 1. cbv beta iota.
  unfold bind at 1.
  match goal with |- context [(if bool_decide (is_Some (kb_storage w)) then ?a else ?b) w] =>
    assert (∃ w1, (if bool_decide (is_Some (kb_storage w)) then a else b) w = (Ok tt, w1) ∧
                  fs w1 = fs w ∧ cache_file w1 = cache_file w ∧
                  kb_storage w1 = (kb_storage w ≫= fun _ => Some (mkStorage None)))
      as (w1 & -> & Hfs1 & Hcf1 & Hkb1)
  end.
  { destruct (kb_storage w) as [st|] eqn:Hst; simpl.
    - unfold bind, rmtree_storage, mkdir_storage, print, modify.
      rewrite ?Hperm. simpl. rewrite ?Hperm. simpl. eexists. split; [done|]. done.
    - unfold ret. eexists. split; [done|]. by rewrite Hst. }
  cbv beta iota. unfold bind at 1. unfold get at 1. cbv beta iota.
  unfold bind at 1.
  match goal with |- context [(if bool_decide (is_Some (cache_file w1)) then ?a else ?b) w1] =>
    assert (∃ w2, (if bool_decide (is_Some (cache_file w1)) then a else b) w1 = (Ok tt, w2) ∧
                  fs w2 = fs w ∧ cache_file w2 = None ∧ kb_storage w2 = kb_storage w1)
      as (w2 & -> & Hfs2 & Hcf2 & Hkb2)
  end.
  { destruct (cache_file w1) as [blob|] eqn:Hblob; simpl.
    - unfold unlink_cache_file. rewrite Hblob, Hperm. eexists. split; [done|]. done.
    - unfold ret. eexists. split; [done|]. done. }
  cbv beta iota. unfold bind at 1. unfold print at 1. unfold modify. cbv beta iota.
  unfold bind at 1. unfold iterdir at 1. cbv beta iota.
  unfold bind at 1.
  match goal with |- context [for_each ?files (restore_file E) ?w3] =>
    destruct (restore_loop E files Hperm w3)
      as (w4 & -> & Hcf4 & Hkb4 & _ & _ & _ & Hmoved)
  end.
  - apply NoDup_filter, NoDup_fst_map_to_list.
  - intros p Hin. by apply list_elem_of_filter in Hin as [? _].
  - intros name. simpl. rewrite Hfs2. apply Hpend.
  - cbv beta iota. unfold print, modify. eexists. split; [done|]. simpl in *.
    split; [congruence|]. split; [congruence|]. split; [apply last_snoc|].
    intros name d Hreg. apply (Hmoved (PROCESSED_DIR E, name) d).
    + apply elem_of_iterdir. split; [done|]. rewrite Hfs2. eauto.
    + by rewrite Hfs2.
Qed.

(** X20, at [reset_world]: [b.pdf] and the hidden [.keep] both return to
    the pending directory. *)
Lemma clear_storage_restores_every_file_witness :
  ∃ w', _clear_storage_directories batch_env reset_world = (Ok tt, w') ∧
        cache_file w' = None ∧
        kb_storage w' = (kb_storage reset_world ≫= fun _ => Some (mkStorage None)) ∧
        last (out w') = Some "Moved processed files back to pending" ∧
        (∀ name d, fs reset_world !! (PROCESSED_DIR batch_env, name) = Some (RegularFile d) →
                   fs w' !! (PROCESSED_DIR batch_env, name) = None ∧
                   fs w' !! (PENDING_DIR batch_env, name) = Some (RegularFile d)).
Proof.
  apply (clear_storage_restores_every_file batch_env reset_world).
  - intros op. reflexivity.
  - intros name. change (fs reset_world) with
      (<[("documents/processed", "b.pdf") := RegularFile "B"]>
         (<[("documents/processed", ".keep") := RegularFile "K"]>
            (∅ : gmap (string * string) node))).
    rewrite !lookup_insert_ne by (intros [= H _]; vm_compute in H; discriminate).
    rewrite lookup_empty. discriminate.
Defined.

(** ** The removal endpoint *)

Lemma remove_document_returns (E : Env) (doc_identifier : string) (w : World) :
  ∃ b w', remove_document E doc_identifier w = (Ok b, w').
Proof.
  rewrite remove_document_unfold.
  destruct (select_docs _ _ _ _) as [[[selected|]|e] w1]; eauto.
  destruct (remove_each_returns E selected w1) as [w2 ->]. eauto.
Qed.

(** X21. The status of [DELETE /documents/{document_name}] is the
    boolean of [remove_document]. Without an initialised interface the
    endpoint answers 503 and changes nothing. With one, it never answers
    500: it answers 200 when [remove_document] returned [True] and 404
    [not found] when it returned [False], in the state that
    [remove_document] left. *)
Theorem api_remove_document_status (E : Env) (document_name : string) (w : World) :
  api_remove_document E false document_name w
    = (Ok (HttpError 503 "Service not initialized"), w)
  ∧ ∃ b w',
      remove_document E document_name w = (Ok b, w') ∧
      api_remove_document E true document_name w =
        (Ok (if b
             then Http200 ("Document '" +:+ document_name +:+ "' removed successfully")
                          [document_name]
             else HttpError 404 ("Document '" +:+ document_name +:+ "' not found")),
         w').
Proof.
  split; [done|].
  destruct (remove_document_returns E document_name w) as (b & w' & Hrun).
  exists b, w'. split; [done|].
  unfold api_remove_document, try_except, bind. simpl. rewrite Hrun.
  by destruct b.
Qed.

(** X22. An ambiguous [DELETE] is answered [not found]. When two or
    more names of the registry match the name in the URL and the server's
    console gives no line, the endpoint answers 404 with the detail that
    the document was not found, and no file, cache entry or
    knowledge-base entry has changed. *)
Theorem api_remove_document_ambiguous (E : Env) (document_name : string) (w : World)
    (m1 m2 : string) (rest : list string) :
  matching_docs document_name (_get_processed_documents_list E w) = m1 :: m2 :: rest →
  stdin w = [] →
  ∃ w', api_remove_document E true document_name w =
          (Ok (HttpError 404 ("Document '" +:+ document_name +:+ "' not found")), w') ∧
        fs w' = fs w ∧ cache w' = cache w ∧ cache_file w' = cache_file w ∧
        kb_storage w' = kb_storage w ∧ ops w' = ops w.
Proof.
  intros Hm Hin.
  assert (∃ w', remove_document E document_name w = (Ok false, w') ∧
                fs w' = fs w ∧ cache w' = cache w ∧ cache_file w' = cache_file w ∧
                kb_storage w' = kb_storage w ∧ ops w' = ops w) as (w' & Hrun & H).
  { rewrite remove_document_unfold, Hm.
    destruct (select_docs_prompt document_name (_get_processed_documents_list E w)
                m1 m2 rest
                (with_out (out w ++ ["Removing document: " +:+ document_name]) w))
      as [lines ->].
    simpl. rewrite Hin. eexists. split; [done|]. done. }
  exists w'. split; [|done].
  unfold api_remove_document, try_except, bind. simpl. by rewrite Hrun.
Qed.

(** X22, at [two_reports_world]. *)
Lemma api_remove_document_ambiguous_witness :
  ∃ w', api_remove_document batch_env true "report" two_reports_world =
          (Ok (HttpError 404 "Document 'report' not found"), w') ∧
        fs w' = fs two_reports_world ∧ cache w' = cache two_reports_world ∧
        cache_file w' = cache_file two_reports_world ∧
        kb_storage w' = kb_storage two_reports_world ∧ ops w' = ops two_reports_world.
Proof.
  apply (api_remove_document_ambiguous batch_env "report" two_reports_world
           "report-a.pdf" "report-b.pdf" []).
  - vm_compute. reflexivity.
  - reflexivity.
Defined.

(** ** More on the caption normaliser *)

Lemma dict_get_set_eq (key : string) (value : json) (d : list (string * json)) :
  Dict.get key (Dict.set key value d) = Some value.
Proof.
  induction d as [|[k v] d IH]; simpl.
  - by rewrite String.eqb_refl.
  - destruct (String.eqb k key) eqn:H; simpl; by rewrite H.
Qed.

Lemma dict_get_set_ne (k key : string) (value : json) (d : list (string * json)) :
  k ≠ key → Dict.get k (Dict.set key value d) = Dict.get k d.
Proof.
  intros Hne. induction d as [|[k' v] d IH]; simpl.
  - destruct (String.eqb key k) eqn:H; [|done]. apply String.eqb_eq in H. congruence.
  - destruct (String.eqb k' key) eqn:H; simpl.
    + apply String.eqb_eq in H as ->.
      destruct (String.eqb key k) eqn:H'; [|done]. apply String.eqb_eq in H'. congruence.
    + by rewrite IH.
Qed.

Lemma dict_has_as_get (k : string) (d : list (string * json)) :
  Dict.has k d = match Dict.get k d with Some _ => true | None => false end.
Proof.
  induction d as [|[k' v] d IH]; simpl; [done|].
  destruct (String.eqb k' k); simpl; [done|apply IH].
Qed.

Lemma dict_has_false_get (k : string) (d : list (string * json)) :
  Dict.has k d = false → Dict.get k d = None.
Proof. rewrite dict_has_as_get. by destruct (Dict.get k d). Qed.

(** [if key not in d: d[key] = value] leaves the other keys alone. *)
Lemma dict_get_setdefault_ne (k key : string) (value : json) (d : list (string * json)) :
  k ≠ key →
  Dict.get k (if Dict.has key d then d else Dict.set key value d) = Dict.get k d.
Proof. intros Hne. destruct (Dict.has key d); [done|by apply dict_get_set_ne]. Qed.

(** Adding a key that is absent keeps every value that was there. *)
Lemma dict_set_absent_keeps (key : string) (value : json) (d : list (string * json))
    (k : string) (v : json) :
  Dict.has key d = false →
  Dict.get k d = Some v → Dict.get k (Dict.set key value d) = Some v.
Proof.
  intros Habs Hget. destruct (decide (k = key)) as [->|Hne].
  - by rewrite (dict_has_false_get _ _ Habs) in Hget.
  - by rewrite dict_get_set_ne.
Qed.

(** X23. The normaliser adds keys to a parsed object and never replaces
    one. When a candidate parses to an object and the result is
    serialised (the closing length check passes), the output is the
    serialisation of an object in which every key of the parsed object
    has the value it had; [additional_notes] (the first 200 characters of
    the text after the candidate), [description] (the first 200
    characters of the stripped input) and [entities] (the empty list) are
    set only where the parsed object lacked them. *)
Theorem normalize_keeps_parsed_fields (L : Lib) (input final_response : string)
    (d : list (string * json)) (extra : string) :
  first_valid L (fenced_or_whole (Py.strip input))
    (Regex.findall_json (fenced_or_whole (Py.strip input)))
    = Ok (Some (JObject d, extra)) →
  normalise_body L (Py.strip input) (fenced_or_whole (Py.strip input)) = Ok final_response →
  normalize L input = Ok final_response ∧
  ∃ fields,
    final_response = json_dumps L false (JObject fields) ∧
    (∀ k v, Dict.get k d = Some v → Dict.get k fields = Some v) ∧
    (Dict.has "additional_notes" d = false → extra ≠ "" →
     Dict.get "additional_notes" fields = Some (JString (Py.take 200 extra))) ∧
    (Dict.has "additional_notes" d = false → extra = "" →
     Dict.get "additional_notes" fields = None) ∧
    (Dict.has "description" d = false →
     Dict.get "description" fields = Some (JString (Py.take 200 (Py.strip input)))) ∧
    (Dict.has "entities" d = false → Dict.get "entities" fields = Some (JArray [])).
Proof.
  intros Hfv Hbody. split.
  { unfold normalize, robust_llm_func. by rewrite Hbody. }
  revert Hbody. unfold normalise_body. rewrite Hfv.
  cbv beta iota zeta.
  set (d1 := if Py.truthy extra && negb (Dict.has "additional_notes" d)
             then Dict.set "additional_notes" (JString (Py.take 200 extra)) d else d).
  assert (H1 : (if Py.truthy extra && negb (Dict.has "additional_notes" d)
                then JObject (Dict.set "additional_notes" (JString (Py.take 200 extra)) d)
                else JObject d) = JObject d1).
  { unfold d1. by destruct (_ && _). }
  rewrite H1. clear H1. cbv beta iota zeta.
  set (d2 := if Dict.has "description" d1 then d1
             else Dict.set "description" (JString (Py.take 200 (Py.strip input))) d1).
  set (d3 := if Dict.has "entities" d2 then d2 else Dict.set "entities" (JArray []) d2).
  destruct (entities_len (JObject d3)); [|done].
  intros [= <-]. exists d3. split; [done|].
  assert (K1 : ∀ k v, Dict.get k d = Some v → Dict.get k d1 = Some v).
  { intros k v Hk. unfold d1. destruct (Py.truthy extra); simpl; [|done].
    destruct (Dict.has "additional_notes" d) eqn:Hh; simpl; [done|].
    by apply dict_set_absent_keeps. }
  assert (K2 : ∀ k v, Dict.get k d1 = Some v → Dict.get k d2 = Some v).
  { intros k v Hk. unfold d2. destruct (Dict.has "description" d1) eqn:Hh; [done|].
    by apply dict_set_absent_keeps. }
  assert (K3 : ∀ k v, Dict.get k d2 = Some v → Dict.get k d3 = Some v).
  { intros k v Hk. unfold d3. destruct (Dict.has "entities" d2) eqn:Hh; [done|].
    by apply dict_set_absent_keeps. }
  assert (G1 : ∀ k, k ≠ "additional_notes" → Dict.get k d1 = Dict.get k d).
  { intros k Hk. unfold d1. destruct (_ && _); [by apply dict_get_set_ne|done]. }
  split; [auto|]. split; [|split; [|split]].
  - intros Habs Hne. apply K3, K2. unfold d1. rewrite Habs.
    assert (Py.truthy extra = true) as ->.
    { unfold Py.truthy. apply negb_true_iff. by apply String.eqb_neq. }
    simpl. apply dict_get_set_eq.
  - intros Habs ->. unfold d3, d2.
    rewrite !dict_get_setdefault_ne by done. unfold d1. simpl.
    by apply dict_has_false_get.
  - intros Habs. apply K3. unfold d2.
    assert (Dict.has "description" d1 = false) as ->; [|apply dict_get_set_eq].
    rewrite dict_has_as_get, G1 by done. by rewrite (dict_has_false_get _ _ Habs).
  - intros Habs. unfold d3.
    assert (Dict.has "entities" d2 = false) as ->; [|apply dict_get_set_eq].
    rewrite dict_has_as_get. unfold d2.
    rewrite dict_get_setdefault_ne, G1 by done. by rewrite (dict_has_false_get _ _ Habs).
Qed.

(** X23, on an object followed by prose: the parsed [description] is
    kept, the prose becomes [additional_notes]. *)
Lemma normalize_keeps_parsed_fields_witness :
  normalize RefLib.lib object_then_prose
    = Ok (RefLib.dumps false (JObject [("description", JString "a chart");
                                       ("additional_notes", JString "Hope this helps!");
                                       ("entities", JArray [])])) ∧
  ∃ fields,
    RefLib.dumps false (JObject [("description", JString "a chart");
                                 ("additional_notes", JString "Hope this helps!");
                                 ("entities", JArray [])])
      = json_dumps RefLib.lib false (JObject fields) ∧
    (∀ k v, Dict.get k [("description", JString "a chart")] = Some v →
            Dict.get k fields = Some v) ∧
    (Dict.has "additional_notes" [("description", JString "a chart")] = false →
     "Hope this helps!" ≠ "" →
     Dict.get "additional_notes" fields = Some (JString (Py.take 200 "Hope this helps!"))) ∧
    (Dict.has "additional_notes" [("description", JString "a chart")] = false →
     "Hope this helps!" = "" →
     Dict.get "additional_notes" fields = None) ∧
    (Dict.has "description" [("description", JString "a chart")] = false →
     Dict.get "description" fields
       = Some (JString (Py.take 200 (Py.strip object_then_prose)))) ∧
    (Dict.has "entities" [("description", JString "a chart")] = false →
     Dict.get "entities" fields = Some (JArray [])).
Proof.
  apply (normalize_keeps_parsed_fields RefLib.lib object_then_prose
           (RefLib.dumps false (JObject [("description", JString "a chart");
                                         ("additional_notes", JString "Hope this helps!");
                                         ("entities", JArray [])]))
           [("description", JString "a chart")] "Hope this helps!").
  - vm_compute. reflexivity.
  - vm_compute. reflexivity.
Defined.





(** ** The candidates of the brace pattern *)

Lemma rev_app_app (a b : string) : String.rev_app a b = String.rev a +:+ b.
Proof.
  unfold String.rev. revert b. induction a as [|c a IH]; intros b; simpl; [done|].
  rewrite (IH (String c b)), (IH (String c EmptyString)).
  by rewrite string_app_assoc.
Qed.

Lemma endswith_cons (c : ascii) (t x : string) :
  Py.endswith t x = true → Py.endswith (String c t) x = true.
Proof. intros H. cbn [Py.endswith]. rewrite H. apply orb_true_r. Qed.

Lemma prefix_cons (c : ascii) (t s : string) :
  String.prefix t s = true → String.prefix (String c t) (String c s) = true.
Proof. intros H. simpl. by destruct (ascii_dec c c). Qed.

(** A match of the brace pattern is what was read before, followed by a
    prefix of the rest that ends with a closing brace. *)
Lemma brace_scan_shape (s : string) :
  ∀ (inner : bool) (acc m : string),
  Regex.brace_scan inner s acc = Some m →
  ∃ t, m = String.rev acc +:+ t ∧ String.prefix t s = true ∧ Py.endswith t "}" = true.
Proof.
  induction s as [|c s IH]; intros inner acc m; simpl; [done|].
  assert (Hrec : ∀ inner', Regex.brace_scan inner' s (String c acc) = Some m →
            ∃ t, m = String.rev acc +:+ t ∧ String.prefix t (String c s) = true
                 ∧ Py.endswith t "}" = true).
  { intros inner' H. apply IH in H as (t & -> & Hpre & Hend).
    exists (String c t). split; [|split].
    - unfold String.rev at 1. simpl. rewrite rev_app_app. by rewrite string_app_assoc.
    - by apply prefix_cons.
    - by apply endswith_cons. }
  destruct (Ascii.eqb c Regex.lbrace) eqn:Hl.
  - destruct inner; [done|apply Hrec].
  - destruct (Ascii.eqb c Regex.rbrace) eqn:Hr; [|apply Hrec].
    destruct inner; [apply Hrec|].
    intros [= <-]. apply Ascii.eqb_eq in Hr as ->.
    exists "}". split; [|split].
    + unfold String.rev at 1. simpl. by rewrite rev_app_app.
    + apply (prefix_cons Regex.rbrace EmptyString s). by destruct s.
    + done.
Qed.

Lemma contains_cons (c : ascii) (m s : string) :
  Py.contains m s = true → Py.contains m (String c s) = true.
Proof. intros H. cbn [Py.contains]. rewrite H. apply orb_true_r. Qed.

Lemma findall_json_go_shape (s : string) :
  ∀ (skip : nat) (m : string),
  m ∈ Regex.findall_json_go s skip →
  Py.startswith m "{" = true ∧ Py.endswith m "}" = true
  ∧ (2 ≤ String.length m)%nat ∧ Py.contains m s = true.
Proof.
  induction s as [|c s IH]; intros skip m; simpl.
  - intros H. by apply elem_of_nil in H.
  - assert (Hrec : ∀ k, m ∈ Regex.findall_json_go s k →
              Py.startswith m "{" = true ∧ Py.endswith m "}" = true
              ∧ (2 ≤ String.length m)%nat ∧ Py.contains m (String c s) = true).
    { intros k H. apply IH in H as (H1 & H2 & H3 & H4).
      repeat split; try done. by apply contains_cons. }
    destruct skip as [|k]; [|apply Hrec].
    destruct (Ascii.eqb c Regex.lbrace) eqn:Hl; [|apply Hrec].
    destruct (Regex.brace_scan false s (String c EmptyString)) as [m0|] eqn:Hscan;
      [|apply Hrec].
    intros [->|Hin]%elem_of_cons; [|by apply (Hrec _ Hin)].
    apply Ascii.eqb_eq in Hl as ->.
    apply brace_scan_shape in Hscan as (t & -> & Hpre & Hend).
    change (String.rev (String Regex.lbrace EmptyString) +:+ t) with (String "{" t).
    split; [|split; [|split]].
    + apply (prefix_cons "{" EmptyString t). by destruct t.
    + by apply endswith_cons.
    + destruct t; [done|simpl; lia].
    + change (Py.contains (String Regex.lbrace t) (String Regex.lbrace s) = true).
      cbn [Py.contains]. by rewrite (prefix_cons Regex.lbrace t s Hpre).
Qed.

(** X25. Every JSON candidate is a brace-delimited piece of the text.
    Each match that the brace pattern yields starts with an opening
    brace, ends with a closing brace, has at least two characters and
    occurs in the text. *)
Theorem findall_json_candidates_are_braced (s m : string) :
  m ∈ Regex.findall_json s →
  Py.startswith m "{" = true ∧ Py.endswith m "}" = true
  ∧ (2 ≤ String.length m)%nat ∧ Py.contains m s = true.
Proof. apply findall_json_go_shape. Qed.

(** X25, on a text with an unclosed outer brace. *)
Lemma findall_json_candidates_are_braced_witness :
  Py.startswith "{b{c}}" "{" = true ∧ Py.endswith "{b{c}}" "}" = true
  ∧ (2 ≤ String.length "{b{c}}")%nat ∧ Py.contains "{b{c}}" "{a{b{c}}" = true.
Proof.
  apply (findall_json_candidates_are_braced "{a{b{c}}" "{b{c}}").
  vm_compute. apply list_elem_of_here.
Defined.

(** ** Processing and removal together *)

(** X26. [add_document] reports a skip as a failure. On an existing
    file whose path is in the cache, [add_document] without
    [force_reprocess] makes no pipeline call and returns [False]; after
    the log line that says the file was already processed, it prints
    that the document failed to process. *)
Theorem add_document_reports_skip_as_failure (E : Env) (shown : string) (p : path)
    (w : World) :
  is_Some (fs w !! p) →
  path_str p ∈ cache w →
  add_document E shown p false w =
    (Ok false,
     with_out (out w ++ ["INFO - File already processed, skipping: " +:+ path_str p;
                         "Failed to process document: " +:+ shown]) w).
Proof.
  intros Hex Hc. unfold add_document, process_document, path_exists. unfold_monad. simpl.
  rewrite bool_decide_eq_true_2 by done. simpl.
  rewrite bool_decide_eq_true_2 by done. simpl.
  f_equal. unfold with_out. simpl. by rewrite <- app_assoc.
Qed.

(** X26, at [batch_world], where [a.pdf] is cached. *)
Lemma add_document_reports_skip_as_failure_witness :
  add_document batch_env "./documents/pending/a.pdf" ("documents/pending", "a.pdf") false
    batch_world =
    (Ok false,
     with_out (out batch_world
               ++ ["INFO - File already processed, skipping: "
                   +:+ path_str ("documents/pending", "a.pdf");
                   "Failed to process document: " +:+ "./documents/pending/a.pdf"])
       batch_world).
Proof.
  apply (add_document_reports_skip_as_failure batch_env "./documents/pending/a.pdf"
           ("documents/pending", "a.pdf") batch_world).
  - vm_compute. eauto.
  - apply (bool_decide_unpack _). vm_compute. exact I.
Defined.

(** X27. Removal undoes the move of processing. When an uncached pending
    file with no namesake in the processed directory is processed (the
    pipeline returns) and then removed with
    [_remove_document_from_storage], no rename and no cache write being
    refused, the document tree is exactly as it was before the
    processing, the path is no longer in the cache, and the cache holds
    nothing that it did not hold before. *)
Theorem process_then_remove_restores_files (E : Env) (name : string) (nd : node)
    (w : World) :
  fs w !! (PENDING_DIR E, name) = Some nd →
  fs w !! (PROCESSED_DIR E, name) = None →
  path_str (PENDING_DIR E, name) ∉ cache w →
  is_ok (pipeline E (path_str (PENDING_DIR E, name)) (kb_storage w)).1 = true →
  refused E (OpRename (PENDING_DIR E, name) (PROCESSED_DIR E, name)) = false →
  refused E (OpRename (PROCESSED_DIR E, name) (PENDING_DIR E, name)) = false →
  refused E OpWriteCacheFile = false →
  ∃ w1 w2,
    process_document E (PENDING_DIR E, name) false w = (Ok true, w1) ∧
    _remove_document_from_storage E name w1 = (Ok true, w2) ∧
    fs w2 = fs w ∧
    (path_str (PENDING_DIR E, name) ∉ cache w2) ∧
    cache w2 ⊆ cache w.
Proof.
  intros Hpend Hproc Hnc Hp Hr1 Hr2 Hw.
  destruct (process_document_pending E name nd w Hpend Hnc Hp Hr1) as (w1 & Hrun & Hfs1 & Hc1).
  destruct (remove_document_from_storage_moves E name nd w1) as (w2 & Hrm & Hfs2 & Hc2 & _);
    [by rewrite Hfs1, lookup_insert_eq|done|done|].
  exists w1, w2. split; [done|]. split; [done|].
  assert (Hne : (PENDING_DIR E, name) ≠ (PROCESSED_DIR E, name)).
  { intros [= H]. by apply pending_ne_processed in H. }
  split; [|split].
  - rewrite Hfs2, Hfs1. apply map_eq. intros k.
    destruct (decide (k = (PENDING_DIR E, name))) as [->|Hk1].
    { by rewrite lookup_insert_eq. }
    rewrite lookup_insert_ne by done.
    destruct (decide (k = (PROCESSED_DIR E, name))) as [->|Hk2].
    { by rewrite lookup_delete_eq. }
    by rewrite lookup_delete_ne, lookup_insert_ne, lookup_delete_ne.
  - rewrite Hc2. intros Hin. apply elem_of_filter in Hin as [Hnot _]. apply Hnot.
    apply Is_true_true, orb_true_iff. right. apply path_str_endswith.
  - rewrite Hc2, Hc1. intros id Hin. apply elem_of_filter in Hin as [Hnot Hin].
    apply elem_of_union in Hin as [Hin|Hin]; [|done].
    apply elem_of_singleton in Hin as ->. exfalso. apply Hnot.
    apply Is_true_true, orb_true_iff. right. apply path_str_endswith.
Qed.

(** X27, at [batch_world]: [b.pdf] is processed and removed again. *)
Lemma process_then_remove_restores_files_witness :
  ∃ w1 w2,
    process_document batch_env ("documents/pending", "b.pdf") false batch_world
      = (Ok true, w1) ∧
    _remove_document_from_storage batch_env "b.pdf" w1 = (Ok true, w2) ∧
    fs w2 = fs batch_world ∧
    ("documents/pending/b.pdf" ∉ cache w2) ∧
    cache w2 ⊆ cache batch_world.
Proof.
  apply (process_then_remove_restores_files batch_env "b.pdf" (RegularFile "B") batch_world).
  - vm_compute. reflexivity.
  - vm_compute. reflexivity.
  - apply (bool_decide_unpack _). vm_compute. exact I.
  - reflexivity.
  - reflexivity.
  - reflexivity.
  - reflexivity.
Defined.
